(** * ACADEX backend: visibility, ownership lock and aggregate consistency

    A shallow embedding of the Express controllers of the ACADEX backend
    ([resourceController.ts], [reviewController.ts], [leaderboardController.ts],
    [authController.ts], [timeHelpers.ts]) over a list model of the four Supabase
    tables declared in [supabase-schema.sql].  Handlers are functions from the
    request, the clock and the store to a response and the next store. *)

From Stdlib Require Import ZArith Lia Ascii String SpecFloat.
From stdpp Require Import gmap strings list fin_maps sorting.

Local Open Scope Z_scope.

(** ** JavaScript numbers

    A JS number is an IEEE-754 binary64 value.  The operations the controllers
    use on them ([+], [/], [Number.prototype.toFixed]) are taken from the
    standard library's executable specification of binary floats. *)
Module JsNumber.

Definition prec : Z := 53.
Definition emax : Z := 1024.

Definition number := spec_float.

(** The number denoted by an integer literal or an integer column. *)
Definition of_int (z : Z) : number := binary_normalize prec emax z 0 false.

Definition add (x y : number) : number := SFadd prec emax x y.
Definition div (x y : number) : number := SFdiv prec emax x y.

(** [Number(x.toFixed(1))], as a count of tenths.  [toFixed(1)] picks the
    integer [n] for which [n / 10 - x] is as close to zero as possible, and the
    larger [n] when two are equally close; [x] is the exact value
    [m * 2^e] of the float.  A negative [x] is rounded on its absolute value.
    NaN and the infinities have no decimal rendering; they do not arise from a
    quotient of two positive finite numbers and are mapped to [0] here. *)
Definition toFixed1 (x : number) : Z :=
  match x with
  | S754_finite s m e =>
      let n :=
        if 0 <=? e then 10 * Z.pos m * 2 ^ e
        else (20 * Z.pos m + 2 ^ (- e)) / 2 ^ (- e + 1) in
      if s then - n else n
  | _ => 0
  end.

End JsNumber.

(** ** The rating aggregate

    [averageRating] is the expression of [refreshResourceRating]:
    [totalRatings > 0 ? Number((reviews.reduce((sum, item) => sum + item.rating, 0)
    / totalRatings).toFixed(1)) : 0]; the result is held in tenths, which is
    what the [numeric(3,1)] column [average_rating] stores. *)
Definition sumRatings (ratings : list Z) : JsNumber.number :=
  fold_left (fun sum rating => JsNumber.add sum (JsNumber.of_int rating))
            ratings (JsNumber.of_int 0).

Definition totalRatings (ratings : list Z) : Z := Z.of_nat (length ratings).

Definition averageRating (ratings : list Z) : Z :=
  if 0 <? totalRatings ratings
  then JsNumber.toFixed1
         (JsNumber.div (sumRatings ratings) (JsNumber.of_int (totalRatings ratings)))
  else 0.

(** The arithmetic mean rounded half-up to one decimal, in tenths: the
    rounding the specification names. *)
Definition halfUpMean (ratings : list Z) : Z :=
  if 0 <? totalRatings ratings
  then (20 * foldr Z.add 0 ratings + totalRatings ratings) / (2 * totalRatings ratings)
  else 0.

(** ** The store

    One record per table of [supabase-schema.sql]; a table is the list of its
    rows.  Identifiers are the text of the [uuid] columns, instants are
    milliseconds since the epoch (what [Date.now()] and
    [new Date(createdAt).getTime()] yield). *)
Definition uuid := string.

Inductive Privacy := public | private.

Inductive RequestStatus := open | fulfilled.

#[global] Instance Privacy_eq_dec : EqDecision Privacy.
Proof. solve_decision. Defined.

#[global] Instance RequestStatus_eq_dec : EqDecision RequestStatus.
Proof. solve_decision. Defined.

Record ProfileRow := {
  p_id : uuid;
  p_name : string;
  p_college : string;
  p_course : string;
  p_branch : string;
  p_semester : string;
  p_profile_image_url : option string;
  p_created_at : Z
}.

Record ResourceRow := {
  r_id : uuid;
  r_uploader_id : uuid;
  r_title : string;
  r_subject : string;
  r_semester : string;
  r_course : string;
  r_branch : string;
  r_type : string;
  r_year : string;
  r_tags : list string;
  r_description : string;
  r_privacy : Privacy;
  r_file_url : option string;
  r_drive_link : option string;
  r_college : string;
  r_average_rating : Z;
  r_total_ratings : Z;
  r_downloads : Z;
  r_is_exam_important : bool;
  r_created_at : Z
}.

Record ReviewRow := {
  v_id : uuid;
  v_resource_id : uuid;
  v_user_id : uuid;
  v_rating : Z;
  v_comment : string;
  v_created_at : Z
}.

Record RequestRow := {
  q_id : uuid;
  q_title : string;
  q_subject : string;
  q_semester : string;
  q_description : string;
  q_requester_id : uuid;
  q_status : RequestStatus;
  q_fulfilled_resource_id : option uuid;
  q_created_at : Z
}.

Record Db := {
  profiles : list ProfileRow;
  resources : list ResourceRow;
  reviews : list ReviewRow;
  resource_requests : list RequestRow
}.

Definition with_profiles (db : Db) (l : list ProfileRow) : Db :=
  {| profiles := l; resources := resources db; reviews := reviews db;
     resource_requests := resource_requests db |}.

Definition with_resources (db : Db) (l : list ResourceRow) : Db :=
  {| profiles := profiles db; resources := l; reviews := reviews db;
     resource_requests := resource_requests db |}.

Definition with_reviews (db : Db) (l : list ReviewRow) : Db :=
  {| profiles := profiles db; resources := resources db; reviews := l;
     resource_requests := resource_requests db |}.

Definition with_requests (db : Db) (l : list RequestRow) : Db :=
  {| profiles := profiles db; resources := resources db; reviews := reviews db;
     resource_requests := l |}.

(** *** Query primitives of the Supabase client *)

(** [.eq(column, value)] on a uuid column. *)
Definition eq_rows {A} (col : A -> uuid) (value : uuid) (rows : list A) : list A :=
  filter (fun row => col row = value) rows.

(** [.single()]: the row when exactly one row is selected, an error (no data)
    otherwise. *)
Definition single {A} (rows : list A) : option A :=
  match rows with
  | [row] => Some row
  | _ => None
  end.

(** [.maybeSingle()]: the row when exactly one is selected; [data] is null
    both when none is (no error) and when several are (an error). *)
Definition maybeSingle {A} (rows : list A) : option A :=
  match rows with
  | [row] => Some row
  | _ => None
  end.

(** [.update(patch).eq(column, value)]. *)
Definition update_rows {A} (col : A -> uuid) (value : uuid) (patch : A -> A)
    (rows : list A) : list A :=
  (fun row => if decide (col row = value) then patch row else row) <$> rows.

(** [.delete().eq(column, value)]. *)
Definition delete_rows {A} (col : A -> uuid) (value : uuid) (rows : list A) : list A :=
  filter (fun row => col row <> value) rows.

(** JS truthiness of a string that may be undefined: [!x] holds for
    [undefined], [null] and the empty string. *)
Definition truthy (x : option string) : bool :=
  match x with
  | Some s => negb (String.eqb s EmptyString)
  | None => false
  end.

(** ** Requests and responses *)

(** [req.user], set by [authMiddleware] when the bearer token is valid. *)
Record AuthenticatedUser := {
  user_id : uuid;
  user_email : option string
}.

(** [req.user?.id] *)
Definition req_user_id (user : option AuthenticatedUser) : option uuid :=
  user_id <$> user.

(** The guard [if (!req.user?.id) return res.status(401)...]: the id the
    handler goes on with, when there is one. *)
Definition authenticated (user : option AuthenticatedUser) : option uuid :=
  if truthy (req_user_id user) then req_user_id user else None.

(** A row of the leaderboard payload. *)
Record LeaderboardEntry := {
  e_id : uuid;
  e_name : string;
  e_college : string;
  e_branch : string;
  e_points : Z
}.

(** Response payloads.  [StoreError] is [{ error: error.message }] for an
    error reported by the store. *)
Inductive Body :=
| ErrorBody (error : string)
| StoreError
| MessageBody (message : string)
| ResourceBody (resource : ResourceRow)
| CreatedResourceBody (resource : ResourceRow) (pointsAwarded : Z)
| ResourcesBody (rows : list ResourceRow)
| ReviewBody (review : ReviewRow)
| ProfileBody (user : ProfileRow)
| LeaderboardBody (leaderboard : list LeaderboardEntry).

Record Response := {
  status : Z;
  body : Body
}.

Definition json (code : Z) (b : Body) : Response := {| status := code; body := b |}.

(** ** timeHelpers.ts *)

Definition LOCK_WINDOW_MS : Z := 24 * 60 * 60 * 1000.

(** [isWithin24Hours(createdAt)]; [now] is the reading of [Date.now()]. *)
Definition isWithin24Hours (now createdAt : Z) : bool :=
  now - createdAt <=? LOCK_WINDOW_MS.

(** ** Sorting

    [Array.prototype.sort] with the comparator [(a, b) => key(b) - key(a)] and
    the store's [order(column, { ascending: false })]: a stable sort by
    decreasing key. *)
Section SortDesc.
Context {A : Type} (key : A -> Z).

Fixpoint insert_desc (x : A) (l : list A) : list A :=
  match l with
  | [] => [x]
  | y :: l' => if key y <=? key x then x :: l else y :: insert_desc x l'
  end.

Definition sort_desc (l : list A) : list A := foldr insert_desc [] l.

(** The order of the result: keys do not increase. *)
Definition desc (a b : A) : Prop := key b <= key a.
End SortDesc.

(** ** resourceController.ts *)

(** The data of a successful [resourceInputSchema.safeParse]. *)
Record ResourceInput := {
  in_title : string;
  in_subject : string;
  in_semester : string;
  in_course : string;
  in_branch : string;
  in_type : string;
  in_year : string;
  in_tags : list string;
  in_description : string;
  in_privacy : Privacy;
  in_fileUrl : option string;
  in_driveLink : option string;
  in_isExamImportant : bool
}.

(** The data of a successful [resourceUpdateSchema.safeParse]
    ([resourceInputSchema.partial()]): [None] is an absent ([undefined]) field;
    the two nullable fields may be present and null. *)
Record ResourceUpdate := {
  up_title : option string;
  up_subject : option string;
  up_semester : option string;
  up_course : option string;
  up_branch : option string;
  up_type : option string;
  up_year : option string;
  up_tags : option (list string);
  up_description : option string;
  up_privacy : option Privacy;
  up_fileUrl : option (option string);
  up_driveLink : option (option string);
  up_isExamImportant : option bool
}.

(** The row [createResource] inserts; [id] and [created_at] are the column
    defaults [gen_random_uuid()] and [now()], the rating columns and
    [downloads] default to 0. *)
Definition new_resource (id uploader : uuid) (created : Z) (college : string)
    (p : ResourceInput) : ResourceRow :=
  {| r_id := id; r_uploader_id := uploader;
     r_title := in_title p; r_subject := in_subject p; r_semester := in_semester p;
     r_course := in_course p; r_branch := in_branch p; r_type := in_type p;
     r_year := in_year p; r_tags := in_tags p; r_description := in_description p;
     r_privacy := in_privacy p; r_file_url := in_fileUrl p;
     r_drive_link := in_driveLink p; r_college := college;
     r_average_rating := 0; r_total_ratings := 0; r_downloads := 0;
     r_is_exam_important := in_isExamImportant p; r_created_at := created |}.

(** The object literal passed to [.update] in [updateResource], applied to a
    row: only the columns named there are written. *)
Definition patch_resource (p : ResourceUpdate) (row : ResourceRow) : ResourceRow :=
  {| r_id := r_id row; r_uploader_id := r_uploader_id row;
     r_title := default (r_title row) (up_title p);
     r_subject := default (r_subject row) (up_subject p);
     r_semester := default (r_semester row) (up_semester p);
     r_course := default (r_course row) (up_course p);
     r_branch := default (r_branch row) (up_branch p);
     r_type := default (r_type row) (up_type p);
     r_year := default (r_year row) (up_year p);
     r_tags := default (r_tags row) (up_tags p);
     r_description := default (r_description row) (up_description p);
     r_privacy := default (r_privacy row) (up_privacy p);
     r_file_url := default (r_file_url row) (up_fileUrl p);
     r_drive_link := default (r_drive_link row) (up_driveLink p);
     r_college := r_college row;
     r_average_rating := r_average_rating row;
     r_total_ratings := r_total_ratings row;
     r_downloads := r_downloads row;
     r_is_exam_important := default (r_is_exam_important row) (up_isExamImportant p);
     r_created_at := r_created_at row |}.

(** [createResource].  [parsed] is the outcome of
    [resourceInputSchema.safeParse(req.body)], [None] when it fails; [now] and
    [fresh] are what the store puts in [created_at] and [id]. *)
Definition createResource (user : option AuthenticatedUser)
    (parsed : option ResourceInput) (now : Z) (fresh : uuid) (db : Db)
    : Response * Db :=
  match authenticated user with
  | None => (json 401 (ErrorBody "Unauthorized"), db)
  | Some uid =>
    match parsed with
    | None => (json 400 (ErrorBody "Invalid resource data"), db)
    | Some p =>
      match single (eq_rows p_id uid (profiles db)) with
      | None => (json 404 (ErrorBody "User profile not found"), db)
      | Some profile =>
        (* primary key of [resources] *)
        if decide (fresh ∈ r_id <$> resources db)
        then (json 500 StoreError, db)
        else
          let data := new_resource fresh uid now (p_college profile) p in
          (json 201 (CreatedResourceBody data
                       (if decide (in_privacy p = public) then 10 else 5)),
           with_resources db (resources db ++ [data]))
      end
    end
  end.

(** [getResources]; [query] stands for the column filters and the search term
    of the request, which the store evaluates. *)
Definition getResources (user : option AuthenticatedUser)
    (query : ResourceRow -> bool) (db : Db) : Response :=
  let userId := req_user_id user in
  let userCollege : option string :=
    if truthy userId
    then p_college <$> single (eq_rows p_id (default EmptyString userId) (profiles db))
    else None in
  let data := sort_desc r_created_at (List.filter query (resources db)) in
  let visible :=
    List.filter (fun row =>
      if decide (r_privacy row = public) then true
      else if negb (truthy userId) || negb (truthy userCollege) then false
      else bool_decide (Some (r_uploader_id row) = userId)
           || bool_decide (Some (r_college row) = userCollege)) data in
  json 200 (ResourcesBody visible).

Definition getResourceById (user : option AuthenticatedUser) (id : uuid) (db : Db)
    : Response :=
  let userId := req_user_id user in
  match single (eq_rows r_id id (resources db)) with
  | None => json 404 (ErrorBody "Resource not found")
  | Some resource =>
    if decide (r_privacy resource = private) then
      if negb (truthy userId)
      then json 403 (ErrorBody "Private resource access denied")
      else
        let profile := single (eq_rows p_id (default EmptyString userId) (profiles db)) in
        let allowed :=
          bool_decide (Some (r_uploader_id resource) = userId)
          || bool_decide (p_college <$> profile = Some (r_college resource)) in
        if negb allowed
        then json 403 (ErrorBody "Private resource access denied")
        else json 200 (ResourceBody resource)
    else json 200 (ResourceBody resource)
  end.

(** [x === undefined] for an optional field of a parsed payload. *)
Definition absent {A} (x : option A) : bool :=
  match x with
  | None => true
  | Some _ => false
  end.

(** Whether the object literal passed to [.update] in [updateResource] names
    no column.  The store then writes nothing and returns no row, which
    [.single()] reports as an error. *)
Definition resource_patch_empty (p : ResourceUpdate) : bool :=
  absent (up_title p) && absent (up_subject p) && absent (up_semester p)
  && absent (up_course p) && absent (up_branch p) && absent (up_type p)
  && absent (up_year p) && absent (up_tags p) && absent (up_description p)
  && absent (up_privacy p) && absent (up_fileUrl p) && absent (up_driveLink p)
  && absent (up_isExamImportant p).

(** [updateResource].  [parsed] is the outcome of
    [resourceUpdateSchema.safeParse(req.body)], [id] the route parameter.
    [.single()] reports an error whenever it does not get exactly one row, so
    a failed update is answered with the store's message. *)
Definition updateResource (user : option AuthenticatedUser)
    (parsed : option ResourceUpdate) (id : uuid) (now : Z) (db : Db)
    : Response * Db :=
  match authenticated user with
  | None => (json 401 (ErrorBody "Unauthorized"), db)
  | Some uid =>
    match parsed with
    | None => (json 400 (ErrorBody "Invalid resource update"), db)
    | Some p =>
      match single (eq_rows r_id id (resources db)) with
      | None => (json 404 (ErrorBody "Resource not found"), db)
      | Some existing =>
        if decide (r_uploader_id existing <> uid)
        then (json 403 (ErrorBody "You can only edit your own resource"), db)
        else if negb (isWithin24Hours now (r_created_at existing))
        then (json 403 (ErrorBody "Resource edit lock is 24 hours"), db)
        else if resource_patch_empty p then (json 500 StoreError, db)
        else
          let rows := update_rows r_id id (patch_resource p) (resources db) in
          match single (eq_rows r_id id rows) with
          | None => (json 500 StoreError, db)
          | Some updated => (json 200 (ResourceBody updated), with_resources db rows)
          end
      end
    end
  end.

(** Deleting a resource row takes its reviews with it
    ([on delete cascade]) and clears the requests it fulfilled
    ([on delete set null]). *)
Definition clear_fulfilled (id : uuid) (row : RequestRow) : RequestRow :=
  if decide (q_fulfilled_resource_id row = Some id)
  then {| q_id := q_id row; q_title := q_title row; q_subject := q_subject row;
          q_semester := q_semester row; q_description := q_description row;
          q_requester_id := q_requester_id row; q_status := q_status row;
          q_fulfilled_resource_id := None; q_created_at := q_created_at row |}
  else row.

Definition delete_resource_rows (id : uuid) (db : Db) : Db :=
  {| profiles := profiles db;
     resources := delete_rows r_id id (resources db);
     reviews := delete_rows v_resource_id id (reviews db);
     resource_requests := clear_fulfilled id <$> resource_requests db |}.

Definition deleteResource (user : option AuthenticatedUser) (id : uuid) (now : Z)
    (db : Db) : Response * Db :=
  match authenticated user with
  | None => (json 401 (ErrorBody "Unauthorized"), db)
  | Some uid =>
    match single (eq_rows r_id id (resources db)) with
    | None => (json 404 (ErrorBody "Resource not found"), db)
    | Some existing =>
      if decide (r_uploader_id existing <> uid)
      then (json 403 (ErrorBody "You can only delete your own resource"), db)
      else if negb (isWithin24Hours now (r_created_at existing))
      then (json 403 (ErrorBody "Resource delete lock is 24 hours"), db)
      else (json 200 (MessageBody "Resource deleted"), delete_resource_rows id db)
    end
  end.

(** The object literal [{ status: "fulfilled", fulfilled_resource_id: resourceId }]
    applied to a request row. *)
Definition patch_fulfilled (resourceId : uuid) (row : RequestRow) : RequestRow :=
  {| q_id := q_id row; q_title := q_title row; q_subject := q_subject row;
     q_semester := q_semester row; q_description := q_description row;
     q_requester_id := q_requester_id row; q_status := fulfilled;
     q_fulfilled_resource_id := Some resourceId; q_created_at := q_created_at row |}.

(** [fulfillRequest]; [resourceId] is the field of the request body, [id] the
    route parameter.  The update is refused by the store, with an error, when
    it would leave a row whose [fulfilled_resource_id] references no resource
    (the column's foreign key); an update that selects no row is not an
    error. *)
Definition fulfillRequest (user : option AuthenticatedUser)
    (resourceId : option string) (id : uuid) (db : Db) : Response * Db :=
  match authenticated user with
  | None => (json 401 (ErrorBody "Unauthorized"), db)
  | Some _ =>
    if negb (truthy resourceId)
    then (json 400 (ErrorBody "resourceId is required"), db)
    else
      let rid := default EmptyString resourceId in
      if bool_decide (eq_rows q_id id (resource_requests db) <> [])
         && bool_decide (rid ∉ r_id <$> resources db)
      then (json 500 StoreError, db)
      else (json 200 (MessageBody "Request fulfilled"),
            with_requests db
              (update_rows q_id id (patch_fulfilled rid) (resource_requests db)))
  end.

(** ** authController.ts: [updateProfile] *)

Record ProfileUpdate := {
  pu_name : option string;
  pu_college : option string;
  pu_course : option string;
  pu_branch : option string;
  pu_semester : option string;
  pu_profileImageUrl : option (option string)
}.

Definition patch_profile (p : ProfileUpdate) (row : ProfileRow) : ProfileRow :=
  {| p_id := p_id row;
     p_name := default (p_name row) (pu_name p);
     p_college := default (p_college row) (pu_college p);
     p_course := default (p_course row) (pu_course p);
     p_branch := default (p_branch row) (pu_branch p);
     p_semester := default (p_semester row) (pu_semester p);
     p_profile_image_url := default (p_profile_image_url row) (pu_profileImageUrl p);
     p_created_at := p_created_at row |}.

(** Whether the object literal passed to [.update] in [updateProfile] names
    no column. *)
Definition profile_patch_empty (p : ProfileUpdate) : bool :=
  absent (pu_name p) && absent (pu_college p) && absent (pu_course p)
  && absent (pu_branch p) && absent (pu_semester p)
  && absent (pu_profileImageUrl p).

(** [updateProfile].  [parsed] is the outcome of
    [updateProfileSchema.safeParse(req.body)]. *)
Definition updateProfile (user : option AuthenticatedUser)
    (parsed : option ProfileUpdate) (db : Db) : Response * Db :=
  match authenticated user with
  | None => (json 401 (ErrorBody "Unauthorized"), db)
  | Some uid =>
    match parsed with
    | None => (json 400 (ErrorBody "Invalid profile update"), db)
    | Some payload =>
      if profile_patch_empty payload then (json 500 StoreError, db)
      else
        let rows := update_rows p_id uid (patch_profile payload) (profiles db) in
        match single (eq_rows p_id uid rows) with
        | None => (json 500 StoreError, db)
        | Some updated => (json 200 (ProfileBody updated), with_profiles db rows)
        end
    end
  end.

(** ** reviewController.ts *)

(** The fields of a review request body.  That [resourceId] has the shape of
    a uuid and that [rating] is an integer is carried by the types. *)
Record ReviewRequest := {
  body_resourceId : uuid;
  body_rating : Z;
  body_comment : option string
}.

Record ReviewInput := {
  in_resourceId : uuid;
  in_rating : Z;
  in_comment : string
}.

(** [reviewSchema.safeParse(req.body)] *)
Definition reviewSchema (b : ReviewRequest) : option ReviewInput :=
  if (1 <=? body_rating b) && (body_rating b <=? 5)
     && (String.length (default EmptyString (body_comment b)) <=? 1000)%nat
  then Some {| in_resourceId := body_resourceId b; in_rating := body_rating b;
               in_comment := default EmptyString (body_comment b) |}
  else None.

Record ReviewUpdateRequest := {
  upd_rating : option Z;
  upd_comment : option string
}.

(** [reviewUpdateSchema.safeParse(req.body)] *)
Definition reviewUpdateSchema (b : ReviewUpdateRequest) : option ReviewUpdateRequest :=
  if match upd_rating b with Some r => (1 <=? r) && (r <=? 5) | None => true end
     && match upd_comment b with
        | Some c => (String.length c <=? 1000)%nat
        | None => true
        end
  then Some b else None.

(** What the store may answer to the two calls of [refreshResourceRating].  A
    failed call of the Supabase client resolves to [{ data: null, error }]; it
    does not throw. *)
Inductive StoreFault := NoFault | SelectReviewsFails | UpdateResourceFails.

#[global] Instance StoreFault_eq_dec : EqDecision StoreFault.
Proof. solve_decision. Defined.

(** [.from("reviews").select("rating").eq("resource_id", resourceId)] *)
Definition ratings_of (resourceId : uuid) (db : Db) : list Z :=
  v_rating <$> eq_rows v_resource_id resourceId (reviews db).

Definition set_rating (average total : Z) (row : ResourceRow) : ResourceRow :=
  {| r_id := r_id row; r_uploader_id := r_uploader_id row;
     r_title := r_title row; r_subject := r_subject row;
     r_semester := r_semester row; r_course := r_course row;
     r_branch := r_branch row; r_type := r_type row; r_year := r_year row;
     r_tags := r_tags row; r_description := r_description row;
     r_privacy := r_privacy row; r_file_url := r_file_url row;
     r_drive_link := r_drive_link row; r_college := r_college row;
     r_average_rating := average; r_total_ratings := total;
     r_downloads := r_downloads row;
     r_is_exam_important := r_is_exam_important row;
     r_created_at := r_created_at row |}.

(** [refreshResourceRating]: neither call's [error] is read. *)
Definition refreshResourceRating (fault : StoreFault) (resourceId : uuid) (db : Db)
    : Db :=
  let reviews : option (list Z) :=
    if decide (fault = SelectReviewsFails) then None
    else Some (ratings_of resourceId db) in
  let total := totalRatings (default [] reviews) in
  let average := averageRating (default [] reviews) in
  if decide (fault = UpdateResourceFails) then db
  else with_resources db
         (update_rows r_id resourceId (set_rating average total) (resources db)).

(** The constraints of table [reviews] an insert is checked against: primary
    key, the two foreign keys, the rating check and
    [unique (resource_id, user_id)]. *)
Definition review_insert_ok (row : ReviewRow) (db : Db) : bool :=
  bool_decide (v_id row ∉ v_id <$> reviews db)
  && bool_decide (v_resource_id row ∈ r_id <$> resources db)
  && bool_decide (v_user_id row ∈ p_id <$> profiles db)
  && (1 <=? v_rating row) && (v_rating row <=? 5)
  && bool_decide ((v_resource_id row, v_user_id row)
                    ∉ (fun v => (v_resource_id v, v_user_id v)) <$> reviews db).

(** [createReview].  [fault] is the store's behaviour during
    [refreshResourceRating], [now] and [fresh] what it puts in [created_at]
    and [id]. *)
Definition createReview (fault : StoreFault) (user : option AuthenticatedUser)
    (req : ReviewRequest) (now : Z) (fresh : uuid) (db : Db) : Response * Db :=
  match authenticated user with
  | None => (json 401 (ErrorBody "Unauthorized"), db)
  | Some uid =>
    match reviewSchema req with
    | None => (json 400 (ErrorBody "Invalid review data"), db)
    | Some payload =>
      let existing :=
        maybeSingle (eq_rows v_user_id uid
                       (eq_rows v_resource_id (in_resourceId payload) (reviews db))) in
      match existing with
      | Some _ =>
        (json 409 (ErrorBody "You can submit only one review per resource"), db)
      | None =>
        let data :=
          {| v_id := fresh; v_resource_id := in_resourceId payload; v_user_id := uid;
             v_rating := in_rating payload; v_comment := in_comment payload;
             v_created_at := now |} in
        if negb (review_insert_ok data db) then (json 500 StoreError, db)
        else
          let db1 := with_reviews db (reviews db ++ [data]) in
          (json 201 (ReviewBody data),
           refreshResourceRating fault (in_resourceId payload) db1)
      end
    end
  end.

Definition patch_review (p : ReviewUpdateRequest) (row : ReviewRow) : ReviewRow :=
  {| v_id := v_id row; v_resource_id := v_resource_id row; v_user_id := v_user_id row;
     v_rating := default (v_rating row) (upd_rating p);
     v_comment := default (v_comment row) (upd_comment p);
     v_created_at := v_created_at row |}.

(** Whether the object literal passed to [.update] in [updateReview] names
    no column. *)
Definition review_patch_empty (p : ReviewUpdateRequest) : bool :=
  absent (upd_rating p) && absent (upd_comment p).

Definition updateReview (fault : StoreFault) (user : option AuthenticatedUser)
    (req : ReviewUpdateRequest) (id : uuid) (now : Z) (db : Db) : Response * Db :=
  match authenticated user with
  | None => (json 401 (ErrorBody "Unauthorized"), db)
  | Some uid =>
    match reviewUpdateSchema req with
    | None => (json 400 (ErrorBody "Invalid review update"), db)
    | Some p =>
      match single (eq_rows v_id id (reviews db)) with
      | None => (json 404 (ErrorBody "Review not found"), db)
      | Some existing =>
        if decide (v_user_id existing <> uid)
        then (json 403 (ErrorBody "You can only edit your own review"), db)
        else if negb (isWithin24Hours now (v_created_at existing))
        then (json 403 (ErrorBody "Review edit lock is 24 hours"), db)
        else if review_patch_empty p then (json 500 StoreError, db)
        else
          let rows := update_rows v_id id (patch_review p) (reviews db) in
          match single (eq_rows v_id id rows) with
          | None => (json 500 StoreError, db)
          | Some data =>
            (json 200 (ReviewBody data),
             refreshResourceRating fault (v_resource_id existing)
               (with_reviews db rows))
          end
      end
    end
  end.

Definition deleteReview (fault : StoreFault) (user : option AuthenticatedUser)
    (id : uuid) (now : Z) (db : Db) : Response * Db :=
  match authenticated user with
  | None => (json 401 (ErrorBody "Unauthorized"), db)
  | Some uid =>
    match single (eq_rows v_id id (reviews db)) with
    | None => (json 404 (ErrorBody "Review not found"), db)
    | Some existing =>
      if decide (v_user_id existing <> uid)
      then (json 403 (ErrorBody "You can only delete your own review"), db)
      else if negb (isWithin24Hours now (v_created_at existing))
      then (json 403 (ErrorBody "Review delete lock is 24 hours"), db)
      else
        (json 200 (MessageBody "Review deleted"),
         refreshResourceRating fault (v_resource_id existing)
           (with_reviews db (delete_rows v_id id (reviews db))))
    end
  end.

(** ** leaderboardController.ts *)

(** The [for] loop filling [pointsByUser].  Points are small integers, on
    which JS addition is exact; they are held in [Z]. *)
Definition pointsByUser (rows : list ResourceRow) : gmap uuid Z :=
  fold_left
    (fun (m : gmap uuid Z) item =>
       let points := if decide (r_privacy item = public) then 10 else 5 in
       <[r_uploader_id item := default 0 (m !! r_uploader_id item) + points]> m)
    rows ∅.

Definition leaderboard_entry (m : gmap uuid Z) (profile : ProfileRow)
    : LeaderboardEntry :=
  {| e_id := p_id profile; e_name := p_name profile;
     e_college := p_college profile; e_branch := p_branch profile;
     e_points := default 0 (m !! p_id profile) |}.

(** The body of [getLeaderboard] between the two reads and the response. *)
Definition computeLeaderboard (profileRows : list ProfileRow)
    (resourceRows : list ResourceRow) : list LeaderboardEntry :=
  sort_desc e_points (leaderboard_entry (pointsByUser resourceRows) <$> profileRows).

Definition getLeaderboard (db : Db) : Response :=
  json 200 (LeaderboardBody (computeLeaderboard (profiles db) (resources db))).

(** ** Contribution scoring *)

(** Number of resources of visibility [vis] uploaded by [u]. *)
Definition owned (u : uuid) (vis : Privacy) (rows : list ResourceRow) : Z :=
  Z.of_nat (length (filter (fun r => r_uploader_id r = u ∧ r_privacy r = vis) rows)).

(** The points the specification awards to [u]. *)
Definition points_spec (u : uuid) (rows : list ResourceRow) : Z :=
  10 * owned u public rows + 5 * owned u private rows.

(** The leaderboard entry the specification describes for a profile. *)
Definition entry_spec (rows : list ResourceRow) (profile : ProfileRow)
    : LeaderboardEntry :=
  {| e_id := p_id profile; e_name := p_name profile;
     e_college := p_college profile; e_branch := p_branch profile;
     e_points := points_spec (p_id profile) rows |}.

(** ** The ownership and time-lock guard *)

Inductive Outcome := Allowed | NotOwner | LockExpired.

(** The guard as the specification words it. *)
Definition canMutate (viewer owner : uuid) (createdAt now : Z) : Outcome :=
  if decide (viewer = owner)
  then if decide (now - createdAt > LOCK_WINDOW_MS) then LockExpired else Allowed
  else NotOwner.

(** ** Columns no resource or profile update writes *)

(** The columns of a resource row that only creation and the rating
    aggregator set. *)
Definition frame (r : ResourceRow) : uuid * uuid * string * Z * Z * Z :=
  (r_id r, r_uploader_id r, r_college r, r_created_at r,
   r_average_rating r, r_total_ratings r).

(** ** Visibility *)

(** A resolved viewer identity, as the specification has it. *)
Record Viewer := {
  viewer_id : uuid;
  viewer_affiliation : string
}.

(** The visibility predicate as the specification words it. *)
Definition canView (viewer : option Viewer) (r : ResourceRow) : bool :=
  match r_privacy r with
  | public => true
  | private =>
      match viewer with
      | None => false
      | Some v =>
          bool_decide (viewer_id v = r_uploader_id r)
          || bool_decide (viewer_affiliation v = r_college r)
      end
  end.

(** The request's user and the store resolve to [viewer]: no usable
    [req.user] for the anonymous viewer; otherwise the authenticated id, whose
    single profile row carries the viewer's affiliation.  Affiliations are not
    empty: both [signUpSchema] and [updateProfileSchema] require
    [college] to have at least two characters. *)
Definition resolves (user : option AuthenticatedUser) (db : Db)
    (viewer : option Viewer) : Prop :=
  match viewer with
  | None => authenticated user = None
  | Some v =>
      authenticated user = Some (viewer_id v)
      ∧ p_college <$> single (eq_rows p_id (viewer_id v) (profiles db))
        = Some (viewer_affiliation v)
      ∧ viewer_affiliation v <> EmptyString
  end.

(** ** Sequences of requests *)

(** A state-changing request, with everything its handler reads besides the
    store. *)
Inductive Op :=
| CreateResource (user : option AuthenticatedUser) (parsed : option ResourceInput)
    (now : Z) (fresh : uuid)
| UpdateResource (user : option AuthenticatedUser) (parsed : option ResourceUpdate)
    (id : uuid) (now : Z)
| DeleteResource (user : option AuthenticatedUser) (id : uuid) (now : Z)
| FulfillRequest (user : option AuthenticatedUser) (resourceId : option string)
    (id : uuid)
| UpdateProfile (user : option AuthenticatedUser) (parsed : option ProfileUpdate)
| CreateReview (fault : StoreFault) (user : option AuthenticatedUser)
    (req : ReviewRequest) (now : Z) (fresh : uuid)
| UpdateReview (fault : StoreFault) (user : option AuthenticatedUser)
    (req : ReviewUpdateRequest) (id : uuid) (now : Z)
| DeleteReview (fault : StoreFault) (user : option AuthenticatedUser) (id : uuid)
    (now : Z).

Definition handle (op : Op) (db : Db) : Response * Db :=
  match op with
  | CreateResource user parsed now fresh => createResource user parsed now fresh db
  | UpdateResource user parsed id now => updateResource user parsed id now db
  | DeleteResource user id now => deleteResource user id now db
  | FulfillRequest user resourceId id => fulfillRequest user resourceId id db
  | UpdateProfile user parsed => updateProfile user parsed db
  | CreateReview fault user req now fresh => createReview fault user req now fresh db
  | UpdateReview fault user req id now => updateReview fault user req id now db
  | DeleteReview fault user id now => deleteReview fault user id now db
  end.

Definition run (ops : list Op) (db : Db) : Db :=
  fold_left (fun db op => (handle op db).2) ops db.

(** The store answers every call of the aggregator. *)
Definition fault_free (op : Op) : Prop :=
  match op with
  | CreateReview fault _ _ _ _ | UpdateReview fault _ _ _ _ | DeleteReview fault _ _ _ =>
      fault = NoFault
  | _ => True
  end.

(** ** One review per reviewer and resource *)

Definition review_pair (v : ReviewRow) : uuid * uuid := (v_resource_id v, v_user_id v).

Definition unique_pairs (db : Db) : Prop := NoDup (review_pair <$> reviews db).

Definition reviews_by (resourceId reviewerId : uuid) (db : Db) : list ReviewRow :=
  eq_rows v_user_id reviewerId (eq_rows v_resource_id resourceId (reviews db)).

(** ** Consistency of the rating aggregate *)

Definition reviews_reference_resources (db : Db) : Prop :=
  forall v, v ∈ reviews db -> v_resource_id v ∈ r_id <$> resources db.

Definition ratings_in_range (db : Db) : Prop :=
  forall v, v ∈ reviews db -> 1 <= v_rating v <= 5.

(** The stored aggregate of [r] is the one the aggregator computes from the
    reviews now attached to [r]. *)
Definition aggregate_ok (db : Db) (r : ResourceRow) : Prop :=
  r_total_ratings r = totalRatings (ratings_of (r_id r) db)
  ∧ r_average_rating r = averageRating (ratings_of (r_id r) db).

Definition consistent (db : Db) : Prop :=
  reviews_reference_resources db
  ∧ ratings_in_range db
  ∧ forall r, r ∈ resources db -> aggregate_ok db r.

(** *** Rounding of the mean *)

#[global] Instance spec_float_eq_dec : EqDecision spec_float.
Proof. solve_decision. Defined.

(** Integer sums up to 100 are exact. *)
Definition add_exact_upto_100 : bool :=
  forallb (fun a =>
    forallb (fun r =>
      bool_decide (JsNumber.add (JsNumber.of_int a) (JsNumber.of_int r)
                   = JsNumber.of_int (a + r)))
      (seqZ 1 5))
    (seqZ 0 96).

(** For fewer than 20 ratings between 1 and 5, [toFixed(1)] of the quotient
    is the mean rounded half-up. *)
Definition toFixed1_half_up_below_20 : bool :=
  forallb (fun n =>
    forallb (fun s =>
      bool_decide (JsNumber.toFixed1 (JsNumber.div (JsNumber.of_int s) (JsNumber.of_int n))
                   = (20 * s + n) / (2 * n)))
      (seqZ n (4 * n + 1)))
    (seqZ 1 19).

Definition rating_ok (r : Z) : Prop := 1 <= r <= 5.

(** ** A sample store *)

Fixpoint rep (n : nat) (c : ascii) : string :=
  match n with
  | O => EmptyString
  | S n' => String c (rep n' c)
  end.

Definition two_digits (n : nat) : string :=
  String (ascii_of_nat (48 + n / 10)) (String (ascii_of_nat (48 + n mod 10)) EmptyString).

(** A version-4 uuid made of the hexadecimal digit [tag] and a two-digit
    serial number. *)
Definition demo_uuid (tag : ascii) (n : nat) : uuid :=
  String.concat "-"
    [rep 8 tag; rep 4 tag; String "4" (rep 3 tag); String "8" (rep 3 tag);
     String.append (rep 10 "0") (two_digits n)].

Definition demo_user (n : nat) : option AuthenticatedUser :=
  Some {| user_id := demo_uuid "a" n; user_email := None |}.

Definition demo_profile (n : nat) : ProfileRow :=
  {| p_id := demo_uuid "a" n; p_name := "Student";
     p_college := if Nat.eqb n 2 then "Christ University" else "St. Claret College";
     p_course := "BCA"; p_branch := "General"; p_semester := "4";
     p_profile_image_url := None; p_created_at := 1700000000000 |}.

Definition demo_request : RequestRow :=
  {| q_id := demo_uuid "d" 1; q_title := "Unit 3 notes"; q_subject := "DBMS";
     q_semester := "4"; q_description := EmptyString;
     q_requester_id := demo_uuid "a" 2; q_status := open;
     q_fulfilled_resource_id := None; q_created_at := 1700000000000 |}.

(** Twenty-one students (number 2 of another college), one open request, no
    resource and no review yet. *)
Definition demo_db : Db :=
  {| profiles := demo_profile <$> seq 0 21; resources := []; reviews := [];
     resource_requests := [demo_request] |}.

Definition demo_input (vis : Privacy) : ResourceInput :=
  {| in_title := "DBMS notes"; in_subject := "DBMS"; in_semester := "4";
     in_course := "BCA"; in_branch := "General"; in_type := "Notes";
     in_year := "2024"; in_tags := []; in_description := EmptyString;
     in_privacy := vis; in_fileUrl := None; in_driveLink := None;
     in_isExamImportant := false |}.

Definition demo_t0 : Z := 1700000100000.

Definition demo_resource_id : uuid := demo_uuid "b" 1.

(** Student 0 uploads a private resource at [demo_t0]. *)
Definition demo_upload : Op :=
  CreateResource (demo_user 0) (Some (demo_input private)) demo_t0 demo_resource_id.

(** Student [n] rates that resource [rating], one second after student
    [n - 1] could have. *)
Definition demo_review (n : nat) (rating : Z) : Op :=
  CreateReview NoFault (demo_user n)
    {| body_resourceId := demo_resource_id; body_rating := rating;
       body_comment := None |}
    (demo_t0 + 1000 * Z.of_nat n) (demo_uuid "c" n).

Definition demo_db1 : Db := run [demo_upload] demo_db.

Definition demo_resource : ResourceRow :=
  new_resource demo_resource_id (demo_uuid "a" 0) demo_t0 "St. Claret College"
    (demo_input private).

(** Students 1 to 17 rate the resource 1 and students 18 to 20 rate it 2:
    twenty reviews whose mean is 1.15. *)
Definition demo_twenty_reviews : list Op :=
  demo_upload
  :: ((fun n => demo_review n 1) <$> seq 1 17) ++ ((fun n => demo_review n 2) <$> seq 18 3).

Definition demo_viewer (n : nat) : Viewer :=
  {| viewer_id := demo_uuid "a" n; viewer_affiliation := p_college (demo_profile n) |}.

Definition demo_review_row (n : nat) (rating : Z) : ReviewRow :=
  {| v_id := demo_uuid "c" n; v_resource_id := demo_resource_id;
     v_user_id := demo_uuid "a" n; v_rating := rating; v_comment := EmptyString;
     v_created_at := demo_t0 + 1000 * Z.of_nat n |}.

Definition demo_review_request (rating : Z) : ReviewRequest :=
  {| body_resourceId := demo_resource_id; body_rating := rating;
     body_comment := None |}.

(** The store after the upload and the reviews of students 1 (rating 5) and
    2 (rating 3). *)
Definition demo_db2 : Db := run [demo_upload; demo_review 1 5; demo_review 2 3] demo_db.

Definition no_update : ResourceUpdate :=
  {| up_title := None; up_subject := None; up_semester := None; up_course := None;
     up_branch := None; up_type := None; up_year := None; up_tags := None;
     up_description := None; up_privacy := None; up_fileUrl := None;
     up_driveLink := None; up_isExamImportant := None |}.

(** An edit that makes a resource public and changes nothing else. *)
Definition demo_publish : ResourceUpdate :=
  {| up_title := None; up_subject := None; up_semester := None; up_course := None;
     up_branch := None; up_type := None; up_year := None; up_tags := None;
     up_description := None; up_privacy := Some public; up_fileUrl := None;
     up_driveLink := None; up_isExamImportant := None |}.

(** A profile update and a review update that name no field. *)
Definition no_profile_update : ProfileUpdate :=
  {| pu_name := None; pu_college := None; pu_course := None; pu_branch := None;
     pu_semester := None; pu_profileImageUrl := None |}.

Definition no_review_update : ReviewUpdateRequest :=
  {| upd_rating := None; upd_comment := None |}.

(** * The remaining handlers, the routers and the client *)

(** ** Responses with other payloads

    An answer of a handler whose payload is not a [Body]: the error response,
    or the status and the payload. *)
Inductive Reply (A : Type) :=
| Rejected (response : Response)
| Replied (code : Z) (data : A).

Arguments Rejected {A} response.
Arguments Replied {A} code data.

Definition reply_status {A} (r : Reply A) : Z :=
  match r with
  | Rejected response => status response
  | Replied code _ => code
  end.

(** [row.profiles?.name ?? "Unknown"]: the name of the profile the foreign
    key column points to, as the select embeds it. *)
Definition joined_name (id : uuid) (db : Db) : string :=
  default "Unknown" (p_name <$> single (eq_rows p_id id (profiles db))).

(** ** resourceController.ts: requests *)

(** The request objects [getRequests] and [createRequest] send. *)
Record RequestView := {
  rq_id : uuid;
  rq_title : string;
  rq_subject : string;
  rq_semester : string;
  rq_description : string;
  rq_requesterId : uuid;
  rq_requesterName : string;
  rq_status : RequestStatus;
  rq_fulfilledResourceId : option uuid;
  rq_createdAt : Z
}.

Definition request_view (db : Db) (row : RequestRow) : RequestView :=
  {| rq_id := q_id row; rq_title := q_title row; rq_subject := q_subject row;
     rq_semester := q_semester row; rq_description := q_description row;
     rq_requesterId := q_requester_id row;
     rq_requesterName := joined_name (q_requester_id row) db;
     rq_status := q_status row;
     rq_fulfilledResourceId := q_fulfilled_resource_id row;
     rq_createdAt := q_created_at row |}.

(** [getRequests]: every request, newest first. *)
Definition getRequests (db : Db) : Reply (list RequestView) :=
  Replied 200 (request_view db <$> sort_desc q_created_at (resource_requests db)).

(** The data of a successful [requestInputSchema.safeParse]. *)
Record RequestInput := {
  ri_title : string;
  ri_subject : string;
  ri_semester : string;
  ri_description : string
}.

(** The row [createRequest] inserts; [status] defaults to ['open'] and
    [fulfilled_resource_id] to null. *)
Definition new_request (id requester : uuid) (created : Z) (p : RequestInput)
    : RequestRow :=
  {| q_id := id; q_title := ri_title p; q_subject := ri_subject p;
     q_semester := ri_semester p; q_description := ri_description p;
     q_requester_id := requester; q_status := open;
     q_fulfilled_resource_id := None; q_created_at := created |}.

(** [createRequest].  [parsed] is the outcome of
    [requestInputSchema.safeParse(req.body)]; the insert is refused by the
    store when [fresh] is already a request id (primary key) or the requester
    has no profile row (foreign key). *)
Definition createRequest (user : option AuthenticatedUser)
    (parsed : option RequestInput) (now : Z) (fresh : uuid) (db : Db)
    : Reply RequestView * Db :=
  match authenticated user with
  | None => (Rejected (json 401 (ErrorBody "Unauthorized")), db)
  | Some uid =>
    match parsed with
    | None => (Rejected (json 400 (ErrorBody "Invalid request data")), db)
    | Some p =>
      if bool_decide (fresh ∈ q_id <$> resource_requests db)
         || bool_decide (uid ∉ p_id <$> profiles db)
      then (Rejected (json 500 StoreError), db)
      else
        let data := new_request fresh uid now p in
        let db' := with_requests db (resource_requests db ++ [data]) in
        (Replied 201 (request_view db' data), db')
    end
  end.

(** ** reviewController.ts: [getReviewsForResource] *)

Record ReviewView := {
  rv_id : uuid;
  rv_resourceId : uuid;
  rv_userId : uuid;
  rv_userName : string;
  rv_rating : Z;
  rv_comment : string;
  rv_createdAt : Z
}.

Definition review_view (db : Db) (row : ReviewRow) : ReviewView :=
  {| rv_id := v_id row; rv_resourceId := v_resource_id row;
     rv_userId := v_user_id row; rv_userName := joined_name (v_user_id row) db;
     rv_rating := v_rating row; rv_comment := v_comment row;
     rv_createdAt := v_created_at row |}.

(** [getReviewsForResource]; [resourceId] is [req.query.resourceId] when it
    is a string and [None] otherwise. *)
Definition getReviewsForResource (resourceId : option string) (db : Db)
    : Reply (list ReviewView) :=
  if negb (truthy resourceId)
  then Rejected (json 400 (ErrorBody "resourceId query parameter is required"))
  else
    Replied 200
      (review_view db
         <$> sort_desc v_created_at
               (eq_rows v_resource_id (default EmptyString resourceId) (reviews db))).

(** ** authController.ts: [getSession] *)


(** ** Every state-changing request *)

Inductive Request :=
| Plain (op : Op)
| CreateRequest (user : option AuthenticatedUser) (parsed : option RequestInput)
    (now : Z) (fresh : uuid).

(** The status answered and the store left by a request. *)
Definition serve (rq : Request) (db : Db) : Z * Db :=
  match rq with
  | Plain op => (status (handle op db).1, (handle op db).2)
  | CreateRequest user parsed now fresh =>
      (reply_status (createRequest user parsed now fresh db).1,
       (createRequest user parsed now fresh db).2)
  end.

Definition serve_all (rqs : list Request) (db : Db) : Db :=
  fold_left (fun db rq => (serve rq db).2) rqs db.

(** ** authMiddleware.ts and the routers *)

(** What a route answers. *)
Inductive Answer :=
| Sent (response : Response)
| SentRequests (reply : Reply (list RequestView))
| SentRequest (reply : Reply RequestView)
| SentReviews (reply : Reply (list ReviewView)).

Definition answer_status (a : Answer) : Z :=
  match a with
  | Sent response => status response
  | SentRequests reply => reply_status reply
  | SentRequest reply => reply_status reply
  | SentReviews reply => reply_status reply
  end.

(** The matched route of [resourceRoutes.ts], with the parts of the request
    its handler reads. *)
Inductive ResourceRoute :=
| GetResources (query : ResourceRow -> bool)
| GetRequestsList
| GetResourceById (id : uuid)
| PostResource (parsed : option ResourceInput)
| PutResource (id : uuid) (parsed : option ResourceUpdate)
| DeleteResourceById (id : uuid)
| PostRequest (parsed : option RequestInput)
| PatchFulfill (id : uuid) (resourceId : option string).

(** The matched route of [reviewRoutes.ts]. *)
Inductive ReviewRoute :=
| GetReviews (resourceId : option string)
| PostReview (req : ReviewRequest)
| PutReview (id : uuid) (req : ReviewUpdateRequest)
| DeleteReviewById (id : uuid).

Section Routers.
(** [supabaseAuthClient.auth.getUser(token)]: the id and email of the user the
    token belongs to, [None] when the call reports an error or no user. *)
Variable getUser : string -> option AuthenticatedUser.

(** [authMiddleware]: the 401 response it sends, or the [req.user] it sets
    before calling [next()].  [authorization] is [req.headers.authorization]. *)
Definition authMiddleware (authorization : option string)
    : Response + AuthenticatedUser :=
  match authorization with
  | Some authHeader =>
    if String.prefix "Bearer " authHeader then
      let token :=
        String.substring 7 (String.length authHeader - 7) authHeader in
      match getUser token with
      | Some u => inr u
      | None => inl (json 401 (ErrorBody "Invalid or expired token"))
      end
    else inl (json 401 (ErrorBody "Missing or invalid authorization header"))
  | None => inl (json 401 (ErrorBody "Missing or invalid authorization header"))
  end.

(** A route registered as [router.verb(path, authMiddleware, handler)]. *)
Definition protected (authorization : option string) (db : Db)
    (handler : option AuthenticatedUser -> Answer * Db) : Answer * Db :=
  match authMiddleware authorization with
  | inl response => (Sent response, db)
  | inr u => handler (Some u)
  end.

(** [resourceRoutes.ts].  The three [get] routes are registered without
    [authMiddleware]: nothing sets [req.user] before their handler runs. *)
Definition resourceRoutes (route : ResourceRoute) (authorization : option string)
    (now : Z) (fresh : uuid) (db : Db) : Answer * Db :=
  match route with
  | GetResources query => (Sent (getResources None query db), db)
  | GetRequestsList => (SentRequests (getRequests db), db)
  | GetResourceById id => (Sent (getResourceById None id db), db)
  | PostResource parsed =>
      protected authorization db (fun user =>
        let '(response, db') := createResource user parsed now fresh db in
        (Sent response, db'))
  | PutResource id parsed =>
      protected authorization db (fun user =>
        let '(response, db') := updateResource user parsed id now db in
        (Sent response, db'))
  | DeleteResourceById id =>
      protected authorization db (fun user =>
        let '(response, db') := deleteResource user id now db in
        (Sent response, db'))
  | PostRequest parsed =>
      protected authorization db (fun user =>
        let '(reply, db') := createRequest user parsed now fresh db in
        (SentRequest reply, db'))
  | PatchFulfill id resourceId =>
      protected authorization db (fun user =>
        let '(response, db') := fulfillRequest user resourceId id db in
        (Sent response, db'))
  end.

(** [reviewRoutes.ts]; [fault] is the store's behaviour during
    [refreshResourceRating]. *)
Definition reviewRoutes (route : ReviewRoute) (authorization : option string)
    (fault : StoreFault) (now : Z) (fresh : uuid) (db : Db) : Answer * Db :=
  match route with
  | GetReviews resourceId => (SentReviews (getReviewsForResource resourceId db), db)
  | PostReview req =>
      protected authorization db (fun user =>
        let '(response, db') := createReview fault user req now fresh db in
        (Sent response, db'))
  | PutReview id req =>
      protected authorization db (fun user =>
        let '(response, db') := updateReview fault user req id now db in
        (Sent response, db'))
  | DeleteReviewById id =>
      protected authorization db (fun user =>
        let '(response, db') := deleteReview fault user id now db in
        (Sent response, db'))
  end.
End Routers.

(** ** Client: lib/academic-data.ts *)

Definition CLIENT_LOCK_WINDOW_MS : Z := 24 * 60 * 60 * 1000.

(** [isWithinEditWindow(createdAt)]; [now] is the reading of [Date.now()]. *)
Definition isWithinEditWindow (now createdAt : Z) : bool :=
  now - createdAt <? CLIENT_LOCK_WINDOW_MS.

(** ** The resource on the wire and in the client *)

(** A resource object as the client receives it: a field the client reads
    with a [??] fallback may be missing or null. *)
Record ResourceJson := {
  j_id : uuid;
  j_title : string;
  j_subject : string;
  j_semester : string;
  j_course : string;
  j_branch : string;
  j_resourceType : option string;
  j_type : option string;
  j_year : string;
  j_tags : option (list string);
  j_description : option string;
  j_privacy : Privacy;
  j_fileName : option string;
  j_fileSize : option Z;
  j_fileUrl : option string;
  j_driveLink : option string;
  j_contributorId : uuid;
  j_contributorName : string;
  j_contributorCollege : string;
  j_averageRating : option Z;
  j_totalRatings : option Z;
  j_downloads : option Z;
  j_isExamImportant : option bool;
  j_createdAt : Z
}.

(** [mapResource] of [resourceController.ts], on a row selected with its
    uploader's profile embedded.  The three [Number(x ?? 0)] act on columns
    declared [not null]. *)
Definition mapResource (db : Db) (row : ResourceRow) : ResourceJson :=
  {| j_id := r_id row; j_title := r_title row; j_subject := r_subject row;
     j_semester := r_semester row; j_course := r_course row; j_branch := r_branch row;
     j_resourceType := Some (r_type row); j_type := None; j_year := r_year row;
     j_tags := Some (r_tags row); j_description := Some (r_description row);
     j_privacy := r_privacy row;
     j_fileName := Some (default EmptyString (r_file_url row));
     j_fileSize := Some 0;
     j_fileUrl := r_file_url row; j_driveLink := r_drive_link row;
     j_contributorId := r_uploader_id row;
     j_contributorName := joined_name (r_uploader_id row) db;
     j_contributorCollege := r_college row;
     j_averageRating := Some (r_average_rating row);
     j_totalRatings := Some (r_total_ratings row);
     j_downloads := Some (r_downloads row);
     j_isExamImportant := Some (r_is_exam_important row);
     j_createdAt := r_created_at row |}.

(** [Resource] of [lib/types.ts]; [averageRating] in tenths, [createdAt] in
    milliseconds. *)
Record Resource := {
  c_id : uuid;
  c_title : string;
  c_subject : string;
  c_semester : string;
  c_course : string;
  c_branch : string;
  c_resourceType : string;
  c_year : string;
  c_tags : list string;
  c_description : string;
  c_privacy : Privacy;
  c_fileName : string;
  c_fileSize : Z;
  c_fileUrl : option string;
  c_driveLink : option string;
  c_contributorId : uuid;
  c_contributorName : string;
  c_contributorCollege : string;
  c_averageRating : Z;
  c_totalRatings : Z;
  c_downloads : Z;
  c_isExamImportant : bool;
  c_createdAt : Z
}.

(** [mapResource] of [resource-context.tsx]. *)
Definition clientMapResource (row : ResourceJson) : Resource :=
  {| c_id := j_id row; c_title := j_title row; c_subject := j_subject row;
     c_semester := j_semester row; c_course := j_course row; c_branch := j_branch row;
     c_resourceType :=
       default (default "Others" (j_type row)) (j_resourceType row);
     c_year := j_year row;
     c_tags := default [] (j_tags row);
     c_description := default EmptyString (j_description row);
     c_privacy := j_privacy row;
     c_fileName := default (default EmptyString (j_fileUrl row)) (j_fileName row);
     c_fileSize := default 0 (j_fileSize row);
     c_fileUrl := j_fileUrl row; c_driveLink := j_driveLink row;
     c_contributorId := j_contributorId row;
     c_contributorName := j_contributorName row;
     c_contributorCollege := j_contributorCollege row;
     c_averageRating := default 0 (j_averageRating row);
     c_totalRatings := default 0 (j_totalRatings row);
     c_downloads := default 0 (j_downloads row);
     c_isExamImportant := default false (j_isExamImportant row);
     c_createdAt := j_createdAt row |}.

(** [refreshResources]: the cache after the list of [getResources] arrives. *)
Definition refreshResources (db : Db) (rows : list ResourceRow) : list Resource :=
  clientMapResource <$> (mapResource db <$> rows).

(** [User] of [lib/types.ts]. *)
Record User := {
  u_id : uuid;
  u_name : string;
  u_email : string;
  u_college : string;
  u_course : option string;
  u_branch : string;
  u_semester : string;
  u_avatarUrl : option string;
  u_points : option Z;
  u_createdAt : string
}.

(** ** Client: the review cache of [resource-context.tsx] *)

(** A review object as the client receives it. *)
Record ReviewJson := {
  jv_id : uuid;
  jv_resourceId : uuid;
  jv_userId : uuid;
  jv_userName : string;
  jv_rating : Z;
  jv_comment : option string;
  jv_createdAt : Z
}.

(** What the server's review object is on the wire. *)
Definition review_json (v : ReviewView) : ReviewJson :=
  {| jv_id := rv_id v; jv_resourceId := rv_resourceId v; jv_userId := rv_userId v;
     jv_userName := rv_userName v; jv_rating := rv_rating v;
     jv_comment := Some (rv_comment v); jv_createdAt := rv_createdAt v |}.

(** [Review] of [lib/types.ts]. *)
Record Review := {
  cv_id : uuid;
  cv_resourceId : uuid;
  cv_userId : uuid;
  cv_userName : string;
  cv_rating : Z;
  cv_comment : string;
  cv_createdAt : Z
}.

(** [mapReview] *)
Definition mapReview (row : ReviewJson) : Review :=
  {| cv_id := jv_id row; cv_resourceId := jv_resourceId row;
     cv_userId := jv_userId row; cv_userName := jv_userName row;
     cv_rating := jv_rating row;
     cv_comment := default EmptyString (jv_comment row);
     cv_createdAt := jv_createdAt row |}.

(** The state update of [loadReviewsForResource], given the reviews the
    server listed. *)
Definition loadReviewsForResource (resourceId : uuid) (listed : list ReviewJson)
    (prev : list Review) : list Review :=
  let mapped := mapReview <$> listed in
  let withoutResource := filter (fun r => cv_resourceId r <> resourceId) prev in
  withoutResource ++ mapped.

(** The review cache once [addReview] has resolved: the created review is put
    in front, then the list the server sent for its resource is loaded. *)
Definition addReview (resourceId : uuid) (created : ReviewJson)
    (listed : list ReviewJson) (prev : list Review) : list Review :=
  loadReviewsForResource resourceId listed (mapReview created :: prev).

(** The review cache once [updateReview] has resolved. *)
Definition clientUpdateReview (id : uuid) (updated : ReviewJson)
    (listed : list ReviewJson) (prev : list Review) : list Review :=
  let mapped := mapReview updated in
  loadReviewsForResource (cv_resourceId mapped) listed
    ((fun r => if decide (cv_id r = id) then mapped else r) <$> prev).

(** [getReviewsForResource] of the context. *)
Definition cachedReviewsForResource (reviews : list Review) (resourceId : uuid)
    : list Review :=
  filter (fun r => cv_resourceId r = resourceId) reviews.

(** [getUserReviewForResource] *)
Definition getUserReviewForResource (reviews : list Review)
    (resourceId userId : uuid) : option Review :=
  List.find (fun r => bool_decide (cv_resourceId r = resourceId)
                      && bool_decide (cv_userId r = userId)) reviews.

(** The two state updates of the context's [deleteResource]. *)
Definition clientDeleteResource (id : uuid) (resources : list Resource)
    (reviews : list Review) : list Resource * list Review :=
  (filter (fun r => c_id r <> id) resources,
   filter (fun r => cv_resourceId r <> id) reviews).

(** ** Client: the resource detail page *)

(** [isBlocked]: the page shows "Access Denied" instead of the resource. *)
Definition isBlocked (user : option User) (resource : Resource) : bool :=
  bool_decide (c_privacy resource = private)
  && match user with
     | Some u => bool_decide (u_college u <> c_contributorCollege resource)
     | None => false
     end.

(** [isOwner], [canEditResource] and [resourceLocked]. *)
Definition isOwner (user : option User) (resource : Resource) : bool :=
  bool_decide (u_id <$> user = Some (c_contributorId resource)).

Definition canEditResource (now : Z) (user : option User) (resource : Resource) : bool :=
  isOwner user resource && isWithinEditWindow now (c_createdAt resource).

Definition resourceLocked (now : Z) (user : option User) (resource : Resource) : bool :=
  isOwner user resource && negb (isWithinEditWindow now (c_createdAt resource)).

(** An entry of [ratingBreakdown]. *)
Record Breakdown := {
  b_star : Z;
  b_count : nat;
  b_percentage : JsNumber.number
}.

Definition number_mul (x y : JsNumber.number) : JsNumber.number :=
  SFmul JsNumber.prec JsNumber.emax x y.

(** [ratingBreakdown] *)
Definition ratingBreakdown (reviews : list Review) : list Breakdown :=
  (fun star =>
     let count := length (filter (fun r => cv_rating r = star) reviews) in
     {| b_star := star; b_count := count;
        b_percentage :=
          if (0 <? length reviews)%nat
          then number_mul
                 (JsNumber.div (JsNumber.of_int (Z.of_nat count))
                    (JsNumber.of_int (Z.of_nat (length reviews))))
                 (JsNumber.of_int 100)
          else JsNumber.of_int 0 |})
    <$> [5; 4; 3; 2; 1].

(** ** Client: the dashboard *)

Definition myResources (user : option User) (resources : list Resource)
    : list Resource :=
  match user with
  | Some u => filter (fun r => c_contributorId r = u_id u) resources
  | None => []
  end.

Definition pointsFromUploads (mine : list Resource) : Z :=
  fold_left (fun sum r => sum + (if decide (c_privacy r = public) then 10 else 5))
    mine 0.

Definition totalDownloads (mine : list Resource) : Z :=
  fold_left (fun sum r => sum + c_downloads r) mine 0.

(** ** Client: the resource browser of the home page *)

Record Filters := {
  f_course : string;
  f_branch : string;
  f_semester : string;
  f_resourceType : string;
  f_year : string;
  f_privacy : string
}.

Definition privacy_text (p : Privacy) : string :=
  match p with
  | public => "public"
  | private => "private"
  end.

(** JS truthiness of a string. *)
Definition nonempty (s : string) : bool := negb (String.eqb s EmptyString).

(** [String.prototype.includes] *)
Fixpoint includes (s q : string) : bool :=
  String.prefix q s
  || match s with
     | EmptyString => false
     | String _ s' => includes s' q
     end.

(** [Object.values(filters).filter(Boolean).length] *)
Definition activeFilterCount (filters : Filters) : nat :=
  length (List.filter nonempty
            [f_course filters; f_branch filters; f_semester filters;
             f_resourceType filters; f_year filters; f_privacy filters]).

Section HomePage.
(** [String.prototype.toLowerCase] *)
Variable toLowerCase : string -> string.

(** One [if (value) result = result.filter(...)] step. *)
Definition filter_if (value : string) (field : Resource -> string)
    (result : list Resource) : list Resource :=
  if nonempty value then List.filter (fun r => String.eqb (field r) value) result
  else result.

Definition matches_search (search : string) (r : Resource) : bool :=
  let q := toLowerCase search in
  includes (toLowerCase (c_title r)) q
  || includes (toLowerCase (c_subject r)) q
  || existsb (fun t => includes (toLowerCase t) q) (c_tags r).

(** [filteredResources]; [averageRating >= 4.5] reads 45 tenths. *)
Definition filteredResources (resources : list Resource) (examMode : bool)
    (search : string) (filters : Filters) (sortBy : string) : list Resource :=
  let result := resources in
  let result :=
    if examMode
    then List.filter (fun r => c_isExamImportant r || (45 <=? c_averageRating r)) result
    else result in
  let result :=
    if nonempty search then List.filter (matches_search search) result else result in
  let result := filter_if (f_course filters) c_course result in
  let result := filter_if (f_branch filters) c_branch result in
  let result := filter_if (f_semester filters) c_semester result in
  let result := filter_if (f_resourceType filters) c_resourceType result in
  let result := filter_if (f_year filters) c_year result in
  let result := filter_if (f_privacy filters) (fun r => privacy_text (c_privacy r)) result in
  if String.eqb sortBy "latest" then sort_desc c_createdAt result
  else if String.eqb sortBy "highest-rated" then sort_desc c_averageRating result
  else if String.eqb sortBy "most-popular" then sort_desc c_downloads result
  else result.
End HomePage.

(** ** Points of one resource *)

(** What a resource of visibility [vis] is worth on the leaderboard, and
    what [createResource] announces as [pointsAwarded]. *)
Definition upload_points (vis : Privacy) : Z :=
  if decide (vis = public) then 10 else 5.

(** The share of resource [r] in the points of profile [u]. *)
Definition contribution (u : uuid) (r : ResourceRow) : Z :=
  if decide (r_uploader_id r = u) then upload_points (r_privacy r) else 0.

(** The points [getLeaderboard] shows for a profile. *)
Definition leaderboard_points (db : Db) (profile : ProfileRow) : Z :=
  e_points (leaderboard_entry (pointsByUser (resources db)) profile).

(** ** Requests over time *)

(** A request that names a fulfilling resource is fulfilled, and the resource
    is stored. *)
Definition requests_well_formed (db : Db) : Prop :=
  forall row rid, row ∈ resource_requests db ->
    q_fulfilled_resource_id row = Some rid ->
    q_status row = fulfilled ∧ rid ∈ r_id <$> resources db.

(** [row'] is a later state of request [row]: same id, text, requester and
    creation time, and still fulfilled if it was. *)
Definition later_state (row row' : RequestRow) : Prop :=
  q_id row' = q_id row ∧ q_title row' = q_title row
  ∧ q_subject row' = q_subject row ∧ q_semester row' = q_semester row
  ∧ q_description row' = q_description row
  ∧ q_requester_id row' = q_requester_id row
  ∧ q_created_at row' = q_created_at row
  ∧ (q_status row = fulfilled -> q_status row' = fulfilled).

(** ** What the client holds for a stored row *)

(** The client's copy of a stored resource row: the server's [mapResource]
    followed by the client's. *)
Definition served (db : Db) (row : ResourceRow) : Resource :=
  clientMapResource (mapResource db row).

(** The viewer the server resolves for a signed-in client user. *)
Definition viewer_of (u : User) : Viewer :=
  {| viewer_id := u_id u; viewer_affiliation := u_college u |}.

(** ** Client: submitting a review from the detail page *)

(** The request [handleSubmitReview] sends, if any. *)
Inductive ReviewSubmission :=
| NoSubmission
| SubmitUpdate (id : uuid) (req : ReviewUpdateRequest)
| SubmitCreate (req : ReviewRequest).

(** [userReview] of the detail page. *)
Definition userReview (cache : list Review) (user : option User)
    (resource : Resource) : option Review :=
  match user with
  | Some u => getUserReviewForResource cache (c_id resource) (u_id u)
  | None => None
  end.

(** [handleSubmitReview]: what the context's [updateReview] or [addReview]
    then sends to the server. *)
Definition handleSubmitReview (cache : list Review) (user : option User)
    (resource : Resource) (reviewRating : Z) (reviewComment : string)
    : ReviewSubmission :=
  match user with
  | None => NoSubmission
  | Some u =>
    if decide (reviewRating = 0) then NoSubmission
    else
      match userReview cache user resource with
      | Some existing =>
          SubmitUpdate (cv_id existing)
            {| upd_rating := Some reviewRating; upd_comment := Some reviewComment |}
      | None =>
          SubmitCreate
            {| body_resourceId := c_id resource; body_rating := reviewRating;
               body_comment := Some reviewComment |}
      end
  end.

(** ** Sample requests and client state *)

(** The signed-in client of student [n]. *)
Definition demo_client (n : nat) : User :=
  {| u_id := demo_uuid "a" n; u_name := "Student"; u_email := "student@example.org";
     u_college := p_college (demo_profile n); u_course := Some "BCA";
     u_branch := "General"; u_semester := "4"; u_avatarUrl := None;
     u_points := None; u_createdAt := "2023-11-14T22:13:20.000Z" |}.

(** A profile update that names the uploader's college. *)
Definition demo_college_update : ProfileUpdate :=
  {| pu_name := None; pu_college := Some "St. Claret College"; pu_course := None;
     pu_branch := None; pu_semester := None; pu_profileImageUrl := None |}.

Definition demo_request_input : RequestInput :=
  {| ri_title := "Unit 5 notes"; ri_subject := "DBMS"; ri_semester := "4";
     ri_description := EmptyString |}.

(** The server's listing of the two sample reviews, newest first. *)
Definition demo_views : list ReviewView :=
  review_view demo_db2 <$> [demo_review_row 2 3; demo_review_row 1 5].

(** * Properties *)

(** ** The rating aggregate *)

Example averageRating_5_3 : averageRating [5; 3] = 40.
Proof. reflexivity. Qed.

Example averageRating_4_4_5 : averageRating [4; 4; 5] = 43.
Proof. reflexivity. Qed.

Example averageRating_quarter : averageRating [2; 2; 2; 3] = 23.
Proof. reflexivity. Qed.

(** ** Stable descending sort *)

Section SortDescFacts.
Context {A : Type} (key : A -> Z).

Lemma insert_desc_perm (x : A) (l : list A) : insert_desc key x l ≡ₚ x :: l.
Proof.
  induction l as [|y l IH]; simpl; [done|].
  destruct (key y <=? key x); [done|].
  rewrite IH. apply Permutation_swap.
Qed.

Lemma sort_desc_perm (l : list A) : sort_desc key l ≡ₚ l.
Proof.
  induction l as [|x l IH]; simpl; [done|].
  rewrite insert_desc_perm. by rewrite IH.
Qed.

Lemma insert_desc_sorted (x : A) (l : list A) :
  StronglySorted (desc key) l -> StronglySorted (desc key) (insert_desc key x l).
Proof.
  induction 1 as [|y l Hs IH Hall]; simpl.
  - repeat constructor.
  - destruct (Z.leb_spec (key y) (key x)) as [Hle|Hgt].
    + constructor; [by constructor|].
      constructor; [exact Hle|].
      eapply Forall_impl; [exact Hall|]. unfold desc. intros; lia.
    + constructor; [exact IH|].
      rewrite insert_desc_perm. constructor; [unfold desc; lia|exact Hall].
Qed.

Lemma sort_desc_sorted (l : list A) : StronglySorted (desc key) (sort_desc key l).
Proof.
  induction l as [|x l IH]; simpl; [constructor|].
  by apply insert_desc_sorted.
Qed.

Lemma elem_of_sort_desc (x : A) (l : list A) : x ∈ sort_desc key l <-> x ∈ l.
Proof. by rewrite sort_desc_perm. Qed.
End SortDescFacts.

(** ** Contribution scoring *)

Lemma owned_cons u vis r rows :
  owned u vis (r :: rows) =
  (if decide (r_uploader_id r = u ∧ r_privacy r = vis) then 1 else 0) + owned u vis rows.
Proof.
  unfold owned. rewrite filter_cons.
  destruct (decide _); simpl length; lia.
Qed.

Lemma points_spec_nil u : points_spec u [] = 0.
Proof. reflexivity. Qed.

Lemma points_spec_cons u r rows :
  points_spec u (r :: rows) =
  (if decide (r_uploader_id r = u)
   then (if decide (r_privacy r = public) then 10 else 5) else 0)
  + points_spec u rows.
Proof.
  unfold points_spec. rewrite !owned_cons.
  destruct (decide (r_uploader_id r = u)) as [Hu|Hu].
  - destruct (r_privacy r).
    + rewrite decide_True, decide_False, decide_True by (intuition congruence). lia.
    + rewrite decide_False, decide_True, decide_False by (intuition congruence). lia.
  - rewrite !decide_False by (intuition congruence). lia.
Qed.

Lemma points_spec_perm u rows rows' :
  rows ≡ₚ rows' -> points_spec u rows = points_spec u rows'.
Proof.
  intros H. unfold points_spec, owned. by rewrite H.
Qed.

Lemma points_spec_none u rows :
  (forall r, r ∈ rows -> r_uploader_id r <> u) -> points_spec u rows = 0.
Proof.
  induction rows as [|r rows IH]; intros H; [done|].
  rewrite points_spec_cons, IH.
  - rewrite decide_False; [done|]. apply H. left.
  - intros r' Hr'. apply H. by right.
Qed.

Lemma pointsByUser_fold u rows (m : gmap uuid Z) :
  default 0
    (fold_left
       (fun (m : gmap uuid Z) item =>
          let points := if decide (r_privacy item = public) then 10 else 5 in
          <[r_uploader_id item := default 0 (m !! r_uploader_id item) + points]> m)
       rows m !! u)
  = default 0 (m !! u) + points_spec u rows.
Proof.
  revert m. induction rows as [|r rows IH]; intros m; simpl.
  - rewrite points_spec_nil. lia.
  - rewrite IH, points_spec_cons.
    destruct (decide (r_uploader_id r = u)) as [->|Hne].
    + rewrite lookup_insert_eq. simpl. lia.
    + rewrite lookup_insert_ne by done. lia.
Qed.

Lemma pointsByUser_lookup u rows :
  default 0 (pointsByUser rows !! u) = points_spec u rows.
Proof.
  unfold pointsByUser. rewrite pointsByUser_fold, lookup_empty. simpl. lia.
Qed.

Lemma leaderboard_entry_spec rows profile :
  leaderboard_entry (pointsByUser rows) profile = entry_spec rows profile.
Proof.
  unfold leaderboard_entry, entry_spec. by rewrite pointsByUser_lookup.
Qed.

Lemma computeLeaderboard_perm profileRows resourceRows :
  computeLeaderboard profileRows resourceRows ≡ₚ entry_spec resourceRows <$> profileRows.
Proof.
  unfold computeLeaderboard. rewrite sort_desc_perm.
  erewrite list_fmap_ext; [reflexivity|].
  intros _ p _. apply leaderboard_entry_spec.
Qed.

(** C7: each profile appears on the leaderboard exactly once per profile row,
    with 10 points per public and 5 points per private resource it uploaded;
    a profile owning no resource appears with 0 points; the list is in
    descending order of points. *)
Theorem computeLeaderboard_points (profileRows : list ProfileRow)
    (resourceRows : list ResourceRow) :
  let board := computeLeaderboard profileRows resourceRows in
  board ≡ₚ entry_spec resourceRows <$> profileRows
  ∧ (forall e, e ∈ board ->
       e_points e = 10 * owned (e_id e) public resourceRows
                    + 5 * owned (e_id e) private resourceRows)
  ∧ (forall p, p ∈ profileRows ->
       (forall r, r ∈ resourceRows -> r_uploader_id r <> p_id p) ->
       exists e, e ∈ board ∧ e_id e = p_id p ∧ e_points e = 0)
  ∧ StronglySorted (fun a b => e_points b <= e_points a) board.
Proof.
  intros board. pose proof (computeLeaderboard_perm profileRows resourceRows) as Hperm.
  fold board in Hperm. repeat split.
  - exact Hperm.
  - intros e He. rewrite Hperm in He.
    apply list_elem_of_fmap in He as (p & -> & _). reflexivity.
  - intros p Hp Hnone. exists (entry_spec resourceRows p). repeat split.
    + rewrite Hperm. by apply list_elem_of_fmap_2.
    + simpl. by apply points_spec_none.
  - apply (sort_desc_sorted e_points).
Qed.

(** C9: the multiset of point values on the leaderboard does not depend on
    the order in which the store returns profiles and resources. *)
Theorem computeLeaderboard_order_independent
    (profileRows profileRows' : list ProfileRow)
    (resourceRows resourceRows' : list ResourceRow) :
  profileRows ≡ₚ profileRows' ->
  resourceRows ≡ₚ resourceRows' ->
  e_points <$> computeLeaderboard profileRows resourceRows
  ≡ₚ e_points <$> computeLeaderboard profileRows' resourceRows'.
Proof.
  intros Hp Hr. rewrite !computeLeaderboard_perm, <- !list_fmap_compose.
  rewrite Hp. erewrite list_fmap_ext; [reflexivity|].
  intros _ p _. simpl. by apply points_spec_perm.
Qed.

(** ** Query primitives *)

Section QueryFacts.
Context {A : Type} (col : A -> uuid).

Lemma eq_rows_update_rows (v : uuid) (f : A -> A) (rows : list A) :
  (forall row, col (f row) = col row) ->
  eq_rows col v (update_rows col v f rows) = f <$> eq_rows col v rows.
Proof.
  intros Hf. unfold eq_rows, update_rows.
  induction rows as [|row rows IH]; [done|].
  rewrite fmap_cons, !filter_cons.
  destruct (decide (col row = v)) as [Heq|Hne].
  - rewrite decide_True by (by rewrite Hf). by rewrite fmap_cons, <- IH.
  - rewrite decide_False by done. exact IH.
Qed.

Lemma single_fmap {B} (f : A -> B) (rows : list A) :
  single (f <$> rows) = f <$> single rows.
Proof. by destruct rows as [|? [|? ?]]. Qed.

Lemma single_update_rows (v : uuid) (f : A -> A) (rows : list A) (row : A) :
  (forall row, col (f row) = col row) ->
  single (eq_rows col v rows) = Some row ->
  single (eq_rows col v (update_rows col v f rows)) = Some (f row).
Proof.
  intros Hf Hrow. rewrite eq_rows_update_rows, single_fmap by done.
  by rewrite Hrow.
Qed.

End QueryFacts.

(** ** The ownership and time-lock guard *)

(** The case analysis every guarded handler goes through: not the owner;
    owner within the window (left to the caller); owner after the window. *)
Ltac guard_cases owner created now uid :=
  let Hne := fresh "Hne" in
  let Heq := fresh "Heq" in
  destruct (decide (owner <> uid)) as [Hne|Heq];
  [ rewrite decide_False; [done|]; intros ->; by apply Hne
  | apply dec_stable in Heq; rewrite decide_True by done;
    destruct (Z.leb_spec (now - created) LOCK_WINDOW_MS); simpl;
    [ rewrite decide_False by lia | by rewrite decide_True by lia ] ].

Section Guard.
Context (user : option AuthenticatedUser) (uid : uuid) (now : Z) (db : Db).
Hypothesis Hauth : authenticated user = Some uid.

Lemma updateResource_guard (p : ResourceUpdate) (id : uuid) (existing : ResourceRow) :
  single (eq_rows r_id id (resources db)) = Some existing ->
  updateResource user (Some p) id now db =
  match canMutate uid (r_uploader_id existing) (r_created_at existing) now with
  | NotOwner => (json 403 (ErrorBody "You can only edit your own resource"), db)
  | LockExpired => (json 403 (ErrorBody "Resource edit lock is 24 hours"), db)
  | Allowed =>
      if resource_patch_empty p then (json 500 StoreError, db)
      else
        (json 200 (ResourceBody (patch_resource p existing)),
         with_resources db (update_rows r_id id (patch_resource p) (resources db)))
  end.
Proof.
  intros Hex. unfold updateResource, canMutate, isWithin24Hours.
  rewrite Hauth, Hex.
  guard_cases (r_uploader_id existing) (r_created_at existing) now uid.
  destruct (resource_patch_empty p); [done|].
  by rewrite (single_update_rows r_id id _ _ existing).
Qed.

Lemma deleteResource_guard (id : uuid) (existing : ResourceRow) :
  single (eq_rows r_id id (resources db)) = Some existing ->
  deleteResource user id now db =
  match canMutate uid (r_uploader_id existing) (r_created_at existing) now with
  | NotOwner => (json 403 (ErrorBody "You can only delete your own resource"), db)
  | LockExpired => (json 403 (ErrorBody "Resource delete lock is 24 hours"), db)
  | Allowed => (json 200 (MessageBody "Resource deleted"), delete_resource_rows id db)
  end.
Proof.
  intros Hex. unfold deleteResource, canMutate, isWithin24Hours.
  rewrite Hauth, Hex.
  guard_cases (r_uploader_id existing) (r_created_at existing) now uid.
  done.
Qed.

Lemma updateReview_guard (fault : StoreFault) (req p : ReviewUpdateRequest)
    (id : uuid) (existing : ReviewRow) :
  reviewUpdateSchema req = Some p ->
  single (eq_rows v_id id (reviews db)) = Some existing ->
  updateReview fault user req id now db =
  match canMutate uid (v_user_id existing) (v_created_at existing) now with
  | NotOwner => (json 403 (ErrorBody "You can only edit your own review"), db)
  | LockExpired => (json 403 (ErrorBody "Review edit lock is 24 hours"), db)
  | Allowed =>
      if review_patch_empty p then (json 500 StoreError, db)
      else
        (json 200 (ReviewBody (patch_review p existing)),
         refreshResourceRating fault (v_resource_id existing)
           (with_reviews db (update_rows v_id id (patch_review p) (reviews db))))
  end.
Proof.
  intros Hp Hex. unfold updateReview, canMutate, isWithin24Hours.
  rewrite Hauth, Hp, Hex.
  guard_cases (v_user_id existing) (v_created_at existing) now uid.
  destruct (review_patch_empty p); [done|].
  by rewrite (single_update_rows v_id id _ _ existing).
Qed.

Lemma deleteReview_guard (fault : StoreFault) (id : uuid) (existing : ReviewRow) :
  single (eq_rows v_id id (reviews db)) = Some existing ->
  deleteReview fault user id now db =
  match canMutate uid (v_user_id existing) (v_created_at existing) now with
  | NotOwner => (json 403 (ErrorBody "You can only delete your own review"), db)
  | LockExpired => (json 403 (ErrorBody "Review delete lock is 24 hours"), db)
  | Allowed =>
      (json 200 (MessageBody "Review deleted"),
       refreshResourceRating fault (v_resource_id existing)
         (with_reviews db (delete_rows v_id id (reviews db))))
  end.
Proof.
  intros Hex. unfold deleteReview, canMutate, isWithin24Hours.
  rewrite Hauth, Hex.
  guard_cases (v_user_id existing) (v_created_at existing) now uid.
  done.
Qed.
End Guard.

Lemma canMutate_owner_within (owner : uuid) (t0 now : Z) :
  now - t0 <= LOCK_WINDOW_MS -> canMutate owner owner t0 now = Allowed.
Proof.
  intros H. unfold canMutate. rewrite decide_True by done. by rewrite decide_False by lia.
Qed.

Lemma canMutate_owner_expired (owner : uuid) (t0 now : Z) :
  now - t0 > LOCK_WINDOW_MS -> canMutate owner owner t0 now = LockExpired.
Proof.
  intros H. unfold canMutate. rewrite decide_True by done. by rewrite decide_True by lia.
Qed.

Lemma canMutate_not_owner (viewer owner : uuid) (t0 now : Z) :
  owner <> viewer -> canMutate viewer owner t0 now = NotOwner.
Proof. intros H. unfold canMutate. by rewrite decide_False. Qed.

Lemma canMutate_owner_cases (owner : uuid) (t0 now : Z) :
  canMutate owner owner t0 now = Allowed ∧ now - t0 <= LOCK_WINDOW_MS
  ∨ canMutate owner owner t0 now = LockExpired ∧ now - t0 > LOCK_WINDOW_MS.
Proof.
  unfold canMutate. rewrite decide_True by done. case_decide; [right|left]; split; done || lia.
Qed.

(** C4: for a record created at [t0], its owner's update or delete one
    second before [t0 + 24h] passes the guard and one second after it is
    refused with the lock error, for resources and for reviews alike: the
    delete is carried out, and so is the update unless its payload names no
    column, which the store answers with an error after the guard has let it
    through; an update leaves the creation time in place; any other
    authenticated caller is refused with the ownership error whatever the
    time. *)
Theorem lock_window_uniform (user : option AuthenticatedUser) (uid : uuid) (db : Db)
    (fault : StoreFault) :
  authenticated user = Some uid ->
  (forall id existing p now,
      single (eq_rows r_id id (resources db)) = Some existing ->
      let t0 := r_created_at existing in
      (r_uploader_id existing = uid ->
         updateResource user (Some p) id (t0 + LOCK_WINDOW_MS - 1000) db
         = (if resource_patch_empty p then (json 500 StoreError, db)
            else
              (json 200 (ResourceBody (patch_resource p existing)),
               with_resources db
                 (update_rows r_id id (patch_resource p) (resources db))))
         ∧ r_created_at (patch_resource p existing) = t0
         ∧ updateResource user (Some p) id (t0 + LOCK_WINDOW_MS + 1000) db
           = (json 403 (ErrorBody "Resource edit lock is 24 hours"), db)
         ∧ deleteResource user id (t0 + LOCK_WINDOW_MS - 1000) db
           = (json 200 (MessageBody "Resource deleted"), delete_resource_rows id db)
         ∧ deleteResource user id (t0 + LOCK_WINDOW_MS + 1000) db
           = (json 403 (ErrorBody "Resource delete lock is 24 hours"), db))
      ∧ (r_uploader_id existing <> uid ->
         updateResource user (Some p) id now db
         = (json 403 (ErrorBody "You can only edit your own resource"), db)
         ∧ deleteResource user id now db
           = (json 403 (ErrorBody "You can only delete your own resource"), db)))
  ∧ (forall id existing req p now,
      reviewUpdateSchema req = Some p ->
      single (eq_rows v_id id (reviews db)) = Some existing ->
      let t0 := v_created_at existing in
      (v_user_id existing = uid ->
         updateReview fault user req id (t0 + LOCK_WINDOW_MS - 1000) db
         = (if review_patch_empty p then (json 500 StoreError, db)
            else
              (json 200 (ReviewBody (patch_review p existing)),
               refreshResourceRating fault (v_resource_id existing)
                 (with_reviews db
                    (update_rows v_id id (patch_review p) (reviews db)))))
         ∧ v_created_at (patch_review p existing) = t0
         ∧ updateReview fault user req id (t0 + LOCK_WINDOW_MS + 1000) db
           = (json 403 (ErrorBody "Review edit lock is 24 hours"), db)
         ∧ deleteReview fault user id (t0 + LOCK_WINDOW_MS - 1000) db
           = (json 200 (MessageBody "Review deleted"),
              refreshResourceRating fault (v_resource_id existing)
                (with_reviews db (delete_rows v_id id (reviews db))))
         ∧ deleteReview fault user id (t0 + LOCK_WINDOW_MS + 1000) db
           = (json 403 (ErrorBody "Review delete lock is 24 hours"), db))
      ∧ (v_user_id existing <> uid ->
         updateReview fault user req id now db
         = (json 403 (ErrorBody "You can only edit your own review"), db)
         ∧ deleteReview fault user id now db
           = (json 403 (ErrorBody "You can only delete your own review"), db))).
Proof.
  intros Hauth. split.
  - intros id existing p now Hex t0. split.
    + intros <-.
      rewrite !(updateResource_guard user _ _ db Hauth p id existing Hex).
      rewrite !(deleteResource_guard user _ _ db Hauth id existing Hex).
      rewrite canMutate_owner_within by (subst t0; lia).
      rewrite canMutate_owner_expired by (subst t0; lia). done.
    + intros Hne.
      rewrite (updateResource_guard user _ _ db Hauth p id existing Hex).
      rewrite (deleteResource_guard user _ _ db Hauth id existing Hex).
      by rewrite canMutate_not_owner.
  - intros id existing req p now Hp Hex t0. split.
    + intros <-.
      rewrite !(updateReview_guard user _ _ db Hauth fault req p id existing Hp Hex).
      rewrite !(deleteReview_guard user _ _ db Hauth fault id existing Hex).
      rewrite canMutate_owner_within by (subst t0; lia).
      rewrite canMutate_owner_expired by (subst t0; lia). done.
    + intros Hne.
      rewrite (updateReview_guard user _ _ db Hauth fault req p id existing Hp Hex).
      rewrite (deleteReview_guard user _ _ db Hauth fault id existing Hex).
      by rewrite canMutate_not_owner.
Qed.

(** C10: the owner's update or delete attempted at exactly [t0 + 24h]
    passes the guard: the delete is carried out, and so is the update unless
    its payload names no column, which the store answers with an error; the
    lock error is returned exactly when more than 24 hours have elapsed since
    creation. *)
Theorem lock_boundary_inclusive (user : option AuthenticatedUser) (uid : uuid)
    (db : Db) (fault : StoreFault) :
  authenticated user = Some uid ->
  (forall id existing p now,
      single (eq_rows r_id id (resources db)) = Some existing ->
      r_uploader_id existing = uid ->
      let t0 := r_created_at existing in
      updateResource user (Some p) id (t0 + LOCK_WINDOW_MS) db
      = (if resource_patch_empty p then (json 500 StoreError, db)
         else
           (json 200 (ResourceBody (patch_resource p existing)),
            with_resources db
              (update_rows r_id id (patch_resource p) (resources db))))
      ∧ deleteResource user id (t0 + LOCK_WINDOW_MS) db
        = (json 200 (MessageBody "Resource deleted"), delete_resource_rows id db)
      ∧ (updateResource user (Some p) id now db
         = (json 403 (ErrorBody "Resource edit lock is 24 hours"), db)
         <-> now - t0 > 24 * 60 * 60 * 1000)
      ∧ (deleteResource user id now db
         = (json 403 (ErrorBody "Resource delete lock is 24 hours"), db)
         <-> now - t0 > 24 * 60 * 60 * 1000))
  ∧ (forall id existing req p now,
      reviewUpdateSchema req = Some p ->
      single (eq_rows v_id id (reviews db)) = Some existing ->
      v_user_id existing = uid ->
      let t0 := v_created_at existing in
      updateReview fault user req id (t0 + LOCK_WINDOW_MS) db
      = (if review_patch_empty p then (json 500 StoreError, db)
         else
           (json 200 (ReviewBody (patch_review p existing)),
            refreshResourceRating fault (v_resource_id existing)
              (with_reviews db
                 (update_rows v_id id (patch_review p) (reviews db)))))
      ∧ deleteReview fault user id (t0 + LOCK_WINDOW_MS) db
        = (json 200 (MessageBody "Review deleted"),
           refreshResourceRating fault (v_resource_id existing)
             (with_reviews db (delete_rows v_id id (reviews db))))
      ∧ (updateReview fault user req id now db
         = (json 403 (ErrorBody "Review edit lock is 24 hours"), db)
         <-> now - t0 > 24 * 60 * 60 * 1000)
      ∧ (deleteReview fault user id now db
         = (json 403 (ErrorBody "Review delete lock is 24 hours"), db)
         <-> now - t0 > 24 * 60 * 60 * 1000)).
Proof.
  intros Hauth. change (24 * 60 * 60 * 1000) with LOCK_WINDOW_MS. split.
  - intros id existing p now Hex <- t0. subst t0.
    rewrite !(updateResource_guard user _ _ db Hauth p id existing Hex).
    rewrite !(deleteResource_guard user _ _ db Hauth id existing Hex).
    rewrite canMutate_owner_within by lia.
    destruct (canMutate_owner_cases (r_uploader_id existing)
                (r_created_at existing) now) as [[-> ?]|[-> ?]];
      destruct (resource_patch_empty p);
      repeat split; intros; done || lia.
  - intros id existing req p now Hp Hex <- t0. subst t0.
    rewrite !(updateReview_guard user _ _ db Hauth fault req p id existing Hp Hex).
    rewrite !(deleteReview_guard user _ _ db Hauth fault id existing Hex).
    rewrite canMutate_owner_within by lia.
    destruct (canMutate_owner_cases (v_user_id existing)
                (v_created_at existing) now) as [[-> ?]|[-> ?]];
      destruct (review_patch_empty p);
      repeat split; intros; done || lia.
Qed.

(** ** Columns no resource or profile update writes *)

Lemma fmap_update_rows {A B} (col : A -> uuid) (g : A -> B) (v : uuid) (f : A -> A)
    (rows : list A) :
  (forall row, g (f row) = g row) ->
  g <$> update_rows col v f rows = g <$> rows.
Proof.
  intros Hg. unfold update_rows. rewrite <- list_fmap_compose.
  apply list_fmap_ext. intros _ row _. simpl. by case_decide.
Qed.

Lemma updateResource_frame user parsed id now db :
  frame <$> resources (updateResource user parsed id now db).2 = frame <$> resources db.
Proof.
  unfold updateResource.
  destruct (authenticated user) as [uid|]; [|done].
  destruct parsed as [p|]; [|done].
  destruct (single (eq_rows r_id id (resources db))) as [existing|]; [|done].
  case_decide; [done|].
  destruct (negb _); [done|].
  destruct (resource_patch_empty p); [done|].
  destruct (single _); [|done].
  simpl. by apply fmap_update_rows.
Qed.

Lemma updateProfile_resources user parsed db :
  resources (updateProfile user parsed db).2 = resources db.
Proof.
  unfold updateProfile.
  destruct (authenticated user) as [uid|]; [|done].
  destruct parsed as [p|]; [|done].
  destruct (profile_patch_empty p); [done|].
  by destruct (single _).
Qed.

(** C8: [updateResource] and [updateProfile] leave the affiliation, owner,
    creation time and rating aggregate of every resource as they were, whatever
    their outcome; a created resource carries the college its uploader's
    profile has at that moment, a zero aggregate, and is appended to the
    table. *)
Theorem affiliation_snapshot_and_rating_frame :
  (forall user parsed id now db,
      frame <$> resources (updateResource user parsed id now db).2
      = frame <$> resources db)
  ∧ (forall user parsed db,
      resources (updateProfile user parsed db).2 = resources db)
  ∧ (forall user parsed now fresh db data points db',
      createResource user parsed now fresh db
      = (json 201 (CreatedResourceBody data points), db') ->
      (exists profile,
          single (eq_rows p_id (r_uploader_id data) (profiles db)) = Some profile
          ∧ r_college data = p_college profile)
      ∧ r_average_rating data = 0 ∧ r_total_ratings data = 0
      ∧ r_created_at data = now
      ∧ resources db' = resources db ++ [data]).
Proof.
  split; [exact updateResource_frame|].
  split; [exact updateProfile_resources|].
  intros user parsed now fresh db data points db'. unfold createResource.
  destruct (authenticated user) as [uid|]; [|done].
  destruct parsed as [p|]; [|done].
  destruct (single (eq_rows p_id uid (profiles db))) as [profile|] eqn:Hprof; [|done].
  case_decide; [done|].
  intros [= <- _ <-]. simpl. split; [|done].
  by exists profile.
Qed.

(** ** Request fulfilment *)

Lemma with_requests_same db : with_requests db (resource_requests db) = db.
Proof. by destruct db. Qed.

Lemma update_rows_none {A} (col : A -> uuid) (v : uuid) (f : A -> A) (rows : list A) :
  eq_rows col v rows = [] -> update_rows col v f rows = rows.
Proof.
  unfold eq_rows, update_rows. induction rows as [|row rows IH]; [done|].
  rewrite filter_cons. case_decide as Hc; [done|].
  intros H. rewrite fmap_cons, decide_False by done. f_equal. by apply IH.
Qed.

Lemma elem_of_update_rows {A} (col : A -> uuid) (v : uuid) (f : A -> A)
    (rows : list A) (row : A) :
  row ∈ rows ->
  (if decide (col row = v) then f row else row) ∈ update_rows col v f rows.
Proof.
  intros H. unfold update_rows. apply list_elem_of_fmap. by exists row.
Qed.

(** C6, as the code has it: [fulfillRequest] has no not-found outcome.  For an
    authenticated caller and a non-empty [resourceId], a request id that
    selects no row leaves the store as it is and the answer is still the
    success message; when [resourceId] is the id of a stored resource, every
    row with the request id ends up fulfilled by that resource, whatever its
    status and whoever its requester, and the other rows are not touched; when
    it is not, and a row has the request id, the store refuses the write and
    the answer is its error. *)
Theorem fulfillRequest_effect (user : option AuthenticatedUser) (uid rid id : uuid)
    (db : Db) :
  authenticated user = Some uid ->
  rid <> EmptyString ->
  (eq_rows q_id id (resource_requests db) = [] ->
     fulfillRequest user (Some rid) id db
     = (json 200 (MessageBody "Request fulfilled"), db))
  ∧ (rid ∈ r_id <$> resources db ->
     fulfillRequest user (Some rid) id db
     = (json 200 (MessageBody "Request fulfilled"),
        with_requests db
          (update_rows q_id id (patch_fulfilled rid) (resource_requests db)))
     ∧ (forall row, row ∈ resource_requests db -> q_id row = id ->
          exists row', row' ∈ update_rows q_id id (patch_fulfilled rid)
                                (resource_requests db)
                       ∧ q_id row' = id ∧ q_status row' = fulfilled
                       ∧ q_fulfilled_resource_id row' = Some rid
                       ∧ q_requester_id row' = q_requester_id row)
     ∧ (forall row, row ∈ resource_requests db -> q_id row <> id ->
          row ∈ update_rows q_id id (patch_fulfilled rid) (resource_requests db)))
  ∧ (eq_rows q_id id (resource_requests db) <> [] ->
     rid ∉ r_id <$> resources db ->
     fulfillRequest user (Some rid) id db = (json 500 StoreError, db)).
Proof.
  intros Hauth Hrid.
  assert (truthy (Some rid) = true) as Htruthy.
  { simpl. destruct (String.eqb_spec rid EmptyString); [done|done]. }
  split; [|split].
  - intros Hnone. unfold fulfillRequest. rewrite Hauth, Htruthy. simpl.
    rewrite Hnone. rewrite bool_decide_false by (intros H; by apply H). simpl.
    by rewrite update_rows_none, with_requests_same.
  - intros Hres. repeat split.
    + unfold fulfillRequest. rewrite Hauth, Htruthy. simpl.
      rewrite (bool_decide_false (rid ∉ _)) by (intros H; by apply H).
      by rewrite andb_false_r.
    + intros row Hrow Hid. exists (patch_fulfilled rid row).
      split; [|done].
      pose proof (elem_of_update_rows q_id id (patch_fulfilled rid) _ row Hrow) as H.
      by rewrite decide_True in H.
    + intros row Hrow Hid.
      pose proof (elem_of_update_rows q_id id (patch_fulfilled rid) _ row Hrow) as H.
      by rewrite decide_False in H.
  - intros Hsome Hnot. unfold fulfillRequest. rewrite Hauth, Htruthy. simpl.
    by rewrite !bool_decide_true.
Qed.

(** ** Visibility *)

Lemma authenticated_Some user uid :
  authenticated user = Some uid ->
  req_user_id user = Some uid ∧ truthy (req_user_id user) = true.
Proof.
  unfold authenticated. destruct (truthy (req_user_id user)) eqn:Ht; [|done].
  by intros ->.
Qed.

Lemma authenticated_None user :
  authenticated user = None -> truthy (req_user_id user) = false.
Proof.
  unfold authenticated. destruct (truthy (req_user_id user)) eqn:Ht; [|done].
  intros H. by rewrite H in Ht.
Qed.

Lemma truthy_Some s : s <> EmptyString -> truthy (Some s) = true.
Proof. intros H. simpl. by destruct (String.eqb_spec s EmptyString). Qed.

Lemma getResourceById_canView user db viewer id resource :
  resolves user db viewer ->
  single (eq_rows r_id id (resources db)) = Some resource ->
  getResourceById user id db =
  if canView viewer resource then json 200 (ResourceBody resource)
  else json 403 (ErrorBody "Private resource access denied").
Proof.
  intros Hres Hex. unfold getResourceById, canView. rewrite Hex.
  destruct (r_privacy resource) eqn:Hpriv.
  { by rewrite decide_False. }
  rewrite decide_True by done.
  destruct viewer as [v|]; simpl in Hres.
  - destruct Hres as (Hauth & Hprof & _).
    apply authenticated_Some in Hauth as [-> ->]. simpl. rewrite Hprof.
    rewrite (bool_decide_ext (Some (r_uploader_id resource) = Some (viewer_id v))
               (viewer_id v = r_uploader_id resource)) by (split; congruence).
    rewrite (bool_decide_ext (Some (viewer_affiliation v) = Some (r_college resource))
               (viewer_affiliation v = r_college resource)) by (split; congruence).
    by destruct (_ || _).
  - by rewrite (authenticated_None _ Hres).
Qed.

Lemma getResources_canView user db viewer query :
  resolves user db viewer ->
  getResources user query db =
  json 200 (ResourcesBody
              (List.filter (canView viewer)
                 (sort_desc r_created_at (List.filter query (resources db))))).
Proof.
  intros Hres. unfold getResources. do 2 f_equal.
  apply List.filter_ext. intros row. unfold canView.
  destruct (r_privacy row) eqn:Hpriv.
  { by rewrite decide_True. }
  rewrite decide_False by done.
  destruct viewer as [v|]; simpl in Hres.
  - destruct Hres as (Hauth & Hprof & Hne).
    apply authenticated_Some in Hauth as [-> ->]. simpl default. rewrite Hprof.
    rewrite truthy_Some by done. simpl.
    rewrite (bool_decide_ext (Some (r_uploader_id row) = Some (viewer_id v))
               (viewer_id v = r_uploader_id row)) by (split; congruence).
    by rewrite (bool_decide_ext (Some (r_college row) = Some (viewer_affiliation v))
               (viewer_affiliation v = r_college row)) by (split; congruence).
  - by rewrite (authenticated_None _ Hres).
Qed.

(** C1: public resources are visible to every viewer, the anonymous one
    included; a private resource is visible exactly to a present viewer who
    is its owner or shares its affiliation; [getResourceById] answers with the
    resource when the predicate holds and with the access-denied error when it
    does not, and [getResources] keeps exactly the selected rows for which it
    holds. *)
Theorem canView_contract (user : option AuthenticatedUser) (db : Db)
    (viewer : option Viewer) :
  resolves user db viewer ->
  (forall r, r_privacy r = public -> canView viewer r = true ∧ canView None r = true)
  ∧ (forall r, r_privacy r = private ->
       (canView viewer r = true <->
        exists v, viewer = Some v
                  ∧ (viewer_id v = r_uploader_id r
                     ∨ viewer_affiliation v = r_college r)))
  ∧ (forall id resource,
       single (eq_rows r_id id (resources db)) = Some resource ->
       getResourceById user id db =
       if canView viewer resource then json 200 (ResourceBody resource)
       else json 403 (ErrorBody "Private resource access denied"))
  ∧ (forall query, exists visible,
       getResources user query db = json 200 (ResourcesBody visible)
       ∧ forall row, row ∈ visible <->
           row ∈ resources db ∧ query row = true ∧ canView viewer row = true).
Proof.
  intros Hres. split; [|split; [|split]].
  - intros r Hpub. unfold canView. by rewrite Hpub.
  - intros r Hpriv. unfold canView. rewrite Hpriv. split.
    + destruct viewer as [v|]; [|done].
      rewrite orb_true_iff, !bool_decide_eq_true. intros Hor. by exists v.
    + intros (v & -> & Hor). by rewrite orb_true_iff, !bool_decide_eq_true.
  - intros id resource. by apply getResourceById_canView.
  - intros query. eexists. split; [by apply getResources_canView|].
    intros row. rewrite !list_elem_of_In, filter_In, <- !list_elem_of_In.
    rewrite elem_of_sort_desc, list_elem_of_In, filter_In, <- list_elem_of_In.
    tauto.
Qed.

(** ** One review per reviewer and resource *)

Lemma reviews_by_filter resourceId reviewerId db :
  reviews_by resourceId reviewerId db
  = filter (fun v => review_pair v = (resourceId, reviewerId)) (reviews db).
Proof.
  unfold reviews_by, eq_rows. rewrite list_filter_filter.
  apply list_filter_iff. intros v. unfold review_pair. split.
  - by intros [-> ->].
  - by intros [= -> ->].
Qed.

Lemma filter_pair_NoDup (l : list ReviewRow) (k : uuid * uuid) :
  NoDup (review_pair <$> l) ->
  (length (filter (fun v => review_pair v = k) l) <= 1)%nat.
Proof.
  induction l as [|v l IH]; intros Hnd; [simpl; lia|].
  rewrite fmap_cons in Hnd. apply NoDup_cons in Hnd as [Hnotin Hnd].
  rewrite filter_cons. case_decide as Hk; [|by apply IH].
  assert (filter (fun v => review_pair v = k) l = []) as ->; [|simpl; lia].
  destruct (filter _ l) as [|w ws] eqn:Hf; [done|].
  assert (w ∈ filter (fun v => review_pair v = k) l) as Hw by (rewrite Hf; left).
  apply list_elem_of_filter in Hw as [Hwk Hwl]. exfalso. apply Hnotin.
  rewrite Hk, <- Hwk. by apply list_elem_of_fmap_2.
Qed.

Lemma reviews_by_existing resourceId reviewerId db v :
  unique_pairs db -> v ∈ reviews db ->
  v_resource_id v = resourceId -> v_user_id v = reviewerId ->
  reviews_by resourceId reviewerId db = [v].
Proof.
  intros Hnd Hv Hr Hu. rewrite reviews_by_filter.
  pose proof (filter_pair_NoDup (reviews db) (resourceId, reviewerId) Hnd) as Hlen.
  assert (v ∈ filter (fun v => review_pair v = (resourceId, reviewerId)) (reviews db))
    as Hin.
  { apply list_elem_of_filter. split; [|done]. unfold review_pair. by rewrite Hr, Hu. }
  destruct (filter _ (reviews db)) as [|w [|w' ws]].
  - by apply elem_of_nil in Hin.
  - by apply list_elem_of_singleton in Hin as ->.
  - simpl in Hlen. lia.
Qed.

Lemma refreshResourceRating_reviews fault resourceId db :
  reviews (refreshResourceRating fault resourceId db) = reviews db.
Proof. unfold refreshResourceRating. by case_decide. Qed.

Lemma createReview_reviews fault user req now fresh db :
  reviews (createReview fault user req now fresh db).2 = reviews db
  ∨ exists uid payload,
      authenticated user = Some uid ∧ reviewSchema req = Some payload
      ∧ reviews_by (in_resourceId payload) uid db = []
      ∧ let data := {| v_id := fresh; v_resource_id := in_resourceId payload;
                       v_user_id := uid; v_rating := in_rating payload;
                       v_comment := in_comment payload; v_created_at := now |} in
        review_insert_ok data db = true
        ∧ (createReview fault user req now fresh db).1 = json 201 (ReviewBody data)
        ∧ reviews (createReview fault user req now fresh db).2 = reviews db ++ [data].
Proof.
  unfold createReview.
  destruct (authenticated user) as [uid|] eqn:Hauth; [|by left].
  destruct (reviewSchema req) as [payload|] eqn:Hp; [|by left].
  fold (reviews_by (in_resourceId payload) uid db).
  destruct (maybeSingle _) eqn:Hex; [by left|].
  destruct (review_insert_ok _ db) eqn:Hok; [|by left].
  right. exists uid, payload. simpl. rewrite refreshResourceRating_reviews. simpl.
  repeat split; try done.
  destruct (reviews_by _ _ db) as [|w [|w' ws]] eqn:Hby; try done.
  exfalso. unfold review_insert_ok in Hok. rewrite !andb_true_iff in Hok.
  destruct Hok as [_ Hpair]. apply bool_decide_eq_true in Hpair. apply Hpair. simpl.
  assert (w ∈ reviews_by (in_resourceId payload) uid db) as Hw by (rewrite Hby; left).
  rewrite reviews_by_filter in Hw. apply list_elem_of_filter in Hw as [Hwk Hwl].
  rewrite <- Hwk. by apply (list_elem_of_fmap_2 review_pair).
Qed.

Lemma unique_pairs_sublist (l l' : list ReviewRow) :
  l' `sublist_of` l -> NoDup (review_pair <$> l) -> NoDup (review_pair <$> l').
Proof.
  intros Hsub Hnd. eapply sublist_NoDup; [exact Hnd|]. by apply fmap_sublist.
Qed.

Lemma handle_unique_pairs (op : Op) (db : Db) :
  unique_pairs db -> unique_pairs (handle op db).2.
Proof.
  unfold unique_pairs. intros Hnd. destruct op; simpl.
  - unfold createResource. by repeat case_match.
  - unfold updateResource. by repeat case_match.
  - unfold deleteResource. repeat case_match; try done. simpl.
    eapply unique_pairs_sublist; [|exact Hnd]. apply sublist_filter.
  - unfold fulfillRequest. by repeat case_match.
  - unfold updateProfile. by repeat case_match.
  - destruct (createReview_reviews fault user req now fresh db)
      as [->|(uid & payload & _ & _ & _ & Hok & _ & ->)]; [done|].
    rewrite fmap_app. apply NoDup_app. split; [done|]. split; [|apply NoDup_singleton].
    intros k Hk Hk'. apply list_elem_of_singleton in Hk'. subst k.
    unfold review_insert_ok in Hok. rewrite !andb_true_iff in Hok.
    destruct Hok as [_ Hpair]. apply bool_decide_eq_true in Hpair. by apply Hpair.
  - unfold updateReview. repeat case_match; try done. simpl.
    rewrite refreshResourceRating_reviews. simpl.
    by rewrite fmap_update_rows.
  - unfold deleteReview. repeat case_match; try done. simpl.
    rewrite refreshResourceRating_reviews. simpl.
    eapply unique_pairs_sublist; [|exact Hnd]. apply sublist_filter.
Qed.

Lemma run_unique_pairs (ops : list Op) (db : Db) :
  unique_pairs db -> unique_pairs (run ops db).
Proof.
  revert db. induction ops as [|op ops IH]; intros db Hnd; [done|].
  simpl. apply IH. by apply handle_unique_pairs.
Qed.

Lemma createReview_duplicate fault user uid req payload now fresh db v :
  unique_pairs db ->
  authenticated user = Some uid ->
  reviewSchema req = Some payload ->
  v ∈ reviews db -> v_resource_id v = in_resourceId payload -> v_user_id v = uid ->
  createReview fault user req now fresh db
  = (json 409 (ErrorBody "You can submit only one review per resource"), db).
Proof.
  intros Hnd Hauth Hp Hv Hr Hu. unfold createReview. rewrite Hauth, Hp.
  fold (reviews_by (in_resourceId payload) uid db).
  by rewrite (reviews_by_existing _ _ db v).
Qed.

Lemma createReview_no_second fault user req now fresh db v :
  v ∈ reviews db -> v_resource_id v = body_resourceId req ->
  Some (v_user_id v) = req_user_id user ->
  status (createReview fault user req now fresh db).1 <> 201
  ∧ reviews (createReview fault user req now fresh db).2 = reviews db.
Proof.
  intros Hv Hr Hu.
  destruct (createReview_reviews fault user req now fresh db)
    as [Hsame|(uid & payload & Hauth & Hp & Hby & _)].
  - split; [|done]. revert Hsame. unfold createReview.
    repeat case_match; try done. simpl.
    rewrite refreshResourceRating_reviews. simpl. intros Happ.
    apply (f_equal length) in Happ. rewrite length_app in Happ. simpl in Happ. lia.
  - exfalso. apply authenticated_Some in Hauth as [Hid _].
    rewrite Hid in Hu. injection Hu as Hu.
    assert (in_resourceId payload = body_resourceId req) as Hrid.
    { unfold reviewSchema in Hp. case_match; [|done]. by injection Hp as <-. }
    assert (v ∈ reviews_by (in_resourceId payload) uid db) as Hin.
    { rewrite reviews_by_filter. apply list_elem_of_filter. split; [|done].
      unfold review_pair. by rewrite Hr, Hu, Hrid. }
    rewrite Hby in Hin. by apply elem_of_nil in Hin.
Qed.

(** C3: starting from a store with at most one review per
    (resource, reviewer) pair, after any sequence of requests every pair still
    has at most one review; a well-formed [createReview] request by a reviewer
    who already reviewed the resource is answered 409 and changes nothing, and
    no [createReview] request for such a pair, well-formed or not, succeeds or
    adds a review. *)
Theorem one_review_per_pair (db : Db) (ops : list Op) :
  unique_pairs db ->
  let db' := run ops db in
  (forall resourceId reviewerId,
      (length (reviews_by resourceId reviewerId db') <= 1)%nat)
  ∧ (forall fault user uid req payload now fresh v,
      authenticated user = Some uid ->
      reviewSchema req = Some payload ->
      v ∈ reviews db' -> v_resource_id v = in_resourceId payload -> v_user_id v = uid ->
      createReview fault user req now fresh db'
      = (json 409 (ErrorBody "You can submit only one review per resource"), db'))
  ∧ (forall fault user req now fresh v,
      v ∈ reviews db' -> v_resource_id v = body_resourceId req ->
      Some (v_user_id v) = req_user_id user ->
      status (createReview fault user req now fresh db').1 <> 201
      ∧ reviews (createReview fault user req now fresh db').2 = reviews db').
Proof.
  intros Hnd db'. pose proof (run_unique_pairs ops db Hnd) as Hnd'. fold db' in Hnd'.
  split; [|split].
  - intros resourceId reviewerId. rewrite reviews_by_filter.
    by apply filter_pair_NoDup.
  - intros fault user uid req payload now fresh v Hauth Hp Hv Hr Hu.
    by apply (createReview_duplicate fault user uid req payload now fresh db' v).
  - intros fault user req now fresh v. apply createReview_no_second.
Qed.

(** ** Consistency of the rating aggregate *)

Lemma elem_of_update_rows_inv {A} (col : A -> uuid) (v : uuid) (f : A -> A)
    (rows : list A) (row' : A) :
  row' ∈ update_rows col v f rows ->
  exists row, row ∈ rows ∧ row' = if decide (col row = v) then f row else row.
Proof.
  unfold update_rows. intros H. apply list_elem_of_fmap in H as (row & -> & Hrow).
  by exists row.
Qed.

Lemma ratings_of_with_resources db rows resourceId :
  ratings_of resourceId (with_resources db rows) = ratings_of resourceId db.
Proof. done. Qed.

Lemma refreshResourceRating_consistent resourceId db :
  reviews_reference_resources db ->
  ratings_in_range db ->
  (forall r, r ∈ resources db -> r_id r <> resourceId -> aggregate_ok db r) ->
  consistent (refreshResourceRating NoFault resourceId db).
Proof.
  intros Hfk Hrange Hagg. unfold refreshResourceRating.
  rewrite !decide_False by done. simpl default. split; [|split].
  - intros v Hv. simpl in *. rewrite fmap_update_rows by done. by apply Hfk.
  - exact Hrange.
  - intros r Hr. simpl in Hr. apply elem_of_update_rows_inv in Hr as (r0 & Hr0 & ->).
    unfold aggregate_ok. rewrite ratings_of_with_resources.
    case_decide as Hid; [by rewrite <- Hid|]. by apply Hagg.
Qed.

Lemma ratings_of_app db resourceId data :
  v_resource_id data <> resourceId ->
  ratings_of resourceId (with_reviews db (reviews db ++ [data]))
  = ratings_of resourceId db.
Proof.
  intros Hne. unfold ratings_of, eq_rows. simpl.
  rewrite filter_app, filter_cons, decide_False by done.
  by rewrite filter_nil, app_nil_r.
Qed.

(** Rows selected by [single] are the only rows with that key. *)
Lemma single_only {A} (col : A -> uuid) (v : uuid) (rows : list A) (row x : A) :
  single (eq_rows col v rows) = Some row -> x ∈ rows -> col x = v -> x = row.
Proof.
  intros Hs Hx Hc.
  assert (x ∈ eq_rows col v rows) as Hin by (by apply list_elem_of_filter).
  destruct (eq_rows col v rows) as [|y [|? ?]]; simplify_eq/=.
  by apply list_elem_of_singleton in Hin.
Qed.

Lemma eq_rows_update_other (id resourceId : uuid) (f : ReviewRow -> ReviewRow)
    (rows : list ReviewRow) :
  (forall row, v_resource_id (f row) = v_resource_id row) ->
  (forall row, row ∈ rows -> v_id row = id -> v_resource_id row <> resourceId) ->
  eq_rows v_resource_id resourceId (update_rows v_id id f rows)
  = eq_rows v_resource_id resourceId rows.
Proof.
  intros Hf. unfold eq_rows, update_rows.
  induction rows as [|row rows IH]; intros Hrows; [done|].
  rewrite fmap_cons, !filter_cons.
  rewrite IH by (intros; apply Hrows; [by right|done]).
  destruct (decide (v_id row = id)) as [Hid|Hid]; [|done].
  rewrite Hf. rewrite !decide_False; [done| |]; apply Hrows; (left || done).
Qed.

Lemma eq_rows_delete_other (id resourceId : uuid) (rows : list ReviewRow) :
  (forall row, row ∈ rows -> v_id row = id -> v_resource_id row <> resourceId) ->
  eq_rows v_resource_id resourceId (delete_rows v_id id rows)
  = eq_rows v_resource_id resourceId rows.
Proof.
  unfold eq_rows, delete_rows.
  induction rows as [|row rows IH]; intros Hrows; [done|].
  rewrite !filter_cons.
  destruct (decide (v_id row <> id)) as [Hid|Hid].
  - rewrite filter_cons. rewrite IH by (intros; apply Hrows; [by right|done]). done.
  - apply dec_stable in Hid.
    rewrite decide_False by (apply Hrows; [left|done]).
    apply IH. intros; apply Hrows; [by right|done].
Qed.

Lemma consistent_ext (db db' : Db) :
  resources db' = resources db -> reviews db' = reviews db ->
  consistent db -> consistent db'.
Proof.
  intros Hres Hrev (Hfk & Hrange & Hagg).
  unfold consistent, reviews_reference_resources, ratings_in_range, aggregate_ok,
    ratings_of in *.
  rewrite Hres, Hrev. done.
Qed.

Lemma reviewUpdateSchema_Some req p :
  reviewUpdateSchema req = Some p ->
  p = req ∧ forall r, upd_rating p = Some r -> 1 <= r <= 5.
Proof.
  unfold reviewUpdateSchema. case_match eqn:Hok; [|done]. intros [= <-].
  split; [done|]. intros r Hr. rewrite Hr in Hok.
  rewrite !andb_true_iff, !Z.leb_le in Hok. tauto.
Qed.

Lemma review_insert_ok_true data db :
  review_insert_ok data db = true ->
  v_resource_id data ∈ r_id <$> resources db ∧ 1 <= v_rating data <= 5.
Proof.
  unfold review_insert_ok.
  rewrite !andb_true_iff, !bool_decide_eq_true, !Z.leb_le. tauto.
Qed.

Lemma createReview_consistent user req now fresh db :
  consistent db -> consistent (createReview NoFault user req now fresh db).2.
Proof.
  intros Hc. pose proof Hc as (Hfk & Hrange & Hagg).
  unfold createReview.
  destruct (authenticated user) as [uid|]; [|done].
  destruct (reviewSchema req) as [payload|]; [|done].
  destruct (maybeSingle _); [done|].
  destruct (review_insert_ok _ db) eqn:Hok; [|done]. simpl.
  apply review_insert_ok_true in Hok as [Hdfk Hdrange]. simpl in Hdfk, Hdrange.
  apply refreshResourceRating_consistent.
  - intros v Hv. simpl in Hv |- *. apply elem_of_app in Hv as [Hv|Hv]; [by apply Hfk|].
    by apply list_elem_of_singleton in Hv as ->.
  - intros v Hv. simpl in Hv. apply elem_of_app in Hv as [Hv|Hv]; [by apply Hrange|].
    by apply list_elem_of_singleton in Hv as ->.
  - intros r Hr Hne. simpl in Hr. unfold aggregate_ok.
    rewrite ratings_of_app by (simpl; congruence). by apply Hagg.
Qed.

Lemma updateReview_consistent user req id now db :
  consistent db -> consistent (updateReview NoFault user req id now db).2.
Proof.
  intros Hc. pose proof Hc as (Hfk & Hrange & Hagg).
  unfold updateReview.
  destruct (authenticated user) as [uid|]; [|done].
  destruct (reviewUpdateSchema req) as [p|] eqn:Hp; [|done].
  destruct (single (eq_rows v_id id (reviews db))) as [existing|] eqn:Hex; [|done].
  case_decide; [done|]. destruct (negb _); [done|].
  destruct (review_patch_empty p); [done|].
  destruct (single (eq_rows v_id id (update_rows _ _ _ _))) as [data|]; [|done].
  simpl. apply reviewUpdateSchema_Some in Hp as [_ Hp].
  apply refreshResourceRating_consistent.
  - intros v Hv. simpl in Hv |- *.
    apply elem_of_update_rows_inv in Hv as (v0 & Hv0 & ->).
    case_decide; by apply (Hfk v0).
  - intros v Hv. simpl in Hv.
    apply elem_of_update_rows_inv in Hv as (v0 & Hv0 & ->).
    case_decide; [|by apply Hrange]. simpl.
    destruct (upd_rating p) as [z|] eqn:Hz; simpl; [by apply Hp|by apply Hrange].
  - intros r Hr Hne. simpl in Hr. unfold aggregate_ok, ratings_of. simpl.
    rewrite eq_rows_update_other; [by apply Hagg|done|].
    intros row Hrow Hid. by rewrite (single_only v_id id _ existing row Hex Hrow Hid).
Qed.

Lemma deleteReview_consistent user id now db :
  consistent db -> consistent (deleteReview NoFault user id now db).2.
Proof.
  intros Hc. pose proof Hc as (Hfk & Hrange & Hagg).
  unfold deleteReview.
  destruct (authenticated user) as [uid|]; [|done].
  destruct (single (eq_rows v_id id (reviews db))) as [existing|] eqn:Hex; [|done].
  case_decide; [done|]. destruct (negb _); [done|]. simpl.
  apply refreshResourceRating_consistent.
  - intros v Hv. simpl in Hv |- *. apply list_elem_of_filter in Hv as [_ Hv].
    by apply Hfk.
  - intros v Hv. simpl in Hv. apply list_elem_of_filter in Hv as [_ Hv].
    by apply Hrange.
  - intros r Hr Hne. simpl in Hr. unfold aggregate_ok, ratings_of. simpl.
    rewrite eq_rows_delete_other; [by apply Hagg|].
    intros row Hrow Hid. by rewrite (single_only v_id id _ existing row Hex Hrow Hid).
Qed.

Lemma createResource_consistent user parsed now fresh db :
  consistent db -> consistent (createResource user parsed now fresh db).2.
Proof.
  intros Hc. pose proof Hc as (Hfk & Hrange & Hagg).
  unfold createResource.
  destruct (authenticated user) as [uid|]; [|done].
  destruct parsed as [p|]; [|done].
  destruct (single _) as [profile|]; [|done].
  case_decide as Hfresh; [done|]. simpl. split; [|split].
  - intros v Hv. simpl in Hv |- *. rewrite fmap_app. apply elem_of_app. left.
    by apply Hfk.
  - exact Hrange.
  - intros r Hr. simpl in Hr. unfold aggregate_ok. rewrite ratings_of_with_resources.
    apply elem_of_app in Hr as [Hr|Hr]; [by apply Hagg|].
    apply list_elem_of_singleton in Hr as ->. simpl.
    assert (ratings_of fresh db = []) as ->; [|done].
    unfold ratings_of, eq_rows.
    destruct (filter _ (reviews db)) as [|v vs] eqn:Hf; [done|].
    assert (v ∈ filter (fun row => v_resource_id row = fresh) (reviews db)) as Hv
      by (rewrite Hf; left).
    apply list_elem_of_filter in Hv as [Hid Hv]. exfalso. apply Hfresh.
    rewrite <- Hid. by apply Hfk.
Qed.

Lemma updateResource_consistent user parsed id now db :
  consistent db -> consistent (updateResource user parsed id now db).2.
Proof.
  intros Hc. pose proof Hc as (Hfk & Hrange & Hagg).
  unfold updateResource.
  destruct (authenticated user) as [uid|]; [|done].
  destruct parsed as [p|]; [|done].
  destruct (single (eq_rows r_id id (resources db))) as [existing|]; [|done].
  case_decide; [done|]. destruct (negb _); [done|].
  destruct (resource_patch_empty p); [done|].
  destruct (single (eq_rows r_id id (update_rows _ _ _ _))) as [updated|]; [|done].
  simpl. split; [|split].
  - intros v Hv. simpl in Hv |- *. rewrite fmap_update_rows by done. by apply Hfk.
  - exact Hrange.
  - intros r' Hr'. simpl in Hr'.
    apply elem_of_update_rows_inv in Hr' as (r & Hr & ->).
    unfold aggregate_ok. rewrite ratings_of_with_resources.
    case_decide; by apply (Hagg r).
Qed.

Lemma deleteResource_consistent user id now db :
  consistent db -> consistent (deleteResource user id now db).2.
Proof.
  intros Hc. pose proof Hc as (Hfk & Hrange & Hagg).
  unfold deleteResource.
  destruct (authenticated user) as [uid|]; [|done].
  destruct (single (eq_rows r_id id (resources db))) as [existing|]; [|done].
  case_decide; [done|]. destruct (negb _); [done|].
  simpl. split; [|split].
  - intros v Hv. simpl in Hv |- *. apply list_elem_of_filter in Hv as [Hne Hv].
    apply Hfk, list_elem_of_fmap in Hv as (r & Hid & Hr).
    apply list_elem_of_fmap. exists r. split; [done|].
    apply list_elem_of_filter. split; [congruence|done].
  - intros v Hv. simpl in Hv. apply list_elem_of_filter in Hv as [_ Hv].
    by apply Hrange.
  - intros r Hr. simpl in Hr. apply list_elem_of_filter in Hr as [Hne Hr].
    destruct (Hagg r Hr) as [Htot Havg].
    assert (ratings_of (r_id r) (delete_resource_rows id db) = ratings_of (r_id r) db)
      as Hsame; [|unfold aggregate_ok; by rewrite Hsame].
    unfold ratings_of, eq_rows. simpl. f_equal. unfold delete_rows.
    rewrite list_filter_filter. apply list_filter_iff. intros v.
    split; [tauto|]. intros Hv. split; [done|congruence].
Qed.

Lemma handle_consistent (op : Op) (db : Db) :
  fault_free op -> consistent db -> consistent (handle op db).2.
Proof.
  intros Hfree Hc. destruct op; simpl in Hfree |- *; try subst fault.
  - by apply createResource_consistent.
  - by apply updateResource_consistent.
  - by apply deleteResource_consistent.
  - eapply consistent_ext; [| |exact Hc];
      unfold fulfillRequest; by repeat case_match.
  - eapply consistent_ext; [| |exact Hc];
      unfold updateProfile; by repeat case_match.
  - by apply createReview_consistent.
  - by apply updateReview_consistent.
  - by apply deleteReview_consistent.
Qed.

Lemma run_consistent (ops : list Op) (db : Db) :
  Forall fault_free ops -> consistent db -> consistent (run ops db).
Proof.
  intros Hfree. revert db. induction Hfree as [|op ops Hop _ IH]; intros db Hc; [done|].
  simpl. apply IH. by apply handle_consistent.
Qed.

(** *** Rounding of the mean *)

Lemma add_exact_upto_100_true : add_exact_upto_100 = true.
Proof. vm_compute. reflexivity. Qed.

Lemma toFixed1_half_up_below_20_true : toFixed1_half_up_below_20 = true.
Proof. vm_compute. reflexivity. Qed.

Lemma add_exact (a r : Z) :
  0 <= a < 96 -> 1 <= r <= 5 ->
  JsNumber.add (JsNumber.of_int a) (JsNumber.of_int r) = JsNumber.of_int (a + r).
Proof.
  intros Ha Hr. pose proof add_exact_upto_100_true as Hall.
  unfold add_exact_upto_100 in Hall. rewrite forallb_forall in Hall.
  specialize (Hall a). rewrite forallb_forall in Hall.
  eapply bool_decide_eq_true, Hall; apply list_elem_of_In, elem_of_seqZ; lia.
Qed.

Lemma toFixed1_half_up (n s : Z) :
  1 <= n < 20 -> n <= s <= 5 * n ->
  JsNumber.toFixed1 (JsNumber.div (JsNumber.of_int s) (JsNumber.of_int n))
  = (20 * s + n) / (2 * n).
Proof.
  intros Hn Hs. pose proof toFixed1_half_up_below_20_true as Hall.
  unfold toFixed1_half_up_below_20 in Hall. rewrite forallb_forall in Hall.
  specialize (Hall n). rewrite forallb_forall in Hall.
  eapply bool_decide_eq_true, Hall; apply list_elem_of_In, elem_of_seqZ; lia.
Qed.

Lemma sum_ratings_bounds (l : list Z) :
  Forall rating_ok l ->
  Z.of_nat (length l) <= foldr Z.add 0 l <= 5 * Z.of_nat (length l).
Proof.
  induction 1 as [|r l Hr _ IH]; simpl; [lia|]. unfold rating_ok in Hr. lia.
Qed.

Lemma sumRatings_fold (l : list Z) (a : Z) :
  Forall rating_ok l -> 0 <= a -> a + 5 * Z.of_nat (length l) <= 100 ->
  fold_left (fun sum rating => JsNumber.add sum (JsNumber.of_int rating)) l
    (JsNumber.of_int a)
  = JsNumber.of_int (a + foldr Z.add 0 l).
Proof.
  intros Hl. revert a. induction Hl as [|r l Hr _ IH]; intros a Ha Hlen; simpl.
  - by rewrite Z.add_0_r.
  - unfold rating_ok in Hr. simpl length in Hlen.
    rewrite add_exact by lia. rewrite IH by lia. f_equal. lia.
Qed.

Lemma averageRating_half_up (l : list Z) :
  Forall rating_ok l -> (length l < 20)%nat -> averageRating l = halfUpMean l.
Proof.
  intros Hl Hlen. unfold averageRating, halfUpMean, totalRatings.
  destruct (Z.ltb_spec 0 (Z.of_nat (length l))) as [Hpos|]; [|done].
  unfold sumRatings. rewrite sumRatings_fold by (done || lia). simpl.
  pose proof (sum_ratings_bounds l Hl). by apply toFixed1_half_up; lia.
Qed.

Lemma ratings_of_range db resourceId :
  ratings_in_range db -> Forall rating_ok (ratings_of resourceId db).
Proof.
  intros Hrange. apply Forall_forall. intros r Hr. unfold ratings_of in Hr.
  apply list_elem_of_fmap in Hr as (v & -> & Hv).
  apply list_elem_of_filter in Hv as [_ Hv]. by apply Hrange.
Qed.

Lemma consistent_no_content (db : Db) :
  resources db = [] -> reviews db = [] -> consistent db.
Proof.
  intros Hres Hrev. split; [|split].
  - intros v Hv. rewrite Hrev in Hv. by apply elem_of_nil in Hv.
  - intros v Hv. rewrite Hrev in Hv. by apply elem_of_nil in Hv.
  - intros r Hr. rewrite Hres in Hr. by apply elem_of_nil in Hr.
Qed.

(** C2, as the code has it: from a consistent store (every stored aggregate
    agrees with the reviews stored, every rating is between 1 and 5), after
    any sequence of requests during which the store answers the aggregator,
    every resource's [total_ratings] is the number of its reviews and its
    [average_rating] is [toFixed(1)] of the binary64 quotient of their sum by
    their number; that value is the mean rounded half-up to one decimal
    whenever the resource has fewer than 20 reviews; both are 0 when it has
    none. *)
Theorem rating_aggregate_after_requests (db : Db) (ops : list Op) :
  consistent db ->
  Forall fault_free ops ->
  let db' := run ops db in
  forall r, r ∈ resources db' ->
    let ratings := ratings_of (r_id r) db' in
    r_total_ratings r = Z.of_nat (length ratings)
    ∧ r_average_rating r = averageRating ratings
    ∧ ((length ratings < 20)%nat -> r_average_rating r = halfUpMean ratings)
    ∧ (ratings = [] -> r_average_rating r = 0 ∧ r_total_ratings r = 0).
Proof.
  intros Hc Hfree db' r Hr ratings. subst ratings db'.
  destruct (run_consistent ops db Hfree Hc) as (_ & Hrange & Hagg).
  destruct (Hagg r Hr) as [Htot Havg].
  split; [exact Htot|]. split; [exact Havg|]. split.
  - intros Hlen. rewrite Havg. apply averageRating_half_up; [|done].
    by apply ratings_of_range.
  - intros Hnil. rewrite Htot, Havg, Hnil. split; reflexivity.
Qed.

(** ** A sample store *)

Lemma demo_db_consistent : consistent demo_db.
Proof. by apply consistent_no_content. Qed.

Lemma demo_twenty_fault_free : Forall fault_free demo_twenty_reviews.
Proof. unfold demo_twenty_reviews. simpl. repeat constructor. Qed.

Example demo_db1_resources : resources demo_db1 = [demo_resource].
Proof. vm_compute. reflexivity. Qed.

(** C2 fails as stated: after one upload and twenty reviews (seventeen of
    rating 1, three of rating 2) the mean is 1.15, which rounds half-up to
    1.2, and the stored average is 1.1. *)
Lemma twenty_reviews_mean_rounded_down :
  let db' := run demo_twenty_reviews demo_db in
  consistent demo_db
  ∧ Forall fault_free demo_twenty_reviews
  ∧ exists r, r ∈ resources db'
      ∧ ratings_of (r_id r) db' = replicate 17 1 ++ replicate 3 2
      ∧ r_average_rating r = 11
      ∧ halfUpMean (ratings_of (r_id r) db') = 12.
Proof.
  intros db'. split; [exact demo_db_consistent|]. split; [exact demo_twenty_fault_free|].
  exists (set_rating 11 20 demo_resource).
  assert (resources db' = [set_rating 11 20 demo_resource]) as Hres
    by (vm_compute; reflexivity).
  split; [rewrite Hres; left|].
  split; [vm_compute; reflexivity|].
  split; vm_compute; reflexivity.
Qed.

(** The aggregate after one upload and two reviews on the sample store. *)
Lemma rating_aggregate_after_requests_witness :
  consistent demo_db
  ∧ Forall fault_free [demo_upload; demo_review 1 5; demo_review 2 3]
  ∧ forall r, r ∈ resources (run [demo_upload; demo_review 1 5; demo_review 2 3] demo_db) ->
      let ratings :=
        ratings_of (r_id r) (run [demo_upload; demo_review 1 5; demo_review 2 3] demo_db) in
      r_total_ratings r = Z.of_nat (length ratings)
      ∧ r_average_rating r = averageRating ratings
      ∧ ((length ratings < 20)%nat -> r_average_rating r = halfUpMean ratings)
      ∧ (ratings = [] -> r_average_rating r = 0 ∧ r_total_ratings r = 0).
Proof.
  split; [exact demo_db_consistent|].
  split; [repeat constructor|].
  apply (rating_aggregate_after_requests demo_db
           [demo_upload; demo_review 1 5; demo_review 2 3]).
  - exact demo_db_consistent.
  - repeat constructor.
Defined.

(** Two reviewers rate the resource 5 and 3: average 4.0, count 2. *)
Example demo_five_three :
  (fun r => (r_average_rating r, r_total_ratings r))
    <$> resources (run [demo_upload; demo_review 1 5; demo_review 2 3] demo_db)
  = [(40, 2)].
Proof. vm_compute. reflexivity. Qed.

(** Student 1, of the owner's college, fetches the private resource. *)
Lemma canView_contract_witness :
  resolves (demo_user 1) demo_db1 (Some (demo_viewer 1))
  ∧ getResourceById (demo_user 1) demo_resource_id demo_db1
    = json 200 (ResourceBody demo_resource).
Proof.
  assert (resolves (demo_user 1) demo_db1 (Some (demo_viewer 1))) as Hres.
  { split; [reflexivity|]. split; [vm_compute; reflexivity|discriminate]. }
  split; [exact Hres|].
  destruct (canView_contract (demo_user 1) demo_db1 (Some (demo_viewer 1)) Hres)
    as (_ & _ & Hbyid & _).
  rewrite (Hbyid demo_resource_id demo_resource) by (vm_compute; reflexivity).
  reflexivity.
Defined.

(** A student of the owner's college sees the private resource, a student of
    another college and the anonymous viewer do not. *)
Example demo_visibility :
  status (getResourceById (demo_user 1) demo_resource_id demo_db1) = 200
  ∧ getResources (demo_user 1) (fun _ => true) demo_db1
    = json 200 (ResourcesBody [demo_resource])
  ∧ status (getResourceById (demo_user 2) demo_resource_id demo_db1) = 403
  ∧ getResources (demo_user 2) (fun _ => true) demo_db1 = json 200 (ResourcesBody [])
  ∧ status (getResourceById None demo_resource_id demo_db1) = 403
  ∧ getResources None (fun _ => true) demo_db1 = json 200 (ResourcesBody []).
Proof. repeat split; vm_compute; reflexivity. Qed.

(** With no college on the viewer's profile the two read paths part: the owner
    fetches the private resource by id and does not find it in the list.
    Neither [signUp] nor [updateProfile] writes such a profile. *)
Example demo_empty_college :
  let db :=
    with_profiles demo_db1
      (update_rows p_id (demo_uuid "a" 0)
         (fun row => {| p_id := p_id row; p_name := p_name row;
                        p_college := EmptyString; p_course := p_course row;
                        p_branch := p_branch row; p_semester := p_semester row;
                        p_profile_image_url := p_profile_image_url row;
                        p_created_at := p_created_at row |})
         (profiles demo_db1)) in
  getResourceById (demo_user 0) demo_resource_id db = json 200 (ResourceBody demo_resource)
  ∧ getResources (demo_user 0) (fun _ => true) db = json 200 (ResourcesBody []).
Proof. split; vm_compute; reflexivity. Qed.

(** A second review by student 1 on the same resource is answered 409. *)
Lemma one_review_per_pair_witness :
  unique_pairs demo_db
  ∧ createReview NoFault (demo_user 1) (demo_review_request 4)
      (demo_t0 + 5000) (demo_uuid "c" 3) demo_db2
    = (json 409 (ErrorBody "You can submit only one review per resource"), demo_db2).
Proof.
  assert (unique_pairs demo_db) as Hnd by constructor.
  split; [exact Hnd|].
  destruct (one_review_per_pair demo_db [demo_upload; demo_review 1 5; demo_review 2 3] Hnd)
    as (_ & Hdup & _).
  apply (Hdup NoFault (demo_user 1) (demo_uuid "a" 1) (demo_review_request 4)
              {| in_resourceId := demo_resource_id; in_rating := 4;
                 in_comment := EmptyString |}
              (demo_t0 + 5000) (demo_uuid "c" 3) (demo_review_row 1 5));
    try reflexivity.
  replace (reviews (run [demo_upload; demo_review 1 5; demo_review 2 3] demo_db))
    with [demo_review_row 1 5; demo_review_row 2 3] by (vm_compute; reflexivity).
  left.
Defined.

(** The owner makes the sample resource public, or deletes it, just before
    the window closes, and is refused just after. *)
Lemma lock_window_uniform_witness :
  authenticated (demo_user 0) = Some (demo_uuid "a" 0)
  ∧ updateResource (demo_user 0) (Some demo_publish) demo_resource_id
      (demo_t0 + LOCK_WINDOW_MS - 1000) demo_db1
    = (json 200 (ResourceBody (patch_resource demo_publish demo_resource)),
       with_resources demo_db1
         (update_rows r_id demo_resource_id (patch_resource demo_publish)
            (resources demo_db1)))
  ∧ updateResource (demo_user 0) (Some demo_publish) demo_resource_id
      (demo_t0 + LOCK_WINDOW_MS + 1000) demo_db1
    = (json 403 (ErrorBody "Resource edit lock is 24 hours"), demo_db1)
  ∧ deleteResource (demo_user 0) demo_resource_id (demo_t0 + LOCK_WINDOW_MS - 1000) demo_db1
    = (json 200 (MessageBody "Resource deleted"),
       delete_resource_rows demo_resource_id demo_db1)
  ∧ deleteResource (demo_user 0) demo_resource_id (demo_t0 + LOCK_WINDOW_MS + 1000) demo_db1
    = (json 403 (ErrorBody "Resource delete lock is 24 hours"), demo_db1).
Proof.
  split; [reflexivity|].
  destruct (lock_window_uniform (demo_user 0) (demo_uuid "a" 0) demo_db1 NoFault eq_refl)
    as [Hres _].
  assert (single (eq_rows r_id demo_resource_id (resources demo_db1)) = Some demo_resource)
    as Hex by (vm_compute; reflexivity).
  destruct (Hres demo_resource_id demo_resource demo_publish 0 Hex) as [Hown _].
  destruct (Hown eq_refl) as (Hedit & _ & Hlocked & Hbefore & Hafter).
  split; [exact Hedit|]. split; [exact Hlocked|].
  split; [exact Hbefore|exact Hafter].
Defined.

(** The owner makes the sample resource public, or deletes it, at exactly
    24 hours. *)
Lemma lock_boundary_inclusive_witness :
  authenticated (demo_user 0) = Some (demo_uuid "a" 0)
  ∧ updateResource (demo_user 0) (Some demo_publish) demo_resource_id
      (demo_t0 + LOCK_WINDOW_MS) demo_db1
    = (json 200 (ResourceBody (patch_resource demo_publish demo_resource)),
       with_resources demo_db1
         (update_rows r_id demo_resource_id (patch_resource demo_publish)
            (resources demo_db1)))
  ∧ deleteResource (demo_user 0) demo_resource_id (demo_t0 + LOCK_WINDOW_MS) demo_db1
    = (json 200 (MessageBody "Resource deleted"),
       delete_resource_rows demo_resource_id demo_db1).
Proof.
  split; [reflexivity|].
  destruct (lock_boundary_inclusive (demo_user 0) (demo_uuid "a" 0) demo_db1 NoFault eq_refl)
    as [Hres _].
  assert (single (eq_rows r_id demo_resource_id (resources demo_db1)) = Some demo_resource)
    as Hex by (vm_compute; reflexivity).
  destruct (Hres demo_resource_id demo_resource demo_publish 0 Hex eq_refl)
    as (Hedit & Hat & _).
  split; [exact Hedit|exact Hat].
Defined.

(** An update whose payload names no column passes the guard and is refused
    by the store: nothing is written and no row comes back. *)
Example demo_empty_updates_refused :
  updateResource (demo_user 0) (Some no_update) demo_resource_id (demo_t0 + 1000) demo_db1
  = (json 500 StoreError, demo_db1)
  ∧ updateReview NoFault (demo_user 1) no_review_update (demo_uuid "c" 1)
      (demo_t0 + 2000) demo_db2
    = (json 500 StoreError, demo_db2)
  ∧ updateProfile (demo_user 0) (Some no_profile_update) demo_db
    = (json 500 StoreError, demo_db).
Proof. repeat split; vm_compute; reflexivity. Qed.

(** C6 fails as stated: fulfilling a request id that names no request is
    answered with the success message, not with a not-found outcome; and the
    write is not unconditional, since a [resourceId] naming no stored resource
    is refused by the store and reported as an error. *)
Lemma fulfill_unknown_request_succeeds :
  eq_rows q_id (demo_uuid "d" 9) (resource_requests demo_db1) = []
  ∧ fulfillRequest (demo_user 0) (Some demo_resource_id) (demo_uuid "d" 9) demo_db1
    = (json 200 (MessageBody "Request fulfilled"), demo_db1)
  ∧ status (fulfillRequest (demo_user 0) (Some demo_resource_id) (demo_uuid "d" 9)
              demo_db1).1 <> 404
  ∧ eq_rows q_id (demo_uuid "d" 1) (resource_requests demo_db1) = [demo_request]
  ∧ fulfillRequest (demo_user 0) (Some (demo_uuid "b" 7)) (demo_uuid "d" 1) demo_db1
    = (json 500 StoreError, demo_db1).
Proof.
  split; [vm_compute; reflexivity|].
  split; [vm_compute; reflexivity|].
  split; [vm_compute; discriminate|].
  split; vm_compute; reflexivity.
Qed.

(** Student 0 fulfils the open sample request, which is not theirs, with the
    sample resource. *)
Lemma fulfillRequest_effect_witness :
  authenticated (demo_user 0) = Some (demo_uuid "a" 0)
  ∧ demo_resource_id <> EmptyString
  ∧ demo_resource_id ∈ r_id <$> resources demo_db1
  ∧ fulfillRequest (demo_user 0) (Some demo_resource_id) (demo_uuid "d" 1) demo_db1
    = (json 200 (MessageBody "Request fulfilled"),
       with_requests demo_db1
         (update_rows q_id (demo_uuid "d" 1) (patch_fulfilled demo_resource_id)
            (resource_requests demo_db1))).
Proof.
  assert (demo_resource_id <> EmptyString) as Hne by discriminate.
  assert (demo_resource_id ∈ r_id <$> resources demo_db1) as Hin.
  { replace (r_id <$> resources demo_db1) with [demo_resource_id]
      by (vm_compute; reflexivity). left. }
  split; [reflexivity|]. split; [exact Hne|]. split; [exact Hin|].
  destruct (fulfillRequest_effect (demo_user 0) (demo_uuid "a" 0) demo_resource_id
              (demo_uuid "d" 1) demo_db1 eq_refl Hne) as (_ & Hset & _).
  destruct (Hset Hin) as [Heq _]. exact Heq.
Defined.

(** The sample tables read in reverse order give the same point values. *)
Lemma computeLeaderboard_order_independent_witness :
  profiles demo_db2 ≡ₚ reverse (profiles demo_db2)
  ∧ resources demo_db2 ≡ₚ reverse (resources demo_db2)
  ∧ e_points <$> computeLeaderboard (profiles demo_db2) (resources demo_db2)
    ≡ₚ e_points <$> computeLeaderboard (reverse (profiles demo_db2))
                      (reverse (resources demo_db2)).
Proof.
  assert (profiles demo_db2 ≡ₚ reverse (profiles demo_db2)) as Hp
    by (symmetry; apply reverse_Permutation).
  assert (resources demo_db2 ≡ₚ reverse (resources demo_db2)) as Hr
    by (symmetry; apply reverse_Permutation).
  split; [exact Hp|]. split; [exact Hr|].
  exact (computeLeaderboard_order_independent _ _ _ _ Hp Hr).
Defined.

(** One public and one private upload score 15 points. *)
Example demo_leaderboard_points :
  head (computeLeaderboard (profiles demo_db)
          (resources (run [demo_upload;
                           CreateResource (demo_user 0) (Some (demo_input public))
                             demo_t0 (demo_uuid "b" 2)] demo_db)))
  = Some {| e_id := demo_uuid "a" 0; e_name := "Student";
            e_college := "St. Claret College"; e_branch := "General";
            e_points := 15 |}.
Proof. vm_compute. reflexivity. Qed.

(** ** Failure of the aggregate recomputation *)

(** The answer of the three review handlers does not depend on what the store
    answered to [refreshResourceRating]. *)
Lemma review_response_ignores_fault fault user db now :
  (forall req fresh,
      (createReview fault user req now fresh db).1
      = (createReview NoFault user req now fresh db).1)
  ∧ (forall req id,
      (updateReview fault user req id now db).1
      = (updateReview NoFault user req id now db).1)
  ∧ (forall id,
      (deleteReview fault user id now db).1 = (deleteReview NoFault user id now db).1).
Proof.
  split; [|split]; intros.
  - unfold createReview. by repeat case_match.
  - unfold updateReview. by repeat case_match.
  - unfold deleteReview. by repeat case_match.
Qed.

(** C5 is not met by the code.  When the store fails the update of
    [resources] inside [refreshResourceRating], [createReview] still answers
    201: the review is stored and the resource keeps a count of 0.  When the
    store fails the read of [reviews], [updateReview] still answers 200 and the
    aggregate of a resource with two reviews is overwritten with 0 and 0. *)
Theorem refresh_failure_answered_as_success :
  let created :=
    createReview UpdateResourceFails (demo_user 1) (demo_review_request 4)
      (demo_t0 + 1000) (demo_uuid "c" 1) demo_db1 in
  let updated :=
    updateReview SelectReviewsFails (demo_user 1)
      {| upd_rating := Some 1; upd_comment := None |}
      (demo_uuid "c" 1) (demo_t0 + 2000) demo_db2 in
  created.1 = json 201 (ReviewBody (demo_review_row 1 4))
  ∧ reviews created.2 = [demo_review_row 1 4]
  ∧ (fun r => (r_average_rating r, r_total_ratings r)) <$> resources created.2 = [(0, 0)]
  ∧ (fun r => (r_average_rating r, r_total_ratings r)) <$> resources demo_db2 = [(40, 2)]
  ∧ status updated.1 = 200
  ∧ ratings_of demo_resource_id updated.2 = [1; 3]
  ∧ (fun r => (r_average_rating r, r_total_ratings r)) <$> resources updated.2 = [(0, 0)].
Proof. repeat split; vm_compute; reflexivity. Qed.

(** A reviewer rates 4, changes the rating to 2 within the window (average
    2.0, count 1), and is refused the deletion one second after the window. *)
Example demo_update_then_locked :
  let db3 :=
    run [demo_upload; demo_review 1 4;
         UpdateReview NoFault (demo_user 1) {| upd_rating := Some 2; upd_comment := None |}
           (demo_uuid "c" 1) (demo_t0 + 3600000)] demo_db in
  (fun r => (r_average_rating r, r_total_ratings r)) <$> resources db3 = [(20, 1)]
  ∧ deleteReview NoFault (demo_user 1) (demo_uuid "c" 1)
      (demo_t0 + 1000 + LOCK_WINDOW_MS + 1000) db3
    = (json 403 (ErrorBody "Review delete lock is 24 hours"), db3).
Proof. repeat split; vm_compute; reflexivity. Qed.

(** * Further properties *)

(** ** Errors leave the store alone *)

Lemma handle_error_unchanged (op : Op) (db : Db) :
  status (handle op db).1 <> 200 -> status (handle op db).1 <> 201 ->
  (handle op db).2 = db.
Proof.
  destruct op; simpl.
  - unfold createResource. by repeat case_match.
  - unfold updateResource. by repeat case_match.
  - unfold deleteResource. by repeat case_match.
  - unfold fulfillRequest. by repeat case_match.
  - unfold updateProfile. by repeat case_match.
  - unfold createReview. by repeat case_match.
  - unfold updateReview. by repeat case_match.
  - unfold deleteReview. by repeat case_match.
Qed.

(** X1: a state-changing request that is not answered 200 or 201 leaves the
    four tables exactly as they were; unauthenticated requests are among
    them, being answered 401. *)
Theorem error_leaves_store (rq : Request) (db : Db) :
  ((serve rq db).1 <> 200 -> (serve rq db).1 <> 201 -> (serve rq db).2 = db)
  ∧ (match rq with
     | Plain (CreateResource user _ _ _) | Plain (UpdateResource user _ _ _)
     | Plain (DeleteResource user _ _) | Plain (FulfillRequest user _ _)
     | Plain (UpdateProfile user _) | Plain (CreateReview _ user _ _ _)
     | Plain (UpdateReview _ user _ _ _) | Plain (DeleteReview _ user _ _)
     | CreateRequest user _ _ _ =>
         authenticated user = None -> (serve rq db).1 = 401
     end).
Proof.
  split.
  - destruct rq as [op|user parsed now fresh]; simpl.
    + apply handle_error_unchanged.
    + unfold createRequest. by repeat case_match.
  - destruct rq as [op|user parsed now fresh]; [destruct op|]; simpl; intros Hauth.
    + unfold createResource. by rewrite Hauth.
    + unfold updateResource. by rewrite Hauth.
    + unfold deleteResource. by rewrite Hauth.
    + unfold fulfillRequest. by rewrite Hauth.
    + unfold updateProfile. by rewrite Hauth.
    + unfold createReview. by rewrite Hauth.
    + unfold updateReview. by rewrite Hauth.
    + unfold deleteReview. by rewrite Hauth.
    + unfold createRequest. by rewrite Hauth.
Qed.

(** ** The routers *)

Section RouterFacts.
Context (getUser : string -> option AuthenticatedUser).

Lemma protected_changed authorization db handler :
  (protected getUser authorization db handler).2 <> db ->
  exists authHeader u,
    authorization = Some authHeader
    ∧ String.prefix "Bearer " authHeader = true
    ∧ getUser (String.substring 7 (String.length authHeader - 7) authHeader) = Some u
    ∧ protected getUser authorization db handler = handler (Some u).
Proof.
  unfold protected, authMiddleware.
  destruct authorization as [authHeader|]; [|done].
  destruct (String.prefix "Bearer " authHeader) eqn:Hprefix; [|done].
  destruct (getUser _) as [u|] eqn:Hu; [|done].
  intros _. by exists authHeader, u.
Qed.

Lemma protected_rejected authorization db handler response :
  authMiddleware getUser authorization = inl response ->
  protected getUser authorization db handler = (Sent response, db)
  ∧ status response = 401.
Proof.
  unfold protected. intros Hmw. rewrite Hmw. split; [done|].
  unfold authMiddleware in Hmw. repeat case_match; by simplify_eq.
Qed.

(** X2: through [resourceRoutes] and [reviewRoutes] the store changes only
    for a request whose Authorization header is "Bearer " followed by a token
    that [getUser] resolves to a user with a non-empty id; otherwise every
    registered route leaves the store as it was. *)
Theorem routes_change_store_only_with_token :
  (forall route authorization now fresh db,
      (resourceRoutes getUser route authorization now fresh db).2 <> db ->
      exists authHeader u,
        authorization = Some authHeader
        ∧ String.prefix "Bearer " authHeader = true
        ∧ getUser (String.substring 7 (String.length authHeader - 7) authHeader)
          = Some u
        ∧ user_id u <> EmptyString)
  ∧ (forall route authorization fault now fresh db,
      (reviewRoutes getUser route authorization fault now fresh db).2 <> db ->
      exists authHeader u,
        authorization = Some authHeader
        ∧ String.prefix "Bearer " authHeader = true
        ∧ getUser (String.substring 7 (String.length authHeader - 7) authHeader)
          = Some u
        ∧ user_id u <> EmptyString).
Proof.
  assert (forall u : AuthenticatedUser,
             user_id u = EmptyString -> authenticated (Some u) = None) as Hempty.
  { intros u Hu. unfold authenticated. simpl. by rewrite Hu. }
  split.
  - intros route authorization now fresh db Hchanged.
    destruct route; simpl in Hchanged; try done;
      apply protected_changed in Hchanged as Hp;
      destruct Hp as (authHeader & u & -> & Hprefix & Hu & Heq);
      exists authHeader, u; repeat split; try done;
      intros Hid; apply Hchanged; rewrite Heq; specialize (Hempty u Hid).
    + unfold createResource. by rewrite Hempty.
    + unfold updateResource. by rewrite Hempty.
    + unfold deleteResource. by rewrite Hempty.
    + unfold createRequest. by rewrite Hempty.
    + unfold fulfillRequest. by rewrite Hempty.
  - intros route authorization fault now fresh db Hchanged.
    destruct route; simpl in Hchanged; try done;
      apply protected_changed in Hchanged as Hp;
      destruct Hp as (authHeader & u & -> & Hprefix & Hu & Heq);
      exists authHeader, u; repeat split; try done;
      intros Hid; apply Hchanged; rewrite Heq; specialize (Hempty u Hid).
    + unfold createReview. by rewrite Hempty.
    + unfold updateReview. by rewrite Hempty.
    + unfold deleteReview. by rewrite Hempty.
Qed.
End RouterFacts.

Lemma getResourceById_anonymous id db resource :
  single (eq_rows r_id id (resources db)) = Some resource ->
  getResourceById None id db =
  if decide (r_privacy resource = private)
  then json 403 (ErrorBody "Private resource access denied")
  else json 200 (ResourceBody resource).
Proof. intros Hex. unfold getResourceById. rewrite Hex. by case_decide. Qed.

Lemma getResources_anonymous query db :
  getResources None query db =
  json 200 (ResourcesBody
              (List.filter (fun row => bool_decide (r_privacy row = public))
                 (sort_desc r_created_at (List.filter query (resources db))))).
Proof.
  reflexivity.
Qed.

(** X3: the two resource reads are registered without [authMiddleware], so
    whatever Authorization header is sent, [GET /:id] answers 403 for every
    private resource and [GET /] lists exactly the selected public
    resources: through the router no private resource is ever served, not
    even to its uploader. *)
Theorem resource_reads_serve_public_only
    (getUser : string -> option AuthenticatedUser) (authorization : option string)
    (now : Z) (fresh : uuid) (db : Db) :
  (forall id resource,
      single (eq_rows r_id id (resources db)) = Some resource ->
      (resourceRoutes getUser (GetResourceById id) authorization now fresh db).1 =
      Sent (if decide (r_privacy resource = private)
            then json 403 (ErrorBody "Private resource access denied")
            else json 200 (ResourceBody resource)))
  ∧ (forall query, exists rows,
      (resourceRoutes getUser (GetResources query) authorization now fresh db).1
      = Sent (json 200 (ResourcesBody rows))
      ∧ forall row, row ∈ rows <->
          row ∈ resources db ∧ query row = true ∧ r_privacy row = public).
Proof.
  split.
  - intros id resource Hex. simpl. by rewrite (getResourceById_anonymous id db resource).
  - intros query. eexists. split.
    + simpl. by rewrite getResources_anonymous.
    + intros row. rewrite !list_elem_of_In, filter_In, <- !list_elem_of_In.
      rewrite elem_of_sort_desc, list_elem_of_In, filter_In, <- list_elem_of_In.
      rewrite bool_decide_eq_true. tauto.
Qed.

(** ** Writing a resource and reading it back *)

Lemma single_Some_eq_rows {A} (rows : list A) (row : A) :
  single rows = Some row -> rows = [row].
Proof. destruct rows as [|x [|y l]]; simpl; congruence. Qed.

Lemma eq_rows_fresh {A} (col : A -> uuid) (v : uuid) (rows : list A) :
  v ∉ col <$> rows -> eq_rows col v rows = [].
Proof.
  intros Hfresh. unfold eq_rows.
  destruct (filter _ rows) as [|x l] eqn:Hf; [done|]. exfalso. apply Hfresh.
  assert (x ∈ filter (fun row => col row = v) rows) as Hx by (rewrite Hf; left).
  apply list_elem_of_filter in Hx as [<- Hx]. by apply list_elem_of_fmap_2.
Qed.

Lemma eq_rows_app {A} (col : A -> uuid) (v : uuid) (l k : list A) :
  eq_rows col v (l ++ k) = eq_rows col v l ++ eq_rows col v k.
Proof. apply filter_app. Qed.

Lemma eq_rows_delete_rows {A} (col : A -> uuid) (v : uuid) (rows : list A) :
  eq_rows col v (delete_rows col v rows) = [].
Proof.
  unfold eq_rows, delete_rows. rewrite list_filter_filter.
  induction rows as [|row rows IH]; [done|].
  rewrite filter_cons, decide_False by tauto. exact IH.
Qed.

Lemma createResource_created user parsed now fresh db data points db' :
  createResource user parsed now fresh db
  = (json 201 (CreatedResourceBody data points), db') ->
  exists uid p profile,
    authenticated user = Some uid ∧ parsed = Some p
    ∧ single (eq_rows p_id uid (profiles db)) = Some profile
    ∧ (fresh ∉ r_id <$> resources db)
    ∧ data = new_resource fresh uid now (p_college profile) p
    ∧ points = upload_points (in_privacy p)
    ∧ db' = with_resources db (resources db ++ [data]).
Proof.
  unfold createResource.
  destruct (authenticated user) as [uid|] eqn:Hauth; [|done].
  destruct parsed as [p|]; [|done].
  destruct (single _) as [profile|] eqn:Hprof; [|done].
  case_decide as Hfresh; [done|].
  intros [= <- <- <-]. by exists uid, p, profile.
Qed.

(** X4: a resource just created is found again under its new id: the
    uploader fetches it whatever its visibility, anyone (the anonymous viewer
    included) fetches it when it is public, and every resource that could be
    fetched by id before still can. *)
Theorem created_resource_is_served user parsed now fresh db data points db' :
  createResource user parsed now fresh db
  = (json 201 (CreatedResourceBody data points), db') ->
  r_id data = fresh
  ∧ getResourceById user fresh db' = json 200 (ResourceBody data)
  ∧ (forall viewer, r_privacy data = public ->
       getResourceById viewer fresh db' = json 200 (ResourceBody data))
  ∧ (forall viewer id, id <> fresh ->
       getResourceById viewer id db' = getResourceById viewer id db).
Proof.
  intros Hcreated.
  apply createResource_created in Hcreated
    as (uid & p & profile & Hauth & -> & Hprof & Hfresh & Hdata & _ & ->).
  assert (single (eq_rows r_id fresh (resources db ++ [data])) = Some data) as Hsingle.
  { rewrite eq_rows_app, eq_rows_fresh by done. unfold eq_rows.
    rewrite filter_cons, decide_True; [done|]. by subst data. }
  split; [by subst data|]. split; [|split].
  - unfold getResourceById. simpl. rewrite Hsingle.
    apply authenticated_Some in Hauth as [Hid ->]. simpl.
    case_decide; [|done].
    rewrite (bool_decide_true (Some (r_uploader_id data) = _)); [done|].
    rewrite Hid. by subst data.
  - intros viewer Hpub. unfold getResourceById. simpl. rewrite Hsingle.
    by rewrite decide_False by (rewrite Hpub; done).
  - intros viewer id Hid. unfold getResourceById. simpl.
    rewrite eq_rows_app. unfold eq_rows at 2.
    rewrite filter_cons, decide_False by (subst data; simpl; congruence).
    by rewrite filter_nil, app_nil_r.
Qed.

Lemma deleteResource_deleted user id now db db' :
  deleteResource user id now db = (json 200 (MessageBody "Resource deleted"), db') ->
  exists uid existing,
    authenticated user = Some uid
    ∧ single (eq_rows r_id id (resources db)) = Some existing
    ∧ r_uploader_id existing = uid
    ∧ isWithin24Hours now (r_created_at existing) = true
    ∧ db' = delete_resource_rows id db.
Proof.
  unfold deleteResource.
  destruct (authenticated user) as [uid|] eqn:Hauth; [|done].
  destruct (single _) as [existing|] eqn:Hex; [|done].
  case_decide as Hown; [done|].
  destruct (isWithin24Hours _ _) eqn:Hlock; [|done]. simpl.
  intros [= <-]. by exists uid, existing.
Qed.

(** X5: once [deleteResource] has answered "Resource deleted", the id is
    answered 404 to every viewer, no review of the resource is left, no
    request names it as its fulfilling resource any more (while keeping its
    status), and profiles and all other resources are untouched. *)
Theorem deleted_resource_is_gone user id now db db' :
  deleteResource user id now db = (json 200 (MessageBody "Resource deleted"), db') ->
  (forall viewer, getResourceById viewer id db' = json 404 (ErrorBody "Resource not found"))
  ∧ eq_rows v_resource_id id (reviews db') = []
  ∧ (forall row, row ∈ resource_requests db' -> q_fulfilled_resource_id row <> Some id)
  ∧ q_status <$> resource_requests db' = q_status <$> resource_requests db
  ∧ profiles db' = profiles db
  ∧ resources db' = filter (fun r => r_id r <> id) (resources db).
Proof.
  intros Hdel.
  apply deleteResource_deleted in Hdel as (uid & existing & _ & _ & _ & _ & ->).
  split; [|split; [|split; [|split; [|split]]]].
  - intros viewer. unfold getResourceById. simpl. by rewrite eq_rows_delete_rows.
  - simpl. apply eq_rows_delete_rows.
  - intros row Hrow. simpl in Hrow.
    apply list_elem_of_fmap in Hrow as (row0 & -> & _).
    unfold clear_fulfilled. by case_decide.
  - simpl. rewrite <- list_fmap_compose. apply list_fmap_ext. intros _ row _. simpl.
    unfold clear_fulfilled. by case_decide.
  - done.
  - done.
Qed.

(** ** Leaderboard points follow the resources table *)

Lemma leaderboard_points_spec db profile :
  leaderboard_points db profile = points_spec (p_id profile) (resources db).
Proof. unfold leaderboard_points. simpl. apply pointsByUser_lookup. Qed.

Lemma points_spec_cons_contribution u r rows :
  points_spec u (r :: rows) = contribution u r + points_spec u rows.
Proof. rewrite points_spec_cons. reflexivity. Qed.

Lemma points_spec_app u l k :
  points_spec u (l ++ k) = points_spec u l + points_spec u k.
Proof.
  induction l as [|r l IH]; simpl.
  - rewrite points_spec_nil. lia.
  - rewrite !points_spec_cons_contribution, IH. lia.
Qed.

Lemma delete_rows_none {A} (col : A -> uuid) (v : uuid) (rows : list A) :
  eq_rows col v rows = [] -> delete_rows col v rows = rows.
Proof.
  unfold eq_rows, delete_rows. induction rows as [|row rows IH]; [done|].
  rewrite !filter_cons. destruct (decide (col row = v)) as [Heq|Hne]; [done|].
  intros Hnone. rewrite decide_True by done. f_equal. by apply IH.
Qed.

Lemma points_spec_delete u id rows existing :
  eq_rows r_id id rows = [existing] ->
  points_spec u (delete_rows r_id id rows) = points_spec u rows - contribution u existing.
Proof.
  induction rows as [|r rows IH]; [done|].
  unfold eq_rows, delete_rows. rewrite !filter_cons.
  fold (eq_rows r_id id rows). fold (delete_rows r_id id rows).
  destruct (decide (r_id r = id)) as [Heq|Hne].
  - intros [= -> Hnone]. rewrite decide_False by tauto.
    rewrite delete_rows_none by done. rewrite points_spec_cons_contribution. lia.
  - intros Hone. rewrite decide_True by done.
    rewrite !points_spec_cons_contribution, IH by done. lia.
Qed.

Lemma points_spec_update u id f rows existing :
  eq_rows r_id id rows = [existing] ->
  points_spec u (update_rows r_id id f rows)
  = points_spec u rows - contribution u existing + contribution u (f existing).
Proof.
  induction rows as [|r rows IH]; [done|].
  unfold eq_rows, update_rows. rewrite fmap_cons, filter_cons.
  fold (eq_rows r_id id rows). fold (update_rows r_id id f rows).
  destruct (decide (r_id r = id)) as [Heq|Hne].
  - intros [= -> Hnone].
    rewrite update_rows_none by done. rewrite !points_spec_cons_contribution. lia.
  - intros Hone. rewrite !points_spec_cons_contribution, IH by done. lia.
Qed.

(** X6: after a successful upload the uploader's leaderboard points are
    higher by exactly the [pointsAwarded] of the response (10 for a public, 5
    for a private resource) and nobody else's points move. *)
Theorem upload_adds_awarded_points user parsed now fresh db data points db' :
  createResource user parsed now fresh db
  = (json 201 (CreatedResourceBody data points), db') ->
  points = upload_points (r_privacy data)
  ∧ forall profile,
      leaderboard_points db' profile
      = leaderboard_points db profile
        + (if decide (r_uploader_id data = p_id profile) then points else 0).
Proof.
  intros Hcreated.
  apply createResource_created in Hcreated
    as (uid & p & profile0 & _ & _ & _ & _ & Hdata & Hpoints & ->).
  split; [by subst data|].
  intros profile. rewrite !leaderboard_points_spec. simpl.
  rewrite points_spec_app, points_spec_cons_contribution, points_spec_nil.
  unfold contribution. subst data points. simpl. lia.
Qed.

(** X7: points are not kept once earned: after a successful delete the
    uploader's leaderboard points are lower by what the resource was worth
    and nobody else's points move. *)
Theorem delete_takes_points_back user id now db db' :
  deleteResource user id now db = (json 200 (MessageBody "Resource deleted"), db') ->
  exists existing,
    single (eq_rows r_id id (resources db)) = Some existing
    ∧ forall profile,
        leaderboard_points db' profile
        = leaderboard_points db profile
          - (if decide (r_uploader_id existing = p_id profile)
             then upload_points (r_privacy existing) else 0).
Proof.
  intros Hdel.
  apply deleteResource_deleted in Hdel as (uid & existing & _ & Hex & _ & _ & ->).
  exists existing. split; [done|]. intros profile.
  rewrite !leaderboard_points_spec. simpl.
  by rewrite (points_spec_delete _ id _ existing) by (by apply single_Some_eq_rows).
Qed.

Lemma updateResource_updated user parsed id now db updated db' :
  updateResource user parsed id now db = (json 200 (ResourceBody updated), db') ->
  exists uid p existing,
    authenticated user = Some uid ∧ parsed = Some p
    ∧ single (eq_rows r_id id (resources db)) = Some existing
    ∧ r_uploader_id existing = uid
    ∧ isWithin24Hours now (r_created_at existing) = true
    ∧ updated = patch_resource p existing
    ∧ db' = with_resources db (update_rows r_id id (patch_resource p) (resources db)).
Proof.
  unfold updateResource.
  destruct (authenticated user) as [uid|] eqn:Hauth; [|done].
  destruct parsed as [p|]; [|done].
  destruct (single (eq_rows r_id id (resources db))) as [existing|] eqn:Hex; [|done].
  case_decide as Hown; [done|].
  destruct (isWithin24Hours _ _) eqn:Hlock; [|done]. simpl.
  destruct (resource_patch_empty p); [done|].
  rewrite (single_update_rows r_id id _ _ existing) by done.
  intros [= <- <-]. by exists uid, p, existing.
Qed.

(** X8: editing the visibility of a resource moves its uploader's
    leaderboard points by the difference between the new and the old worth
    (5 points up or down, or nothing), and nobody else's points move. *)
Theorem privacy_edit_moves_points user parsed id now db updated db' :
  updateResource user parsed id now db = (json 200 (ResourceBody updated), db') ->
  exists existing,
    single (eq_rows r_id id (resources db)) = Some existing
    ∧ r_uploader_id updated = r_uploader_id existing
    ∧ forall profile,
        leaderboard_points db' profile
        = leaderboard_points db profile
          + (if decide (r_uploader_id existing = p_id profile)
             then upload_points (r_privacy updated) - upload_points (r_privacy existing)
             else 0).
Proof.
  intros Hupd.
  apply updateResource_updated in Hupd
    as (uid & p & existing & _ & _ & Hex & _ & _ & -> & ->).
  exists existing. split; [done|]. split; [done|]. intros profile.
  rewrite !leaderboard_points_spec. simpl.
  rewrite (points_spec_update _ id _ _ existing) by (by apply single_Some_eq_rows).
  unfold contribution. simpl. case_decide; lia.
Qed.

(** ** The aggregator heals a stale aggregate *)

Lemma ratings_of_refresh fault resourceId db rid :
  ratings_of rid (refreshResourceRating fault resourceId db) = ratings_of rid db.
Proof. unfold ratings_of. by rewrite refreshResourceRating_reviews. Qed.

Lemma update_rows_update_rows {A} (col : A -> uuid) (v : uuid) (f : A -> A)
    (rows : list A) :
  (forall row, col (f row) = col row) -> (forall row, f (f row) = f row) ->
  update_rows col v f (update_rows col v f rows) = update_rows col v f rows.
Proof.
  intros Hcol Hf. unfold update_rows. rewrite <- list_fmap_compose.
  apply list_fmap_ext. intros _ row _. simpl.
  destruct (decide (col row = v)) as [Heq|Hne].
  - by rewrite decide_True, Hf by (by rewrite Hcol).
  - by rewrite decide_False.
Qed.

Lemma refreshResourceRating_heals resourceId db r :
  r ∈ resources (refreshResourceRating NoFault resourceId db) ->
  r_id r = resourceId ->
  aggregate_ok (refreshResourceRating NoFault resourceId db) r.
Proof.
  unfold refreshResourceRating. rewrite !decide_False by done. simpl default.
  intros Hr Hid. simpl in Hr.
  apply elem_of_update_rows_inv in Hr as (r0 & Hr0 & ->).
  unfold aggregate_ok. rewrite ratings_of_with_resources.
  case_decide as Hc; [by rewrite <- Hc|].
  exfalso. by apply Hc.
Qed.

(** X9: when the store answers, [refreshResourceRating] leaves every row of
    the resource with the count and the average of the reviews now stored
    for it, whatever the row held before; it touches no other resource, no
    review, no profile and no request; and running it again changes nothing. *)
Theorem refresh_heals_and_is_idempotent (resourceId : uuid) (db : Db) :
  let db' := refreshResourceRating NoFault resourceId db in
  (forall r, r ∈ resources db' -> r_id r = resourceId -> aggregate_ok db' r)
  ∧ (forall r, r_id r <> resourceId -> (r ∈ resources db' <-> r ∈ resources db))
  ∧ r_id <$> resources db' = r_id <$> resources db
  ∧ reviews db' = reviews db
  ∧ profiles db' = profiles db
  ∧ resource_requests db' = resource_requests db
  ∧ refreshResourceRating NoFault resourceId db' = db'.
Proof.
  intros db'. subst db'. split; [apply refreshResourceRating_heals|].
  unfold refreshResourceRating at 1 2 3 4 5 6.
  rewrite !decide_False by done. simpl default.
  split; [|split; [|split; [|split; [|split]]]]; try done.
  - intros r Hne. simpl. split.
    + intros Hr. apply elem_of_update_rows_inv in Hr as (r0 & Hr0 & ->).
      case_decide as Hc; [|done]. exfalso. apply Hne. by rewrite <- Hc.
    + intros Hr.
      pose proof (elem_of_update_rows r_id resourceId
                    (set_rating (averageRating (ratings_of resourceId db))
                       (totalRatings (ratings_of resourceId db))) _ r Hr) as Hin.
      by rewrite decide_False in Hin.
  - simpl. by apply fmap_update_rows.
  - unfold refreshResourceRating. rewrite !decide_False by done. simpl default.
    rewrite ratings_of_with_resources. unfold with_resources. simpl. f_equal.
    by apply update_rows_update_rows.
Qed.

(** X10: when the store answers the aggregator, a successful [createReview],
    [updateReview] or [deleteReview] leaves the reviewed resource with the
    count and the average of the reviews stored after the write, whether or
    not its aggregate was right before. *)
Theorem review_writes_leave_exact_aggregate (user : option AuthenticatedUser)
    (now : Z) (db : Db) :
  (forall req fresh data,
      (createReview NoFault user req now fresh db).1 = json 201 (ReviewBody data) ->
      let db' := (createReview NoFault user req now fresh db).2 in
      data ∈ reviews db'
      ∧ forall r, r ∈ resources db' -> r_id r = v_resource_id data -> aggregate_ok db' r)
  ∧ (forall req id data,
      (updateReview NoFault user req id now db).1 = json 200 (ReviewBody data) ->
      let db' := (updateReview NoFault user req id now db).2 in
      data ∈ reviews db'
      ∧ forall r, r ∈ resources db' -> r_id r = v_resource_id data -> aggregate_ok db' r)
  ∧ (forall id,
      (deleteReview NoFault user id now db).1 = json 200 (MessageBody "Review deleted") ->
      let db' := (deleteReview NoFault user id now db).2 in
      exists existing,
        single (eq_rows v_id id (reviews db)) = Some existing
        ∧ eq_rows v_id id (reviews db') = []
        ∧ forall r, r ∈ resources db' -> r_id r = v_resource_id existing ->
            aggregate_ok db' r).
Proof.
  split; [|split].
  - intros req fresh data. unfold createReview.
    destruct (authenticated user) as [uid|]; [|done].
    destruct (reviewSchema req) as [payload|]; [|done].
    destruct (maybeSingle _); [done|].
    destruct (review_insert_ok _ db); [|done]. cbn [negb fst snd].
    intros [= <-]. cbv zeta. split.
    + rewrite refreshResourceRating_reviews. simpl. apply elem_of_app. right. left.
    + intros r Hr Hid. by apply refreshResourceRating_heals.
  - intros req id data. unfold updateReview.
    destruct (authenticated user) as [uid|]; [|done].
    destruct (reviewUpdateSchema req) as [p|]; [|done].
    destruct (single (eq_rows v_id id (reviews db))) as [existing|] eqn:Hex; [|done].
    case_decide; [done|]. destruct (negb _); [done|].
    destruct (review_patch_empty p); [done|].
    rewrite (single_update_rows v_id id _ _ existing) by done. cbn [fst snd].
    intros [= <-]. cbv zeta. split.
    + rewrite refreshResourceRating_reviews. simpl.
      apply single_Some_eq_rows in Hex.
      assert (existing ∈ reviews db) as Hin.
      { assert (existing ∈ eq_rows v_id id (reviews db)) as Hin by (rewrite Hex; left).
        by apply list_elem_of_filter in Hin as [_ Hin]. }
      assert (v_id existing = id) as Hid.
      { assert (existing ∈ eq_rows v_id id (reviews db)) as Hin' by (rewrite Hex; left).
        by apply list_elem_of_filter in Hin' as [Hid _]. }
      pose proof (elem_of_update_rows v_id id (patch_review p) _ existing Hin) as Hup.
      by rewrite decide_True in Hup.
    + intros r Hr Hid. by apply refreshResourceRating_heals.
  - intros id. unfold deleteReview.
    destruct (authenticated user) as [uid|]; [|done].
    destruct (single (eq_rows v_id id (reviews db))) as [existing|] eqn:Hex; [|done].
    case_decide; [done|]. destruct (negb _); [done|]. cbn [fst snd].
    intros _. cbv zeta. exists existing. split; [done|]. split.
    + rewrite refreshResourceRating_reviews. simpl. apply eq_rows_delete_rows.
    + intros r Hr Hid. by apply refreshResourceRating_heals.
Qed.

(** ** Listing the reviews of a resource *)

Lemma sort_desc_fmap_sorted {A B} (key : A -> Z) (key' : B -> Z) (f : A -> B)
    (l : list A) :
  (forall x, key' (f x) = key x) ->
  StronglySorted (desc key') (f <$> sort_desc key l).
Proof.
  intros Hkey. apply (StronglySorted_fmap f (desc key) (desc key')).
  - intros x y Hxy. unfold desc in *. by rewrite !Hkey.
  - apply sort_desc_sorted.
Qed.

Lemma reviewers_NoDup db resourceId :
  unique_pairs db -> NoDup (v_user_id <$> eq_rows v_resource_id resourceId (reviews db)).
Proof.
  intros Hnd.
  assert (NoDup (review_pair <$> eq_rows v_resource_id resourceId (reviews db))) as Hnd'.
  { eapply unique_pairs_sublist; [|exact Hnd]. apply sublist_filter. }
  replace (v_user_id <$> eq_rows v_resource_id resourceId (reviews db))
    with (snd <$> (review_pair <$> eq_rows v_resource_id resourceId (reviews db)))
    by (by rewrite <- list_fmap_compose).
  apply NoDup_fmap_2_strong; [|done].
  intros [r1 u1] [r2 u2] H1 H2. simpl. intros ->.
  apply list_elem_of_fmap in H1 as (v1 & Hp1 & Hv1).
  apply list_elem_of_fmap in H2 as (v2 & Hp2 & Hv2).
  apply list_elem_of_filter in Hv1 as [Hr1 _].
  apply list_elem_of_filter in Hv2 as [Hr2 _].
  unfold review_pair in *. congruence.
Qed.

(** X11: [getReviewsForResource] answers 400 without a non-empty
    [resourceId]; otherwise it lists the reviews stored for the resource, each
    exactly once, newest first; their ratings are those the aggregator reads;
    while reviews are unique per reviewer no user appears twice; and in
    a consistent store the length of the list is the resource's
    [total_ratings]. *)
Theorem reviews_listing (resourceId : uuid) (db : Db) :
  resourceId <> EmptyString ->
  getReviewsForResource None db
  = Rejected (json 400 (ErrorBody "resourceId query parameter is required"))
  ∧ getReviewsForResource (Some EmptyString) db
    = Rejected (json 400 (ErrorBody "resourceId query parameter is required"))
  ∧ exists listed,
      getReviewsForResource (Some resourceId) db = Replied 200 listed
      ∧ listed ≡ₚ review_view db <$> eq_rows v_resource_id resourceId (reviews db)
      ∧ StronglySorted (fun a b => rv_createdAt b <= rv_createdAt a) listed
      ∧ rv_rating <$> listed ≡ₚ ratings_of resourceId db
      ∧ (unique_pairs db -> NoDup (rv_userId <$> listed))
      ∧ (consistent db ->
         forall r, r ∈ resources db -> r_id r = resourceId ->
           r_total_ratings r = Z.of_nat (length listed)).
Proof.
  intros Hne. split; [done|]. split; [done|].
  eexists. split.
  { unfold getReviewsForResource. by rewrite truthy_Some. }
  simpl default.
  assert (review_view db <$> sort_desc v_created_at
                               (eq_rows v_resource_id resourceId (reviews db))
          ≡ₚ review_view db <$> eq_rows v_resource_id resourceId (reviews db)) as Hperm
    by (by rewrite sort_desc_perm).
  split; [exact Hperm|]. split; [|split; [|split]].
  - by apply (sort_desc_fmap_sorted v_created_at rv_createdAt).
  - rewrite Hperm, <- list_fmap_compose. done.
  - intros Hnd. rewrite Hperm, <- list_fmap_compose. by apply reviewers_NoDup.
  - intros (_ & _ & Hagg) r Hr Hid. destruct (Hagg r Hr) as [Htot _].
    rewrite Htot, Hid. unfold totalRatings, ratings_of.
    by rewrite Hperm, !length_fmap.
Qed.

(** ** Requests over time *)

Lemma refreshResourceRating_requests fault resourceId db :
  resource_requests (refreshResourceRating fault resourceId db) = resource_requests db.
Proof. unfold refreshResourceRating. by destruct (decide (fault = UpdateResourceFails)). Qed.

Lemma refreshResourceRating_ids fault resourceId db :
  r_id <$> resources (refreshResourceRating fault resourceId db) = r_id <$> resources db.
Proof.
  unfold refreshResourceRating.
  destruct (decide (fault = UpdateResourceFails)); [done|]. simpl.
  by apply fmap_update_rows.
Qed.

Lemma later_state_refl row : later_state row row.
Proof. unfold later_state. auto 10. Qed.

Lemma later_state_trans row1 row2 row3 :
  later_state row1 row2 -> later_state row2 row3 -> later_state row1 row3.
Proof.
  unfold later_state. intros (?&?&?&?&?&?&?&?) (?&?&?&?&?&?&?&?).
  repeat split; try congruence. auto.
Qed.

Lemma Forall2_fmap_same {A} (R : A -> A -> Prop) (f : A -> A) (l : list A) :
  (forall x, R x (f x)) -> Forall2 R l (f <$> l).
Proof. intros Hf. induction l; simpl; constructor; auto. Qed.

Lemma Forall2_later_refl (l : list RequestRow) : Forall2 later_state l l.
Proof. induction l; constructor; auto using later_state_refl. Qed.

Lemma serve_requests (rq : Request) (db : Db) :
  exists old added,
    resource_requests (serve rq db).2 = old ++ added
    ∧ Forall2 later_state (resource_requests db) old.
Proof.
  assert (exists old added,
             resource_requests db = old ++ added
             ∧ Forall2 later_state (resource_requests db) old) as Hsame.
  { exists (resource_requests db), []. split; [by rewrite app_nil_r|].
    apply Forall2_later_refl. }
  destruct rq as [op|user parsed now fresh]; [destruct op|]; simpl.
  - unfold createResource. by repeat case_match.
  - unfold updateResource. by repeat case_match.
  - unfold deleteResource. repeat case_match; try done. simpl.
    exists (clear_fulfilled id <$> resource_requests db), [].
    split; [by rewrite app_nil_r|]. apply Forall2_fmap_same.
    intros row. unfold clear_fulfilled.
    destruct (decide (q_fulfilled_resource_id row = Some id));
      [|apply later_state_refl]. unfold later_state. simpl. auto 10.
  - unfold fulfillRequest. repeat case_match; try done. simpl.
    eexists _, []. split; [by rewrite app_nil_r|]. unfold update_rows.
    apply Forall2_fmap_same. intros row.
    destruct (decide (q_id row = id)); [|apply later_state_refl].
    unfold later_state. simpl. auto 10.
  - unfold updateProfile. by repeat case_match.
  - unfold createReview. repeat case_match; try done. cbn [snd].
    by rewrite refreshResourceRating_requests.
  - unfold updateReview. repeat case_match; try done. cbn [snd].
    by rewrite refreshResourceRating_requests.
  - unfold deleteReview. repeat case_match; try done. cbn [snd].
    by rewrite refreshResourceRating_requests.
  - unfold createRequest. repeat case_match; try done. simpl.
    eexists _, _. split; [done|]. apply Forall2_later_refl.
Qed.

(** X12: no sequence of requests deletes, reorders or reopens a request: the
    requests stored before are still there afterwards, in the same order and
    before any new one, each with its id, text, requester and creation time,
    and each one that was fulfilled is still fulfilled. *)
Theorem requests_are_kept_and_never_reopened (rqs : list Request) (db : Db) :
  exists old added,
    resource_requests (serve_all rqs db) = old ++ added
    ∧ Forall2 later_state (resource_requests db) old.
Proof.
  revert db. induction rqs as [|rq rqs IH]; intros db.
  - exists (resource_requests db), []. split; [by rewrite app_nil_r|].
    apply Forall2_later_refl.
  - simpl. destruct (serve_requests rq db) as (old1 & added1 & Heq1 & Hold1).
    destruct (IH (serve rq db).2) as (old2 & added2 & Heq2 & Hold2).
    rewrite Heq1 in Hold2.
    apply Forall2_app_inv_l in Hold2 as (o2a & o2b & Ha & Hb & ->).
    exists o2a, (o2b ++ added2). split; [by rewrite Heq2, app_assoc|].
    clear -Hold1 Ha. revert o2a Ha.
    induction Hold1 as [|x y l k Hxy _ IHl]; intros o2a Ha.
    + by apply Forall2_nil_inv_l in Ha as ->.
    + apply Forall2_cons_inv_l in Ha as (z & o & Hyz & Ho & ->).
      constructor; [by eapply later_state_trans|by apply IHl].
Qed.

Lemma serve_well_formed (rq : Request) (db : Db) :
  requests_well_formed db -> requests_well_formed (serve rq db).2.
Proof.
  intros Hwf.
  assert (forall db', resource_requests db' = resource_requests db ->
                      r_id <$> resources db' = r_id <$> resources db ->
                      requests_well_formed db') as Hsame.
  { intros db' Hq Hr row rid. rewrite Hq, Hr. apply Hwf. }
  destruct rq as [op|user parsed now fresh]; [destruct op|]; simpl.
  - unfold createResource. repeat case_match; try done.
    all: intros row rid Hrow Hsome; simpl in *;
      destruct (Hwf row rid Hrow Hsome) as [? ?];
      split; [done|]; rewrite fmap_app; apply elem_of_app; by left.
  - unfold updateResource. repeat case_match; try done. simpl.
    apply Hsame; [done|]. simpl. by apply fmap_update_rows.
  - unfold deleteResource. repeat case_match; try done. simpl.
    intros row rid Hrow Hsome. simpl in *.
    apply list_elem_of_fmap in Hrow as (row0 & -> & Hrow0).
    unfold clear_fulfilled in *. case_decide as Hc; [done|].
    destruct (Hwf row0 rid Hrow0 Hsome) as [Hst Hin]. split; [done|].
    apply list_elem_of_fmap in Hin as (res & -> & Hres).
    apply list_elem_of_fmap. exists res. split; [done|].
    apply list_elem_of_filter. split; [|done]. congruence.
  - unfold fulfillRequest.
    destruct (authenticated user); [|done]. destruct (negb _); [done|].
    destruct (bool_decide (eq_rows _ _ _ <> [])) eqn:Hsome;
      destruct (bool_decide (_ ∉ _)) eqn:Hnot; simpl; try done.
    + apply bool_decide_eq_false in Hnot. apply dec_stable in Hnot.
      intros row rid Hrow Hrid. simpl in *.
      apply elem_of_update_rows_inv in Hrow as (row0 & Hrow0 & ->).
      case_decide; [|by apply (Hwf row0)]. simpl in Hrid. by simplify_eq.
    + apply bool_decide_eq_false in Hsome. apply dec_stable in Hsome.
      rewrite update_rows_none, with_requests_same by done. done.
    + apply bool_decide_eq_false in Hsome. apply dec_stable in Hsome.
      rewrite update_rows_none, with_requests_same by done. done.
  - unfold updateProfile. by repeat case_match.
  - unfold createReview. repeat case_match; try done. cbn [snd].
    apply Hsame; [by rewrite refreshResourceRating_requests|].
    by rewrite refreshResourceRating_ids.
  - unfold updateReview. repeat case_match; try done. cbn [snd].
    apply Hsame; [by rewrite refreshResourceRating_requests|].
    by rewrite refreshResourceRating_ids.
  - unfold deleteReview. repeat case_match; try done. cbn [snd].
    apply Hsame; [by rewrite refreshResourceRating_requests|].
    by rewrite refreshResourceRating_ids.
  - unfold createRequest. repeat case_match; try done. simpl.
    intros row rid Hrow Hrid. simpl in *.
    apply elem_of_app in Hrow as [Hrow|Hrow]; [by apply (Hwf row)|].
    by apply list_elem_of_singleton in Hrow as ->.
Qed.

(** X13: over any sequence of requests, a request that names a fulfilling
    resource is in status fulfilled and the resource it names is stored: an
    open request never carries a resource, and deleting a resource leaves no
    request pointing at it. *)
Theorem requests_stay_well_formed (rqs : list Request) (db : Db) :
  requests_well_formed db -> requests_well_formed (serve_all rqs db).
Proof.
  revert db. induction rqs as [|rq rqs IH]; intros db Hwf; [done|].
  simpl. apply IH. by apply serve_well_formed.
Qed.

(** X14: a request that [createRequest] answers 201 is stored as the last
    row, open, carrying no resource, owned by the caller and stamped with the
    store's time; [getRequests] then lists it, with one entry more than
    before; a caller without a profile row is refused by the store. *)
Theorem created_request_is_open_and_listed user parsed now fresh db view db' :
  createRequest user parsed now fresh db = (Replied 201 view, db') ->
  (exists uid p,
      authenticated user = Some uid ∧ parsed = Some p
      ∧ uid ∈ p_id <$> profiles db
      ∧ view = request_view db' (new_request fresh uid now p)
      ∧ resource_requests db' = resource_requests db ++ [new_request fresh uid now p])
  ∧ rq_id view = fresh ∧ rq_status view = open
  ∧ rq_fulfilledResourceId view = None ∧ rq_createdAt view = now
  ∧ Some (rq_requesterId view) = req_user_id user
  ∧ exists listed,
      getRequests db' = Replied 200 listed
      ∧ view ∈ listed
      ∧ length listed = S (length (resource_requests db)).
Proof.
  unfold createRequest.
  destruct (authenticated user) as [uid|] eqn:Hauth; [|done].
  destruct parsed as [p|]; [|done].
  destruct (bool_decide (fresh ∈ _)) eqn:Hfresh; [done|].
  destruct (bool_decide (uid ∉ _)) eqn:Hprof; [done|]. simpl.
  intros [= <- <-].
  apply bool_decide_eq_false in Hprof. apply dec_stable in Hprof.
  apply authenticated_Some in Hauth as [Hid _].
  split; [exists uid, p; by repeat split|].
  repeat (split; [done|]).
  eexists. split; [reflexivity|]. split.
  - apply list_elem_of_fmap_2. apply elem_of_sort_desc. simpl.
    apply elem_of_app. right. left.
  - rewrite length_fmap, sort_desc_perm. simpl. rewrite length_app. simpl. lia.
Qed.

(** ** Writing a profile and reading it back *)

Lemma updateProfile_updated user parsed db updated db' :
  updateProfile user parsed db = (json 200 (ProfileBody updated), db') ->
  exists uid payload existing,
    authenticated user = Some uid ∧ parsed = Some payload
    ∧ single (eq_rows p_id uid (profiles db)) = Some existing
    ∧ updated = patch_profile payload existing
    ∧ single (eq_rows p_id uid (profiles db')) = Some updated
    ∧ db' = with_profiles db (update_rows p_id uid (patch_profile payload) (profiles db)).
Proof.
  unfold updateProfile.
  destruct (authenticated user) as [uid|] eqn:Hauth; [|done].
  destruct parsed as [payload|]; [|done].
  destruct (profile_patch_empty payload); [done|].
  rewrite eq_rows_update_rows, single_fmap by done.
  destruct (single (eq_rows p_id uid (profiles db))) as [existing|] eqn:Hex; [|done].
  simpl. intros [= <- <-]. exists uid, payload, existing.
  repeat split; try done. simpl.
  by rewrite eq_rows_update_rows, single_fmap, Hex by done.
Qed.


(** X16: visibility follows the viewer's current college.  Once a profile
    update naming a new college has been answered 200, [getResourceById]
    decides for that user with the new college: a private resource of
    another uploader is served exactly when its stored college is the new
    one, and the user's own resources stay served. *)
Theorem college_change_moves_visibility user payload db updated db' college :
  updateProfile user (Some payload) db = (json 200 (ProfileBody updated), db') ->
  pu_college payload = Some college ->
  forall id resource,
    single (eq_rows r_id id (resources db')) = Some resource ->
    resources db' = resources db
    ∧ getResourceById user id db' =
      if decide (r_privacy resource = public) then json 200 (ResourceBody resource)
      else if decide (Some (r_uploader_id resource) = req_user_id user)
      then json 200 (ResourceBody resource)
      else if decide (r_college resource = college)
      then json 200 (ResourceBody resource)
      else json 403 (ErrorBody "Private resource access denied").
Proof.
  intros Hupd Hcollege id resource Hres.
  apply updateProfile_updated in Hupd
    as (uid & payload' & existing & Hauth & [= <-] & Hex & -> & Hex' & ->).
  split; [done|].
  unfold getResourceById. rewrite Hres.
  apply authenticated_Some in Hauth as [Hid Htruthy]. rewrite Htruthy, Hid.
  simpl negb. change (default EmptyString (Some uid)) with uid.
  simpl in Hex'. simpl profiles. rewrite Hex'. simpl. rewrite Hcollege. simpl.
  destruct (r_privacy resource) eqn:Hpriv.
  - by rewrite decide_False, decide_True.
  - rewrite decide_True, decide_False by done.
    destruct (decide (Some (r_uploader_id resource) = Some uid)) as [Hown|Hown].
    + by rewrite bool_decide_true.
    + rewrite (bool_decide_false (Some (r_uploader_id resource) = Some uid)) by done.
      destruct (decide (r_college resource = college)) as [Hc|Hc].
      * by rewrite bool_decide_true by (by rewrite Hc).
      * rewrite bool_decide_false; [done|]. congruence.
Qed.

(** ** The client's edit window against the server's *)

Lemma isWithinEditWindow_spec now createdAt :
  isWithinEditWindow now createdAt = true <-> now - createdAt < LOCK_WINDOW_MS.
Proof. unfold isWithinEditWindow. apply Z.ltb_lt. Qed.

Lemma isWithin24Hours_spec now createdAt :
  isWithin24Hours now createdAt = true <-> now - createdAt <= LOCK_WINDOW_MS.
Proof. unfold isWithin24Hours. apply Z.leb_le. Qed.

(** X17: the client's [isWithinEditWindow] is strict where the server's
    [isWithin24Hours] is not: whenever the client considers an item editable
    the server does too, at that instant and one millisecond later; the two
    disagree exactly when 24 hours have elapsed to the millisecond (the
    page shows the item locked, the server would accept); and an item the
    client considers locked stays locked. *)
Theorem client_window_within_server_window (now createdAt : Z) :
  (isWithinEditWindow now createdAt = true ->
     isWithin24Hours now createdAt = true ∧ isWithin24Hours (now + 1) createdAt = true)
  ∧ (isWithinEditWindow now createdAt <> isWithin24Hours now createdAt
     <-> now - createdAt = 24 * 60 * 60 * 1000)
  ∧ (forall later, now <= later ->
       isWithinEditWindow now createdAt = false ->
       isWithinEditWindow later createdAt = false).
Proof.
  change (24 * 60 * 60 * 1000) with LOCK_WINDOW_MS.
  split; [|split].
  - rewrite isWithinEditWindow_spec, !isWithin24Hours_spec. lia.
  - destruct (isWithinEditWindow now createdAt) eqn:Hc;
      destruct (isWithin24Hours now createdAt) eqn:Hs.
    + apply isWithinEditWindow_spec in Hc. split; [done|lia].
    + apply isWithinEditWindow_spec in Hc.
      apply not_true_iff_false in Hs. rewrite isWithin24Hours_spec in Hs. lia.
    + apply not_true_iff_false in Hc. rewrite isWithinEditWindow_spec in Hc.
      apply isWithin24Hours_spec in Hs. split; [lia|done].
    + apply not_true_iff_false in Hc. rewrite isWithinEditWindow_spec in Hc.
      apply not_true_iff_false in Hs. rewrite isWithin24Hours_spec in Hs.
      split; [done|lia].
  - intros later Hlater Hc. apply not_true_iff_false.
    apply not_true_iff_false in Hc. rewrite isWithinEditWindow_spec in *. lia.
Qed.

(** X18: when the detail page offers the owner to edit a resource, the
    server lets that owner's update and delete of the stored row through its
    guard at the same clock reading: the delete is answered 200, and so is
    the update unless its payload names no column, which the store refuses
    (500); at exactly 24 hours the page shows the resource as locked although
    the server would still answer the same. *)
Theorem offered_edit_is_accepted (user : option AuthenticatedUser) (u : User)
    (now : Z) (db : Db) (id : uuid) (existing : ResourceRow) (p : ResourceUpdate) :
  authenticated user = Some (u_id u) ->
  single (eq_rows r_id id (resources db)) = Some existing ->
  (canEditResource now (Some u) (served db existing) = true ->
     status (updateResource user (Some p) id now db).1
     = (if resource_patch_empty p then 500 else 200)
     ∧ status (deleteResource user id now db).1 = 200)
  ∧ (isOwner (Some u) (served db existing) = true ->
     now - r_created_at existing = 24 * 60 * 60 * 1000 ->
     resourceLocked now (Some u) (served db existing) = true
     ∧ status (updateResource user (Some p) id now db).1
       = (if resource_patch_empty p then 500 else 200)
     ∧ status (deleteResource user id now db).1 = 200).
Proof.
  intros Hauth Hex.
  rewrite (updateResource_guard user _ now db Hauth p id existing Hex).
  rewrite (deleteResource_guard user _ now db Hauth id existing Hex).
  change (24 * 60 * 60 * 1000) with LOCK_WINDOW_MS.
  unfold canEditResource, resourceLocked, isOwner. simpl.
  split.
  - rewrite andb_true_iff, bool_decide_eq_true, isWithinEditWindow_spec.
    intros [[= ->] Hlt]. rewrite canMutate_owner_within by lia.
    by destruct (resource_patch_empty p).
  - rewrite bool_decide_eq_true. intros [= ->] Helapsed.
    rewrite canMutate_owner_within by lia.
    rewrite bool_decide_true by done.
    split; [|by destruct (resource_patch_empty p)]. simpl. apply negb_true_iff.
    apply not_true_iff_false. rewrite isWithinEditWindow_spec. lia.
Qed.

(** ** The client's access screen against the server's predicate *)

(** X19: for a signed-in user the detail page's [isBlocked] is stricter than
    the server's visibility predicate: a resource the page does not block is
    one the server lets that user see; the page blocks a resource the server
    would serve exactly when the user uploaded a private resource and no
    longer has the college recorded on it; for the anonymous visitor the
    page blocks nothing. *)
Theorem blocked_page_against_canView (db : Db) (row : ResourceRow) (u : User) :
  (isBlocked (Some u) (served db row) = false ->
     canView (Some (viewer_of u)) row = true)
  ∧ (isBlocked (Some u) (served db row) = true
     ∧ canView (Some (viewer_of u)) row = true
     <-> r_privacy row = private ∧ r_uploader_id row = u_id u
         ∧ u_college u <> r_college row)
  ∧ isBlocked None (served db row) = false.
Proof.
  unfold isBlocked, canView. simpl. destruct (r_privacy row) eqn:Hpriv.
  - rewrite bool_decide_false by done. simpl. split; [done|]. split; [|done].
    split; [by intros [? _]|by intros [? _]].
  - rewrite bool_decide_true by done. simpl. split; [|split; [|done]].
    + rewrite bool_decide_eq_false. intros Hsame. apply dec_stable in Hsame.
      by rewrite orb_true_iff, !bool_decide_eq_true; right.
    + rewrite bool_decide_eq_true, orb_true_iff, !bool_decide_eq_true.
      split.
      * intros [Hne [Hown|Hsame]]; [done|by destruct Hne].
      * intros (_ & Hown & Hne). split; [done|by left].
Qed.

(** ** The dashboard's points against the leaderboard's *)

Lemma fold_left_sum {A} (g : A -> Z) (l : list A) (a : Z) :
  fold_left (fun sum r => sum + g r) l a = a + fold_left (fun sum r => sum + g r) l 0.
Proof.
  revert a. induction l as [|x l IH]; intros a; simpl; [lia|].
  rewrite (IH (a + g x)), (IH (0 + g x)). lia.
Qed.

Lemma pointsFromUploads_served db u rows :
  pointsFromUploads (myResources (Some u) (refreshResources db rows))
  = points_spec (u_id u) rows.
Proof.
  unfold pointsFromUploads, myResources, refreshResources.
  induction rows as [|r rows IH]; [done|].
  rewrite !fmap_cons, filter_cons, points_spec_cons. simpl c_contributorId.
  destruct (decide (r_uploader_id r = u_id u)) as [Hown|Hown].
  - simpl fold_left. rewrite fold_left_sum, IH. reflexivity.
  - rewrite IH. lia.
Qed.

Lemma points_spec_filter_keep u (f : ResourceRow -> bool) rows :
  (forall r, r ∈ rows -> r_uploader_id r = u -> f r = true) ->
  points_spec u (List.filter f rows) = points_spec u rows.
Proof.
  induction rows as [|r rows IH]; intros Hkeep; [done|].
  simpl. destruct (f r) eqn:Hf.
  - rewrite !points_spec_cons, IH; [done|].
    intros r' Hr'. apply Hkeep. by right.
  - rewrite points_spec_cons, IH.
    + rewrite decide_False; [done|]. intros Hown.
      rewrite Hkeep in Hf; [done|left|done].
    + intros r' Hr'. apply Hkeep. by right.
Qed.

Lemma points_spec_public_only u rows :
  points_spec u (List.filter (fun row => bool_decide (r_privacy row = public)) rows)
  = points_spec u rows - 5 * owned u private rows.
Proof.
  induction rows as [|r rows IH]; [done|].
  simpl. rewrite points_spec_cons, owned_cons.
  destruct (r_privacy r) eqn:Hpriv.
  - rewrite bool_decide_true by done. rewrite points_spec_cons, IH, Hpriv.
    rewrite (decide_False (P := _ ∧ _)) by (by intros [_ ?]). lia.
  - rewrite bool_decide_false by done. rewrite IH.
    destruct (decide (r_uploader_id r = u)) as [Hown|Hown].
    + rewrite (decide_True (P := _ ∧ _)) by done.
      rewrite (decide_False (P := private = public)) by done. lia.
    + rewrite (decide_False (P := _ ∧ _)) by (by intros [? _]). lia.
Qed.

Lemma filter_all {A} (l : list A) : List.filter (fun _ => true) l = l.
Proof. induction l as [|x l IH]; simpl; congruence. Qed.

(** X20: the dashboard's "points from uploads", computed from the cached
    resource list, against the points the leaderboard shows for the same
    user.  From the list the handler [getResources] returns for that user as
    the request's user they are equal; from the list the router actually
    serves (the route does not install [authMiddleware]) the dashboard
    misses 5 points for every private resource of the user. *)
Theorem dashboard_points_against_leaderboard
    (getUser : string -> option AuthenticatedUser) (authorization : option string)
    (now : Z) (fresh : uuid) (user : option AuthenticatedUser) (u : User)
    (db : Db) (profile : ProfileRow) :
  p_id profile = u_id u ->
  (forall rows,
     resolves user db (Some (viewer_of u)) ->
     getResources user (fun _ => true) db = json 200 (ResourcesBody rows) ->
     pointsFromUploads (myResources (Some u) (refreshResources db rows))
     = leaderboard_points db profile)
  ∧ (forall rows,
     (resourceRoutes getUser (GetResources (fun _ => true)) authorization now fresh db).1
     = Sent (json 200 (ResourcesBody rows)) ->
     pointsFromUploads (myResources (Some u) (refreshResources db rows))
     = leaderboard_points db profile - 5 * owned (u_id u) private (resources db)).
Proof.
  intros Hid. rewrite leaderboard_points_spec, Hid. split.
  - intros rows Hres Hget.
    rewrite (getResources_canView user db _ _ Hres) in Hget.
    injection Hget as <-. rewrite pointsFromUploads_served.
    rewrite points_spec_filter_keep.
    + rewrite filter_all. apply points_spec_perm, sort_desc_perm.
    + intros r _ Hown. unfold canView. destruct (r_privacy r); [done|].
      simpl. rewrite bool_decide_true by done. done.
  - intros rows Hget. simpl in Hget. rewrite getResources_anonymous in Hget.
    injection Hget as <-. rewrite pointsFromUploads_served.
    rewrite points_spec_public_only, filter_all.
    rewrite (points_spec_perm _ _ _ (sort_desc_perm r_created_at (resources db))).
    unfold owned. by rewrite (sort_desc_perm r_created_at (resources db)).
Qed.

(** ** The rating breakdown of the detail page *)

Lemma ratingBreakdown_counts_cons r reviews :
  b_count <$> ratingBreakdown (r :: reviews)
  = zip_with (fun star n =>
                ((if decide (cv_rating r = star) then 1 else 0) + n)%nat)
      [5; 4; 3; 2; 1] (b_count <$> ratingBreakdown reviews).
Proof.
  unfold ratingBreakdown. simpl. rewrite !filter_cons.
  by repeat (destruct (decide (cv_rating r = _))).
Qed.

(** X21: [ratingBreakdown] has one bar per star from 5 down to 1, and its
    counts never add up to more than the number of reviews; they add up to
    exactly that number if and only if every review's rating is one of 1..5
    (which the store's check constraint guarantees for stored reviews). *)
Theorem ratingBreakdown_counts (reviews : list Review) :
  b_star <$> ratingBreakdown reviews = [5; 4; 3; 2; 1]
  ∧ (sum_list (b_count <$> ratingBreakdown reviews) <= length reviews)%nat
  ∧ (sum_list (b_count <$> ratingBreakdown reviews) = length reviews
     <-> Forall (fun r => 1 <= cv_rating r <= 5) reviews).
Proof.
  split; [done|].
  induction reviews as [|r reviews [IHle IHeq]].
  { split; [done|]. split; [by constructor|done]. }
  rewrite ratingBreakdown_counts_cons, Forall_cons, <- IHeq.
  remember (b_count <$> ratingBreakdown reviews) as counts eqn:Hcounts.
  assert (length counts = 5%nat) as Hlen by (by subst counts).
  destruct counts as [|c5 [|c4 [|c3 [|c2 [|c1 [|]]]]]]; try done.
  simpl in *.
  repeat (destruct (decide (cv_rating r = _)) as [?|?]); simpl; lia.
Qed.

(** ** The client's review cache *)

Lemma filter_Forall_id {A} (P : A -> Prop) `{!forall x, Decision (P x)} (l : list A) :
  Forall P l -> filter P l = l.
Proof.
  induction 1 as [|x l Hx _ IH]; [done|].
  by rewrite filter_cons_True, IH.
Qed.

Lemma filter_Forall_nil {A} (P : A -> Prop) `{!forall x, Decision (P x)} (l : list A) :
  Forall (fun x => ~ P x) l -> filter P l = [].
Proof.
  induction 1 as [|x l Hx _ IH]; [done|].
  by rewrite filter_cons_False, IH.
Qed.

Lemma filter_filter_same {A} (P : A -> Prop) `{!forall x, Decision (P x)} (l : list A) :
  filter P (filter P l) = filter P l.
Proof.
  apply filter_Forall_id, Forall_forall. intros x Hx.
  by apply list_elem_of_filter in Hx as [? _].
Qed.

Lemma mapped_resourceId resourceId (listed : list ReviewJson) :
  Forall (fun j => jv_resourceId j = resourceId) listed ->
  Forall (fun r => cv_resourceId r = resourceId) (mapReview <$> listed).
Proof. intros H. apply Forall_fmap. exact H. Qed.

Lemma cached_after_load resourceId listed prev :
  Forall (fun j => jv_resourceId j = resourceId) listed ->
  cachedReviewsForResource (loadReviewsForResource resourceId listed prev) resourceId
  = mapReview <$> listed.
Proof.
  intros Hall. apply mapped_resourceId in Hall.
  unfold cachedReviewsForResource, loadReviewsForResource. cbv zeta.
  rewrite filter_app, (filter_Forall_id _ _ Hall), filter_Forall_nil; [done|].
  apply Forall_forall. intros r Hr. by apply list_elem_of_filter in Hr as [? _].
Qed.

Lemma listed_resourceId resourceId db views :
  getReviewsForResource (Some resourceId) db = Replied 200 views ->
  Forall (fun j => jv_resourceId j = resourceId) (review_json <$> views).
Proof.
  unfold getReviewsForResource. destruct (negb _); [done|]. intros [= <-].
  rewrite <- list_fmap_compose. apply Forall_fmap, Forall_forall.
  intros v Hv. simpl. apply elem_of_sort_desc in Hv.
  by apply list_elem_of_filter in Hv as [? _].
Qed.

(** X22: once [loadReviewsForResource] has put the server's listing of a
    resource into the cache, the cache's reviews of that resource are exactly
    the listed ones in the server's order, the cached reviews of every other
    resource are as before, and loading the same listing again changes
    nothing; after [addReview] the optimistic copy of the created review is
    gone, so the new review is held once. *)
Theorem loaded_reviews_replace_cached (resourceId : uuid) (db : Db)
    (views : list ReviewView) (prev : list Review) :
  getReviewsForResource (Some resourceId) db = Replied 200 views ->
  let listed := review_json <$> views in
  let cache := loadReviewsForResource resourceId listed prev in
  cachedReviewsForResource cache resourceId = mapReview <$> listed
  ∧ (forall other, other <> resourceId ->
       cachedReviewsForResource cache other = cachedReviewsForResource prev other)
  ∧ loadReviewsForResource resourceId listed cache = cache
  ∧ (forall created,
       cachedReviewsForResource (addReview resourceId created listed prev) resourceId
       = mapReview <$> listed).
Proof.
  intros Hget listed cache. pose proof (listed_resourceId _ _ _ Hget) as Hall.
  fold listed in Hall. split; [by apply cached_after_load|].
  split; [|split].
  - intros other Hother. subst cache.
    unfold cachedReviewsForResource, loadReviewsForResource. cbv zeta.
    rewrite filter_app, list_filter_filter.
    rewrite (filter_Forall_nil _ (mapReview <$> listed)).
    + rewrite app_nil_r. apply list_filter_iff. intros r. split; [tauto|].
      intros Hr. split; [done|congruence].
    + apply mapped_resourceId in Hall. eapply Forall_impl; [exact Hall|].
      simpl. intros r Hr. congruence.
  - subst cache. unfold loadReviewsForResource. cbv zeta.
    rewrite filter_app, filter_filter_same.
    rewrite (filter_Forall_nil _ (mapReview <$> listed)); [by rewrite app_nil_r|].
    apply mapped_resourceId in Hall. eapply Forall_impl; [exact Hall|].
    simpl. intros r Hr Hne. done.
  - intros created. unfold addReview. by apply cached_after_load.
Qed.

(** ** Ties in a descending sort *)

Section SortStable.
Context {A : Type} (key : A -> Z).

Lemma insert_desc_filter_key (k : Z) (x : A) (l : list A) :
  filter (fun y => key y = k) (insert_desc key x l)
  = filter (fun y => key y = k) (x :: l).
Proof.
  induction l as [|y l IH]; simpl; [done|].
  destruct (key y <=? key x) eqn:Hle; [done|].
  apply Z.leb_gt in Hle.
  rewrite (filter_cons _ y), IH, !filter_cons.
  destruct (decide (key y = k)), (decide (key x = k)); try done. lia.
Qed.

Lemma sort_desc_stable (k : Z) (l : list A) :
  filter (fun y => key y = k) (sort_desc key l) = filter (fun y => key y = k) l.
Proof.
  induction l as [|x l IH]; simpl; [done|].
  by rewrite insert_desc_filter_key, !filter_cons, IH.
Qed.
End SortStable.

(** X23: profiles with the same number of points appear on the leaderboard
    in the order in which the store returned their rows: for every point
    value, the leaderboard's entries with that value are the profiles' entries
    with that value, in the order of the profile rows. *)
Theorem leaderboard_ties_keep_store_order (profileRows : list ProfileRow)
    (resourceRows : list ResourceRow) (points : Z) :
  filter (fun e => e_points e = points) (computeLeaderboard profileRows resourceRows)
  = filter (fun e => e_points e = points) (entry_spec resourceRows <$> profileRows).
Proof.
  unfold computeLeaderboard. rewrite sort_desc_stable. f_equal.
  apply list_fmap_ext. intros _ profile _. apply leaderboard_entry_spec.
Qed.

(** ** The resource browser *)

Lemma nonempty_true s : nonempty s = true <-> s <> EmptyString.
Proof.
  unfold nonempty. rewrite negb_true_iff. split.
  - intros H ->. by rewrite String.eqb_refl in H.
  - intros H. by apply String.eqb_neq.
Qed.

Lemma elem_of_List_filter {A} (f : A -> bool) (l : list A) (x : A) :
  x ∈ List.filter f l <-> x ∈ l ∧ f x = true.
Proof. by rewrite !list_elem_of_In, filter_In. Qed.

Lemma elem_of_filter_if value field result r :
  r ∈ filter_if value field result
  <-> r ∈ result ∧ (value <> EmptyString -> field r = value).
Proof.
  unfold filter_if. destruct (nonempty value) eqn:Hv.
  - apply nonempty_true in Hv. rewrite elem_of_List_filter, String.eqb_eq. tauto.
  - apply not_true_iff_false in Hv. rewrite nonempty_true in Hv.
    apply dec_stable in Hv. subst value. tauto.
Qed.

Lemma sublist_List_filter {A} (f : A -> bool) (l : list A) :
  sublist (List.filter f l) l.
Proof.
  induction l as [|x l IH]; simpl; [done|].
  destruct (f x); by constructor.
Qed.

Lemma sublist_filter_if value field result :
  sublist (filter_if value field result) result.
Proof.
  unfold filter_if. destruct (nonempty value); [apply sublist_List_filter|done].
Qed.

(** X24: the resources the home page shows are exactly the cached resources
    that pass every active criterion (exam mode, search term, and each
    non-empty filter); with one of the three sort orders they are sorted by
    non-increasing date, rating or downloads, resources that tie staying in
    cache order, and with any other value of [sortBy] they stay in cache
    order. *)
Theorem filteredResources_shown (toLowerCase : string -> string)
    (resources : list Resource) (examMode : bool) (search : string)
    (filters : Filters) (sortBy : string) :
  let shown := filteredResources toLowerCase resources examMode search filters sortBy in
  (forall r, r ∈ shown <->
     r ∈ resources
     ∧ (examMode = true -> c_isExamImportant r = true ∨ 45 <= c_averageRating r)
     ∧ (search <> EmptyString -> matches_search toLowerCase search r = true)
     ∧ (f_course filters <> EmptyString -> c_course r = f_course filters)
     ∧ (f_branch filters <> EmptyString -> c_branch r = f_branch filters)
     ∧ (f_semester filters <> EmptyString -> c_semester r = f_semester filters)
     ∧ (f_resourceType filters <> EmptyString ->
        c_resourceType r = f_resourceType filters)
     ∧ (f_year filters <> EmptyString -> c_year r = f_year filters)
     ∧ (f_privacy filters <> EmptyString ->
        privacy_text (c_privacy r) = f_privacy filters))
  ∧ (sortBy = "latest" ->
     StronglySorted (desc c_createdAt) shown
     ∧ forall t, sublist (filter (fun r => c_createdAt r = t) shown) resources)
  ∧ (sortBy = "highest-rated" ->
     StronglySorted (desc c_averageRating) shown
     ∧ forall a, sublist (filter (fun r => c_averageRating r = a) shown) resources)
  ∧ (sortBy = "most-popular" ->
     StronglySorted (desc c_downloads) shown
     ∧ forall d, sublist (filter (fun r => c_downloads r = d) shown) resources)
  ∧ (sortBy <> "latest" -> sortBy <> "highest-rated" -> sortBy <> "most-popular" ->
     sublist shown resources).
Proof.
  intros shown. subst shown. unfold filteredResources. cbv zeta.
  set (kept :=
    filter_if (f_privacy filters) (fun r => privacy_text (c_privacy r))
      (filter_if (f_year filters) c_year
         (filter_if (f_resourceType filters) c_resourceType
            (filter_if (f_semester filters) c_semester
               (filter_if (f_branch filters) c_branch
                  (filter_if (f_course filters) c_course
                     (if nonempty search
                      then List.filter (matches_search toLowerCase search)
                             (if examMode
                              then List.filter
                                     (fun r => c_isExamImportant r
                                               || (45 <=? c_averageRating r))
                                     resources
                              else resources)
                      else if examMode
                           then List.filter
                                  (fun r => c_isExamImportant r
                                            || (45 <=? c_averageRating r))
                                  resources
                           else resources))))))).
  assert (sublist kept resources) as Hsub.
  { subst kept. repeat (etrans; [apply sublist_filter_if|]).
    destruct (nonempty search), examMode;
      repeat (etrans; [apply sublist_List_filter|]); done. }
  assert (forall r, r ∈ kept <->
     r ∈ resources
     ∧ (examMode = true -> c_isExamImportant r = true ∨ 45 <= c_averageRating r)
     ∧ (search <> EmptyString -> matches_search toLowerCase search r = true)
     ∧ (f_course filters <> EmptyString -> c_course r = f_course filters)
     ∧ (f_branch filters <> EmptyString -> c_branch r = f_branch filters)
     ∧ (f_semester filters <> EmptyString -> c_semester r = f_semester filters)
     ∧ (f_resourceType filters <> EmptyString ->
        c_resourceType r = f_resourceType filters)
     ∧ (f_year filters <> EmptyString -> c_year r = f_year filters)
     ∧ (f_privacy filters <> EmptyString ->
        privacy_text (c_privacy r) = f_privacy filters)) as Hmem.
  { intros r. subst kept. rewrite !elem_of_filter_if.
    assert (r ∈ (if examMode
                 then List.filter
                        (fun r => c_isExamImportant r || (45 <=? c_averageRating r))
                        resources
                 else resources)
            <-> r ∈ resources
                ∧ (examMode = true ->
                   c_isExamImportant r = true ∨ 45 <= c_averageRating r)) as Hexam.
    { destruct examMode.
      - rewrite elem_of_List_filter, orb_true_iff, Z.leb_le. tauto.
      - split; [by intros ?; split|by intros [? _]]. }
    assert (r ∈ (if nonempty search
                 then List.filter (matches_search toLowerCase search)
                        (if examMode
                         then List.filter
                                (fun r => c_isExamImportant r
                                          || (45 <=? c_averageRating r))
                                resources
                         else resources)
                 else if examMode
                      then List.filter
                             (fun r => c_isExamImportant r
                                       || (45 <=? c_averageRating r))
                             resources
                      else resources)
            <-> r ∈ resources
                ∧ (examMode = true ->
                   c_isExamImportant r = true ∨ 45 <= c_averageRating r)
                ∧ (search <> EmptyString ->
                   matches_search toLowerCase search r = true)) as ->.
    { destruct (nonempty search) eqn:Hs.
      - apply nonempty_true in Hs. rewrite elem_of_List_filter, Hexam. tauto.
      - apply not_true_iff_false in Hs. rewrite nonempty_true in Hs.
        apply dec_stable in Hs. rewrite Hexam. subst search. tauto. }
    split.
    - intros (((((((? & ? & ?) & ?) & ?) & ?) & ?) & ?) & ?).
      repeat (split; [assumption|]). assumption.
    - intros (? & ? & ? & ? & ? & ? & ? & ? & ?).
      repeat (split; [|assumption]). repeat (split; [assumption|]). assumption. }
  split; [|split; [|split; [|split]]].
  - intros r. rewrite <- Hmem.
    repeat (destruct (String.eqb sortBy _)); by rewrite ?elem_of_sort_desc.
  - intros ->. simpl String.eqb. cbv iota. split; [apply sort_desc_sorted|].
    intros t. rewrite sort_desc_stable.
    etrans; [apply sublist_filter|done].
  - intros ->. simpl String.eqb. cbv iota. split; [apply sort_desc_sorted|].
    intros a. rewrite sort_desc_stable.
    etrans; [apply sublist_filter|done].
  - intros ->. simpl String.eqb. cbv iota. split; [apply sort_desc_sorted|].
    intros d. rewrite sort_desc_stable.
    etrans; [apply sublist_filter|done].
  - intros H1 H2 H3.
    apply String.eqb_neq in H1, H2, H3. by rewrite H1, H2, H3.
Qed.

(** ** Submitting a review from a loaded cache *)

Lemma listed_views resourceId db views :
  getReviewsForResource (Some resourceId) db = Replied 200 views ->
  forall v, v ∈ views <->
    exists row, row ∈ reviews db ∧ v_resource_id row = resourceId
                ∧ v = review_view db row.
Proof.
  unfold getReviewsForResource. destruct (negb _); [done|]. intros [= <-] v.
  rewrite list_elem_of_fmap. simpl default. split.
  - intros (row & -> & Hrow). apply elem_of_sort_desc in Hrow.
    apply list_elem_of_filter in Hrow as [Hrid Hrow]. by exists row.
  - intros (row & Hrow & Hrid & ->). exists row. split; [done|].
    apply elem_of_sort_desc. by apply list_elem_of_filter.
Qed.

(** X25: with the server's listing of the resource's reviews loaded into the
    cache, [handleSubmitReview] sends a create request only when the user has
    no stored review of the resource, so [createReview] does not answer it
    with 409; and it sends an update only for the id of a stored review of
    that resource written by that user; without a user or a rating it sends
    nothing. *)
Theorem submitted_review_matches_store (fault : StoreFault)
    (user : option AuthenticatedUser) (u : User) (db : Db) (row : ResourceRow)
    (views : list ReviewView) (prev : list Review)
    (reviewRating : Z) (reviewComment : string) (now : Z) (fresh : uuid) :
  authenticated user = Some (u_id u) ->
  getReviewsForResource (Some (r_id row)) db = Replied 200 views ->
  let cache := loadReviewsForResource (r_id row) (review_json <$> views) prev in
  let resource := served db row in
  (forall req,
     handleSubmitReview cache (Some u) resource reviewRating reviewComment
     = SubmitCreate req ->
     (forall v, v ∈ reviews db -> v_resource_id v = r_id row -> v_user_id v <> u_id u)
     ∧ status (createReview fault user req now fresh db).1 <> 409)
  ∧ (forall id req,
     handleSubmitReview cache (Some u) resource reviewRating reviewComment
     = SubmitUpdate id req ->
     req = {| upd_rating := Some reviewRating; upd_comment := Some reviewComment |}
     ∧ exists v, v ∈ reviews db ∧ v_id v = id
                 ∧ v_resource_id v = r_id row ∧ v_user_id v = u_id u)
  ∧ handleSubmitReview cache None resource reviewRating reviewComment = NoSubmission
  ∧ handleSubmitReview cache (Some u) resource 0 reviewComment = NoSubmission.
Proof.
  intros Hauth Hget cache resource.
  pose proof (listed_views _ _ _ Hget) as Hviews.
  unfold handleSubmitReview, userReview, getUserReviewForResource.
  change (c_id resource) with (r_id row).
  split; [|split; [|done]].
  - intros req. destruct (decide (reviewRating = 0)) as [|Hrating]; [done|].
    destruct (find _ cache) as [existing|] eqn:Hfind; [done|]. intros [= <-].
    assert (forall v, v ∈ reviews db -> v_resource_id v = r_id row ->
                      v_user_id v <> u_id u) as Hnone.
    { intros v Hv Hrid Huid.
      pose proof (find_none _ _ Hfind
                    (mapReview (review_json (review_view db v)))) as Hno.
      simpl in Hno. rewrite !bool_decide_true in Hno by done.
      assert (In (mapReview (review_json (review_view db v))) cache) as Hin.
      { apply list_elem_of_In. unfold cache, loadReviewsForResource. cbv zeta.
        apply elem_of_app. right. rewrite <- list_fmap_compose.
        apply list_elem_of_fmap. exists (review_view db v). split; [done|].
        apply Hviews. by exists v. }
      by specialize (Hno Hin). }
    split; [exact Hnone|].
    unfold createReview. rewrite Hauth.
    destruct (reviewSchema _) as [payload|] eqn:Hschema; [|done].
    assert (in_resourceId payload = r_id row) as ->.
    { unfold reviewSchema in Hschema. destruct (_ && _); [|done].
      by injection Hschema as <-. }
    assert (eq_rows v_user_id (u_id u) (eq_rows v_resource_id (r_id row) (reviews db))
            = []) as ->.
    { apply filter_Forall_nil, Forall_forall. intros v Hv.
      apply list_elem_of_filter in Hv as [Hrid Hv]. by apply Hnone. }
    simpl. by destruct (negb _).
  - intros id req. destruct (decide (reviewRating = 0)) as [|Hrating]; [done|].
    destruct (find _ cache) as [existing|] eqn:Hfind; [|done]. intros [= <- <-].
    split; [done|].
    apply find_some in Hfind as [Hin Hmatch].
    apply andb_true_iff in Hmatch as [Hrid Huid].
    apply bool_decide_eq_true in Hrid, Huid.
    apply list_elem_of_In in Hin. unfold cache, loadReviewsForResource in Hin.
    cbv zeta in Hin. apply elem_of_app in Hin as [Hin|Hin].
    { by apply list_elem_of_filter in Hin as [? _]. }
    rewrite <- list_fmap_compose in Hin.
    apply list_elem_of_fmap in Hin as (view & -> & Hview).
    apply Hviews in Hview as (v & Hv & Hvrid & ->). by exists v.
Qed.

(** ** Deleting a resource on both sides *)

Lemma filter_fmap_comm {A B} (f : A -> B) (P : B -> Prop) (Q : A -> Prop)
    `{!forall x, Decision (P x)} `{!forall x, Decision (Q x)} (l : list A) :
  (forall x, P (f x) <-> Q x) ->
  filter P (f <$> l) = f <$> filter Q l.
Proof.
  intros HPQ. induction l as [|x l IH]; [done|].
  rewrite fmap_cons, !filter_cons, IH.
  destruct (decide (P (f x))) as [HP|HP], (decide (Q x)) as [HQ|HQ];
    try done; by apply HPQ in HP || apply HPQ in HQ.
Qed.

Lemma refreshResources_profiles db db' rows :
  profiles db' = profiles db -> refreshResources db' rows = refreshResources db rows.
Proof.
  intros Hp. unfold refreshResources. rewrite <- !list_fmap_compose.
  apply list_fmap_ext. intros _ row _. simpl.
  unfold mapResource, joined_name. by rewrite Hp.
Qed.

(** X26: once the server has deleted a resource, the two cache updates of
    the client's [deleteResource] leave the resource cache as a new fetch of
    the stored resources would fill it, and leave no cached review of the
    deleted resource, as the store holds none; the cached reviews of
    other resources are kept. *)
Theorem client_delete_mirrors_store (user : option AuthenticatedUser) (id : uuid)
    (now : Z) (db db' : Db) (cachedReviews : list Review) :
  deleteResource user id now db = (json 200 (MessageBody "Resource deleted"), db') ->
  let after := clientDeleteResource id (refreshResources db (resources db)) cachedReviews in
  after.1 = refreshResources db' (resources db')
  ∧ cachedReviewsForResource after.2 id = []
  ∧ eq_rows v_resource_id id (reviews db') = []
  ∧ (forall other, other <> id ->
       cachedReviewsForResource after.2 other
       = cachedReviewsForResource cachedReviews other).
Proof.
  intros Hdel after.
  apply deleteResource_deleted in Hdel as (uid & existing & _ & _ & _ & _ & ->).
  subst after. unfold clientDeleteResource. simpl fst. simpl snd.
  split; [|split; [|split]].
  - rewrite (refreshResources_profiles db (delete_resource_rows id db)) by done.
    simpl resources.
    unfold refreshResources, delete_rows. rewrite <- !list_fmap_compose.
    by apply filter_fmap_comm.
  - unfold cachedReviewsForResource. apply filter_Forall_nil, Forall_forall.
    intros r Hr. by apply list_elem_of_filter in Hr as [? _].
  - simpl. unfold eq_rows, delete_rows. apply filter_Forall_nil, Forall_forall.
    intros r Hr. by apply list_elem_of_filter in Hr as [? _].
  - intros other Hother. unfold cachedReviewsForResource.
    rewrite list_filter_filter. apply list_filter_iff. intros r.
    split; [tauto|]. intros Hr. split; [done|congruence].
Qed.

(** ** The properties on the sample store *)

(** Student 0 uploads the private sample resource and fetches it. *)
Lemma created_resource_is_served_witness :
  createResource (demo_user 0) (Some (demo_input private)) demo_t0 demo_resource_id demo_db
  = (json 201 (CreatedResourceBody demo_resource 5), demo_db1)
  ∧ getResourceById (demo_user 0) demo_resource_id demo_db1
    = json 200 (ResourceBody demo_resource).
Proof.
  assert (createResource (demo_user 0) (Some (demo_input private)) demo_t0
            demo_resource_id demo_db
          = (json 201 (CreatedResourceBody demo_resource 5), demo_db1)) as Hcreate
    by (vm_compute; reflexivity).
  split; [exact Hcreate|].
  destruct (created_resource_is_served _ _ _ _ _ _ _ _ Hcreate) as (_ & Hget & _).
  exact Hget.
Defined.

(** Student 0 deletes the sample resource with its two reviews. *)
Lemma deleted_resource_is_gone_witness :
  deleteResource (demo_user 0) demo_resource_id (demo_t0 + 5000) demo_db2
  = (json 200 (MessageBody "Resource deleted"),
     delete_resource_rows demo_resource_id demo_db2)
  ∧ eq_rows v_resource_id demo_resource_id
      (reviews (delete_resource_rows demo_resource_id demo_db2)) = [].
Proof.
  assert (deleteResource (demo_user 0) demo_resource_id (demo_t0 + 5000) demo_db2
          = (json 200 (MessageBody "Resource deleted"),
             delete_resource_rows demo_resource_id demo_db2)) as Hdelete
    by (vm_compute; reflexivity).
  split; [exact Hdelete|].
  destruct (deleted_resource_is_gone _ _ _ _ _ Hdelete) as (_ & Hnone & _).
  exact Hnone.
Defined.

(** The private sample upload is announced with 5 points. *)
Lemma upload_adds_awarded_points_witness :
  createResource (demo_user 0) (Some (demo_input private)) demo_t0 demo_resource_id demo_db
  = (json 201 (CreatedResourceBody demo_resource 5), demo_db1)
  ∧ leaderboard_points demo_db1 (demo_profile 0)
    = leaderboard_points demo_db (demo_profile 0)
      + (if decide (r_uploader_id demo_resource = p_id (demo_profile 0)) then 5 else 0).
Proof.
  assert (createResource (demo_user 0) (Some (demo_input private)) demo_t0
            demo_resource_id demo_db
          = (json 201 (CreatedResourceBody demo_resource 5), demo_db1)) as Hcreate
    by (vm_compute; reflexivity).
  split; [exact Hcreate|].
  destruct (upload_adds_awarded_points _ _ _ _ _ _ _ _ Hcreate) as [_ Hpoints].
  exact (Hpoints (demo_profile 0)).
Defined.

(** Deleting the sample resource takes its points from student 0. *)
Lemma delete_takes_points_back_witness :
  deleteResource (demo_user 0) demo_resource_id (demo_t0 + 5000) demo_db2
  = (json 200 (MessageBody "Resource deleted"),
     delete_resource_rows demo_resource_id demo_db2)
  ∧ exists existing,
      single (eq_rows r_id demo_resource_id (resources demo_db2)) = Some existing
      ∧ leaderboard_points (delete_resource_rows demo_resource_id demo_db2) (demo_profile 0)
        = leaderboard_points demo_db2 (demo_profile 0)
          - (if decide (r_uploader_id existing = p_id (demo_profile 0))
             then upload_points (r_privacy existing) else 0).
Proof.
  assert (deleteResource (demo_user 0) demo_resource_id (demo_t0 + 5000) demo_db2
          = (json 200 (MessageBody "Resource deleted"),
             delete_resource_rows demo_resource_id demo_db2)) as Hdelete
    by (vm_compute; reflexivity).
  split; [exact Hdelete|].
  destruct (delete_takes_points_back _ _ _ _ _ Hdelete) as (existing & Hex & Hpoints).
  exists existing. split; [exact Hex|]. exact (Hpoints (demo_profile 0)).
Defined.

(** Student 0 makes the private sample resource public. *)
Lemma privacy_edit_moves_points_witness :
  updateResource (demo_user 0) (Some demo_publish) demo_resource_id (demo_t0 + 1000) demo_db1
  = (json 200 (ResourceBody (patch_resource demo_publish demo_resource)),
     (updateResource (demo_user 0) (Some demo_publish) demo_resource_id
        (demo_t0 + 1000) demo_db1).2)
  ∧ exists existing,
      single (eq_rows r_id demo_resource_id (resources demo_db1)) = Some existing
      ∧ r_uploader_id (patch_resource demo_publish demo_resource) = r_uploader_id existing.
Proof.
  assert (updateResource (demo_user 0) (Some demo_publish) demo_resource_id
            (demo_t0 + 1000) demo_db1
          = (json 200 (ResourceBody (patch_resource demo_publish demo_resource)),
             (updateResource (demo_user 0) (Some demo_publish) demo_resource_id
                (demo_t0 + 1000) demo_db1).2)) as Hupdate
    by (vm_compute; reflexivity).
  split; [exact Hupdate|].
  destruct (privacy_edit_moves_points _ _ _ _ _ _ _ Hupdate) as (existing & Hex & Hown & _).
  exists existing. split; [exact Hex|exact Hown].
Defined.

(** The two reviews of the sample resource are listed. *)
Lemma reviews_listing_witness :
  demo_resource_id <> EmptyString
  ∧ exists listed,
      getReviewsForResource (Some demo_resource_id) demo_db2 = Replied 200 listed
      ∧ rv_rating <$> listed ≡ₚ ratings_of demo_resource_id demo_db2.
Proof.
  assert (demo_resource_id <> EmptyString) as Hne by discriminate.
  split; [exact Hne|].
  destruct (reviews_listing demo_resource_id demo_db2 Hne)
    as (_ & _ & listed & Hget & _ & _ & Hratings & _).
  exists listed. split; [exact Hget|exact Hratings].
Defined.

(** The sample request stays well formed while the resource is uploaded and
    the request fulfilled with it. *)
Lemma requests_stay_well_formed_witness :
  requests_well_formed demo_db
  ∧ requests_well_formed
      (serve_all [Plain demo_upload;
                  Plain (FulfillRequest (demo_user 0) (Some demo_resource_id)
                           (demo_uuid "d" 1))] demo_db).
Proof.
  assert (requests_well_formed demo_db) as Hwf.
  { intros row rid Hrow Hful. apply list_elem_of_singleton in Hrow.
    subst row. discriminate Hful. }
  split; [exact Hwf|].
  exact (requests_stay_well_formed _ demo_db Hwf).
Defined.

(** Student 0 posts a second request. *)
Lemma created_request_is_open_and_listed_witness :
  createRequest (demo_user 0) (Some demo_request_input) demo_t0 (demo_uuid "d" 2) demo_db
  = (Replied 201
       (request_view demo_db
          (new_request (demo_uuid "d" 2) (demo_uuid "a" 0) demo_t0 demo_request_input)),
     (createRequest (demo_user 0) (Some demo_request_input) demo_t0
        (demo_uuid "d" 2) demo_db).2)
  ∧ rq_status
      (request_view demo_db
         (new_request (demo_uuid "d" 2) (demo_uuid "a" 0) demo_t0 demo_request_input))
    = open.
Proof.
  assert (createRequest (demo_user 0) (Some demo_request_input) demo_t0
            (demo_uuid "d" 2) demo_db
          = (Replied 201
               (request_view demo_db
                  (new_request (demo_uuid "d" 2) (demo_uuid "a" 0) demo_t0
                     demo_request_input)),
             (createRequest (demo_user 0) (Some demo_request_input) demo_t0
                (demo_uuid "d" 2) demo_db).2)) as Hcreate
    by (vm_compute; reflexivity).
  split; [exact Hcreate|].
  destruct (created_request_is_open_and_listed _ _ _ _ _ _ _ Hcreate)
    as (_ & _ & Hopen & _).
  exact Hopen.
Defined.


(** After moving to the uploader's college, student 2 is served the private
    sample resource. *)
Lemma college_change_moves_visibility_witness :
  updateProfile (demo_user 2) (Some demo_college_update) demo_db1
  = (json 200 (ProfileBody (patch_profile demo_college_update (demo_profile 2))),
     (updateProfile (demo_user 2) (Some demo_college_update) demo_db1).2)
  ∧ pu_college demo_college_update = Some "St. Claret College"
  ∧ status (getResourceById (demo_user 2) demo_resource_id demo_db1) = 403
  ∧ getResourceById (demo_user 2) demo_resource_id
      (updateProfile (demo_user 2) (Some demo_college_update) demo_db1).2
    = json 200 (ResourceBody demo_resource).
Proof.
  assert (updateProfile (demo_user 2) (Some demo_college_update) demo_db1
          = (json 200 (ProfileBody (patch_profile demo_college_update (demo_profile 2))),
             (updateProfile (demo_user 2) (Some demo_college_update) demo_db1).2))
    as Hupdate by (vm_compute; reflexivity).
  split; [exact Hupdate|]. split; [reflexivity|]. split; [vm_compute; reflexivity|].
  destruct (college_change_moves_visibility _ _ _ _ _ _ Hupdate eq_refl
              demo_resource_id demo_resource) as [_ Hget].
  { vm_compute. reflexivity. }
  rewrite Hget. vm_compute. reflexivity.
Defined.

(** One second after the upload the page offers student 0 to edit the
    sample resource, and the server accepts the edit that makes it public. *)
Lemma offered_edit_is_accepted_witness :
  authenticated (demo_user 0) = Some (u_id (demo_client 0))
  ∧ single (eq_rows r_id demo_resource_id (resources demo_db1)) = Some demo_resource
  ∧ canEditResource (demo_t0 + 1000) (Some (demo_client 0)) (served demo_db1 demo_resource)
    = true
  ∧ status (updateResource (demo_user 0) (Some demo_publish) demo_resource_id
              (demo_t0 + 1000) demo_db1).1 = 200.
Proof.
  assert (single (eq_rows r_id demo_resource_id (resources demo_db1)) = Some demo_resource)
    as Hex by (vm_compute; reflexivity).
  assert (canEditResource (demo_t0 + 1000) (Some (demo_client 0))
            (served demo_db1 demo_resource) = true) as Hedit
    by (vm_compute; reflexivity).
  split; [reflexivity|]. split; [exact Hex|]. split; [exact Hedit|].
  destruct (offered_edit_is_accepted (demo_user 0) (demo_client 0) (demo_t0 + 1000)
              demo_db1 demo_resource_id demo_resource demo_publish eq_refl Hex)
    as [Hoffered _].
  destruct (Hoffered Hedit) as [Hupdate _]. exact Hupdate.
Defined.

(** The dashboard of student 0 shows the 5 points of the leaderboard when
    the resource list is the one the handler returns for student 0. *)
Lemma dashboard_points_against_leaderboard_witness :
  p_id (demo_profile 0) = u_id (demo_client 0)
  ∧ pointsFromUploads
      (myResources (Some (demo_client 0)) (refreshResources demo_db1 [demo_resource]))
    = leaderboard_points demo_db1 (demo_profile 0).
Proof.
  split; [reflexivity|].
  destruct (dashboard_points_against_leaderboard (fun _ => None) None 0 EmptyString
              (demo_user 0) (demo_client 0) demo_db1 (demo_profile 0) eq_refl)
    as [Hhandler _].
  apply Hhandler.
  - split; [reflexivity|]. split; [vm_compute; reflexivity|discriminate].
  - vm_compute. reflexivity.
Defined.

(** The listing of the two sample reviews is loaded into an empty cache. *)
Lemma loaded_reviews_replace_cached_witness :
  getReviewsForResource (Some demo_resource_id) demo_db2 = Replied 200 demo_views
  ∧ cachedReviewsForResource
      (loadReviewsForResource demo_resource_id (review_json <$> demo_views) [])
      demo_resource_id
    = mapReview <$> (review_json <$> demo_views).
Proof.
  assert (getReviewsForResource (Some demo_resource_id) demo_db2 = Replied 200 demo_views)
    as Hget by (vm_compute; reflexivity).
  split; [exact Hget|].
  destruct (loaded_reviews_replace_cached demo_resource_id demo_db2 demo_views [] Hget)
    as [Hcached _].
  exact Hcached.
Defined.

(** Student 3, who has not reviewed the sample resource, submits 4 stars:
    a create request that is not answered 409. *)
Lemma submitted_review_matches_store_witness :
  authenticated (demo_user 3) = Some (u_id (demo_client 3))
  ∧ getReviewsForResource (Some (r_id demo_resource)) demo_db2 = Replied 200 demo_views
  ∧ handleSubmitReview
      (loadReviewsForResource (r_id demo_resource) (review_json <$> demo_views) [])
      (Some (demo_client 3)) (served demo_db2 demo_resource) 4 EmptyString
    = SubmitCreate {| body_resourceId := demo_resource_id; body_rating := 4;
                      body_comment := Some EmptyString |}
  ∧ status (createReview NoFault (demo_user 3)
              {| body_resourceId := demo_resource_id; body_rating := 4;
                 body_comment := Some EmptyString |}
              (demo_t0 + 5000) (demo_uuid "c" 3) demo_db2).1 <> 409.
Proof.
  assert (getReviewsForResource (Some (r_id demo_resource)) demo_db2
          = Replied 200 demo_views) as Hget by (vm_compute; reflexivity).
  assert (handleSubmitReview
            (loadReviewsForResource (r_id demo_resource) (review_json <$> demo_views) [])
            (Some (demo_client 3)) (served demo_db2 demo_resource) 4 EmptyString
          = SubmitCreate {| body_resourceId := demo_resource_id; body_rating := 4;
                            body_comment := Some EmptyString |}) as Hsubmit
    by (vm_compute; reflexivity).
  split; [reflexivity|]. split; [exact Hget|]. split; [exact Hsubmit|].
  destruct (submitted_review_matches_store NoFault (demo_user 3) (demo_client 3)
              demo_db2 demo_resource demo_views [] 4 EmptyString (demo_t0 + 5000)
              (demo_uuid "c" 3) eq_refl Hget) as [Hcreate _].
  destruct (Hcreate _ Hsubmit) as [_ Hstatus]. exact Hstatus.
Defined.

(** After student 0 deletes the sample resource, the client's cache is what
    a new fetch would give. *)
Lemma client_delete_mirrors_store_witness :
  deleteResource (demo_user 0) demo_resource_id (demo_t0 + 5000) demo_db2
  = (json 200 (MessageBody "Resource deleted"),
     delete_resource_rows demo_resource_id demo_db2)
  ∧ (clientDeleteResource demo_resource_id
       (refreshResources demo_db2 (resources demo_db2)) []).1
    = refreshResources (delete_resource_rows demo_resource_id demo_db2)
        (resources (delete_resource_rows demo_resource_id demo_db2)).
Proof.
  assert (deleteResource (demo_user 0) demo_resource_id (demo_t0 + 5000) demo_db2
          = (json 200 (MessageBody "Resource deleted"),
             delete_resource_rows demo_resource_id demo_db2)) as Hdelete
    by (vm_compute; reflexivity).
  split; [exact Hdelete|].
  destruct (client_delete_mirrors_store _ _ _ _ _ [] Hdelete) as [Hcache _].
  exact Hcache.
Defined.
